(** * cspc_api: a shallow embedding of the CSPC client and its properties

    The development follows [cspc_api.py]: the credential context built by
    [CspcApi.__init__], the transport ([_xml], the seed file upload), the
    ElementTree queries the device facade relies on ([findtext], [find],
    [findall]), the device filters, the CSV row formatter and the
    XML-to-mapping decoder.

    Python [str] values are modelled by [string]; the text handled here
    (tag names, status words, host names, CSV columns) is ASCII.  [None]
    is modelled by [option], a raised exception by the [Raise] outcome of
    [result], and the HTTP exchange, the template files and the clock by
    explicit passing of a [World].  Log calls have no effect on results
    and are left out.

    The code leans on three libraries.  Of [xml.etree.ElementTree] the
    model has elements, [find], [findtext], [findall] and [iter] for
    paths that are plain tag names or [.//name], [append], and
    [tostring]; [ElementTree.fromstring] stays a parameter.  Of
    [xmltodict] it has the handler behind [parse] with its default
    options, fed by a tokenizer for a fragment of XML that stands for
    expat.  Of [requests] it has the arguments of a [post] and the status
    code and text of a response. *)

From Stdlib Require Import Ascii String.
From stdpp Require Import base option list strings gmap pretty.

#[local] Set Warnings "-register-all".

(** ** Python string operations *)

Module PyStr.

Definition nl : ascii := "010"%char.
Definition dquote : ascii := "034"%char.
Definition comma : ascii := ","%char.

Definition newline : string := String nl EmptyString.
Definition quoted (s : string) : string :=
  String dquote EmptyString +:+ s +:+ String dquote EmptyString.

(** [str(b)] for a [bool] *)
Definition str_bool (b : bool) : string := if b then "True" else "False".

(** [str(x)] where [x] is a [str] or [None] *)
Definition str_opt (o : option string) : string :=
  match o with
  | Some s => s
  | None => "None"
  end.

(** [c.lower()] on one ASCII character *)
Definition lower_ascii (c : ascii) : ascii :=
  let n := nat_of_ascii c in
  if (65 <=? n)%nat && (n <=? 90)%nat then ascii_of_nat (n + 32) else c.

(** [s.lower()] on ASCII text.  No character outside ASCII lowers to a
    letter of ["reachable"], so comparing the result with that word
    decides as Python does on any text. *)
Fixpoint lower (s : string) : string :=
  match s with
  | EmptyString => EmptyString
  | String c r => String (lower_ascii c) (lower r)
  end.

(** [s.startswith(p)] *)
Fixpoint startswith (p s : string) : bool :=
  match p, s with
  | EmptyString, _ => true
  | String a p', String b s' => bool_decide (a = b) && startswith p' s'
  | String _ _, EmptyString => false
  end.

(** [s.endswith(p)] *)
Fixpoint endswith (p s : string) : bool :=
  bool_decide (s = p) ||
  match s with
  | EmptyString => false
  | String _ r => endswith p r
  end.

(** [needle in hay] *)
Fixpoint contains (needle hay : string) : bool :=
  startswith needle hay ||
  match hay with
  | EmptyString => false
  | String _ r => contains needle r
  end.

(** [s[:n]] for [0 <= n] *)
Fixpoint take (n : nat) (s : string) : string :=
  match n, s with
  | S n', String c r => String c (take n' r)
  | _, _ => EmptyString
  end.

(** [s[:-k]] for [0 < k]: everything but the last [k] characters *)
Definition slice_to_neg (k : nat) (s : string) : string :=
  take (String.length s - k) s.

(** [s.count(c)] for a one-character [c] *)
Fixpoint count (c : ascii) (s : string) : nat :=
  match s with
  | EmptyString => 0
  | String a r => (if bool_decide (a = c) then 1 else 0) + count c r
  end.

(** [s.split(c)] for a one-character separator [c] *)
Fixpoint split (c : ascii) (s : string) : list string :=
  match s with
  | EmptyString => [EmptyString]
  | String a r =>
      if bool_decide (a = c) then EmptyString :: split c r
      else match split c r with
           | h :: t => String a h :: t
           | [] => [String a EmptyString]
           end
  end.

(** [sep.join(l)] *)
Fixpoint join (sep : string) (l : list string) : string :=
  match l with
  | [] => EmptyString
  | [x] => x
  | x :: t => x +:+ sep +:+ join sep t
  end.

(** the character [c] does not occur in [s] *)
Definition free_of (c : ascii) (s : string) : Prop := count c s = 0.

Global Instance free_of_dec c s : Decision (free_of c s).
Proof. unfold free_of. apply _. Defined.

End PyStr.

(** ** Outcomes of Python calls *)

(** What a response of the [requests] library exposes to this client. *)
Record Response := mkResponse {
  status_code : Z;
  text : string;
  resp_headers : list (string * string)
}.

Global Instance Response_eq_dec : EqDecision Response.
Proof. solve_decision. Defined.

Inductive exn :=
| RuntimeError (response : Response)   (* raised by [_xml] *)
| TransportError (reason : string)     (* any failure inside [requests] *)
| FileNotFoundError (path : string)    (* [open] in [_get_xml_payload] *)
| ParseError (reason : string)         (* ElementTree / expat *)
| AttributeError                       (* attribute access on [None] *)
| TypeError.                           (* [x in None] *)

Inductive result (A : Type) :=
| Ok (a : A)
| Raise (e : exn).
Arguments Ok {A} a.
Arguments Raise {A} e.

Global Instance result_ret : MRet result := fun A a => Ok a.
Global Instance result_bind : MBind result := fun A B k r =>
  match r with
  | Ok a => k a
  | Raise e => Raise e
  end.

Global Instance exn_eq_dec : EqDecision exn.
Proof. solve_decision. Defined.

(** A computation that may raise and that reads or updates a world [W]. *)
Definition M (W A : Type) : Type := W -> result A * W.

Global Instance M_ret {W} : MRet (M W) := fun A a w => (Ok a, w).
Global Instance M_bind {W} : MBind (M W) := fun A B k m w =>
  match m w with
  | (Ok a, w') => k a w'
  | (Raise e, w') => (Raise e, w')
  end.

Definition lift {W A} (r : result A) : M W A := fun w => (r, w).


(** ** base64.b64encode *)

Module Base64.

Definition alphabet : string :=
  "ABCDEFGHIJKLMNOPQRSTUVWXYZabcdefghijklmnopqrstuvwxyz0123456789+/".

Definition sextet (n : N) : ascii :=
  match String.get (N.to_nat (n mod 64)%N) alphabet with
  | Some c => c
  | None => "="%char
  end.

Definition pad : ascii := "="%char.

Fixpoint b64encode (s : string) : string :=
  match s with
  | EmptyString => EmptyString
  | String a EmptyString =>
      let n := (N_of_ascii a * 65536)%N in
      String (sextet (n / 262144)) (String (sextet (n / 4096))
        (String pad (String pad EmptyString)))
  | String a (String b EmptyString) =>
      let n := (N_of_ascii a * 65536 + N_of_ascii b * 256)%N in
      String (sextet (n / 262144)) (String (sextet (n / 4096))
        (String (sextet (n / 64)) (String pad EmptyString)))
  | String a (String b (String c r)) =>
      let n := (N_of_ascii a * 65536 + N_of_ascii b * 256 + N_of_ascii c)%N in
      String (sextet (n / 262144)) (String (sextet (n / 4096))
        (String (sextet (n / 64)) (String (sextet n) (b64encode r))))
  end.

End Base64.

(** ** The credential context: [CspcApi.__init__], [__str__], [__eq__] *)

Record Kwargs := mkKwargs {
  verify : bool;
  kw_headers : list (string * string)
}.

Record CspcApi := mkCspcApi {
  host : string;
  user : string;
  password : string;
  creds : string;
  encodedAuth : string;
  headers : list (string * string);
  kwargs : Kwargs
}.

(** [type(self).__name__] *)
Definition type_name : string := "CspcApi".

(** [CspcApi.__init__] (lines 21-50) *)
Definition __init__ (host0 user0 pwd : string) (verify0 : bool) : CspcApi :=
  let self_host := host0 +:+ ":8001" in
  let self_user := user0 in
  let self_password := pwd in
  let self_creds := PyStr.join ":" [self_user; self_password] in
  let self_encodedAuth := Base64.b64encode self_creds in
  let self_headers :=
    [ ("accept", "application/xml");
      ("Authorization", PyStr.join " " ["Basic"; self_encodedAuth]);
      ("cache-control", "no-cache") ] in
  {| host := self_host;
     user := self_user;
     password := self_password;
     creds := self_creds;
     encodedAuth := self_encodedAuth;
     headers := self_headers;
     kwargs := {| verify := verify0; kw_headers := self_headers |} |}.

(** [CspcApi.__str__] (line 53) *)
Definition __str__ (self : CspcApi) : string :=
  type_name +:+ "(" +:+ PyStr.quoted (PyStr.slice_to_neg 5 (host self))
    +:+ ", " +:+ PyStr.quoted (user self)
    +:+ ", " +:+ PyStr.quoted (password self)
    +:+ ", " +:+ PyStr.str_bool (verify (kwargs self)) +:+ ")".

(** [CspcApi.__eq__] (line 56) *)
Definition __eq__ (self other : CspcApi) : bool :=
  bool_decide ((host self, user self, password self, verify (kwargs self))
               = (host other, user other, password other, verify (kwargs other))).

(** ** The world the client talks to *)

(** The arguments of one [requests.post] call. *)
Record Request := mkRequest {
  req_link : string;
  req_data : option string;
  req_files : list (string * (option string * string));
  req_headers : list (string * string);
  req_verify : bool
}.

(** [time.localtime()] *)
Record struct_time := mkTime {
  tm_year : N; tm_mon : N; tm_mday : N;
  tm_hour : N; tm_min : N; tm_sec : N
}.

Record World := mkWorld {
  (** the appliance and the network: what [requests.post] gives for a
      request, after the requests issued so far *)
  reply : list Request -> Request -> string + Response;
  (** the file system seen by [open] *)
  files : string -> option string;
  (** the local clock *)
  localtime : struct_time;
  (** the requests issued so far, oldest first *)
  sent : list Request
}.

(** [requests.post]: the request is recorded as issued, also when the
    library raises. *)
Definition requests_post (r : Request) : M World Response := fun w =>
  (match reply w (sent w) r with
   | inl reason => Raise (TransportError reason)
   | inr response => Ok response
   end,
   {| reply := reply w; files := files w; localtime := localtime w;
      sent := sent w ++ [r] |}).

(** [open(path, 'r').read()] *)
Definition open_read (path : string) : M World string := fun w =>
  (match files w path with
   | Some content => Ok content
   | None => Raise (FileNotFoundError path)
   end, w).

(** A number of the clock in two digits. *)
Definition pad2 (n : N) : string :=
  if (n <? 10)%N then "0" +:+ pretty n else pretty n.

(** [time.strftime("%Y%m%d-%H%M%S")] *)
Definition strftime_Ymd_HMS : M World string := fun w =>
  let t := localtime w in
  (Ok (pretty (tm_year t) +:+ pad2 (tm_mon t) +:+ pad2 (tm_mday t) +:+ "-"
       +:+ pad2 (tm_hour t) +:+ pad2 (tm_min t) +:+ pad2 (tm_sec t)), w).

(** [os.path.join(a, b)] on POSIX *)
Definition os_path_join (a b : string) : string :=
  if PyStr.startswith "/" b then b
  else if bool_decide (a = EmptyString) || PyStr.endswith "/" a then a +:+ b
  else a +:+ "/" +:+ b.

(** ** Transport *)

Section Transport.

(** [CspcApi.xml_request_dir], fixed when the module is loaded *)
Variable xml_request_dir : string.

(** [CspcApi._xml] (lines 74-101) *)
Definition _xml (self : CspcApi) (payload : string) : M World string :=
  let link := "https://" +:+ host self +:+ "/cspc/xml" in
  response ← requests_post
    {| req_link := link; req_data := Some payload; req_files := [];
       req_headers := kw_headers (kwargs self);
       req_verify := verify (kwargs self) |};
  let body := text response in
  if bool_decide (status_code response ≠ 200%Z)
  then lift (Raise (RuntimeError response))
  else mret body.

(** [CspcApi._get_xml_payload] (lines 103-115) *)
Definition _get_xml_payload (request_name : string) : M World string :=
  let path := os_path_join xml_request_dir request_name in
  open_read path.

(** The job document of the seed file upload (lines 177-196). *)
Definition seed_xmlrequest (device_group_name seed_file_name : string) : string :=
  PyStr.join PyStr.newline
    [ EmptyString;
      "        <Request>";
      "            <Job>";
      "                <Schedule operationId=" +:+ PyStr.quoted "1" +:+ ">";
      "                <JobSchedule runnow=" +:+ PyStr.quoted "true" +:+ "/>";
      "                <ImportSeedFileJob jobName=" +:+ PyStr.quoted "testimport" +:+ ">";
      "                    <Description>Import SeedFile Job </Description>";
      "                    <DeviceGroup>" +:+ device_group_name +:+ "</DeviceGroup>";
      "                    <SeedFileDescr>cnc seed file</SeedFileDescr>";
      "                    <SeedFileFormat>CISCO_CNC_CSV</SeedFileFormat>";
      "                    <FileDetails>";
      "                    <SeedFileName>" +:+ seed_file_name +:+ "</SeedFileName>";
      "                    </FileDetails>";
      "                    <TriggerDiscovery>true</TriggerDiscovery>";
      "                    <TriggerDav>false</TriggerDav>";
      "                </ImportSeedFileJob>";
      "                </Schedule>";
      "            </Job>";
      "        </Request>";
      "        " ].

(** [CspcApi.send_and_import_seed_file_csv] (lines 166-214) *)
Definition send_and_import_seed_file_csv (self : CspcApi)
    (csv device_group_name : string) : M World string :=
  stamp ← strftime_Ymd_HMS;
  let seed_file_name := device_group_name +:+ "-" +:+ stamp +:+ ".csv" in
  let xmlrequest := seed_xmlrequest device_group_name seed_file_name in
  let link := "https://" +:+ host self +:+ "/cspc/seedfile" in
  let files := [ ("request", (None, xmlrequest));
                 ("file", (Some seed_file_name, csv)) ] in
  response ← requests_post
    {| req_link := link; req_data := None; req_files := files;
       req_headers := headers self; req_verify := false |};
  let body := text response in
  mret body.

End Transport.

(** ** xml.etree.ElementTree *)

Module ElementTree.

(** An element: its tag (written [{uri}local] when namespace-qualified),
    attributes, text before the first child, children in document
    order, and text after the closing tag. *)
Inductive Element := mkElement {
  tag : string;
  attrib : list (string * string);
  text : option string;
  children : list Element;
  tail : option string
}.

(** [ElementTree.Element(tag)] *)
Definition new (t : string) : Element :=
  {| tag := t; attrib := []; text := None; children := []; tail := None |}.

(** [elem.find(path)] for a plain tag name [path]: the first child
    with that tag.  The path language of ElementTree (wildcards, steps,
    predicates, prefixes) is not modelled: for a [path] that is not a
    plain tag name the library may select other elements or raise, so
    the statements about caller-supplied paths ask for [plain_tag]. *)
Fixpoint find_in (path : string) (cs : list Element) : option Element :=
  match cs with
  | [] => None
  | c :: r => if bool_decide (tag c = path) then Some c else find_in path r
  end.

Definition find (path : string) (elem : Element) : option Element :=
  find_in path (children elem).

(** [elem.findtext(path)]: the text of the first child with that tag,
    [""] if that child has no text, [None] if there is no such child. *)
Definition findtext (path : string) (elem : Element) : option string :=
  match find path elem with
  | Some c => Some (default EmptyString (text c))
  | None => None
  end.

(** The place of an element object inside a tree: the indices of the
    children to follow from the root.  It stands for the reference
    Python hands out, through which the tree is updated in place. *)
Definition handle : Type := list nat.

(** The elements below the children [cs], the first of which is child
    number [i], in document order. *)
Definition iter_children (iter : Element -> list (handle * Element))
    : nat -> list Element -> list (handle * Element) :=
  fix go (i : nat) (cs : list Element) : list (handle * Element) :=
    match cs with
    | [] => []
    | c :: r => map (fun pe => (i :: pe.1, pe.2)) (iter c) ++ go (S i) r
    end.

(** [elem.iter()]: the element and all elements below it in document
    order, each with its place. *)
Fixpoint iter (elem : Element) : list (handle * Element) :=
  ([], elem) :: iter_children iter 0 (children elem).

(** The elements selected by the path [.//t]: those yielded by
    [elem.iter(t)] other than [elem] itself. *)
Definition descendants (t : string) (elem : Element) : list (handle * Element) :=
  filter (fun pe => tag pe.2 = t) (List.tl (iter elem)).

(** [elem.findall('.//t')] *)
Definition findall_descendants (t : string) (elem : Element) : list Element :=
  (descendants t elem).*2.

(** [elem.find('.//t')] *)
Definition find_descendant (t : string) (elem : Element) : option handle :=
  head (descendants t elem).*1.

(** The element a handle refers to. *)
Fixpoint deref (elem : Element) (h : handle) : option Element :=
  match h with
  | [] => Some elem
  | i :: h' => c ← children elem !! i; deref c h'
  end.

Definition with_children (elem : Element) (cs : list Element) : Element :=
  {| tag := tag elem; attrib := attrib elem; text := text elem;
     children := cs; tail := tail elem |}.

(** [x.append(sub)] where [x] is the element at [h]: the tree after the
    update, [None] for a dangling handle. *)
Fixpoint append_at (elem : Element) (h : handle) (sub : Element) : option Element :=
  match h with
  | [] => Some (with_children elem (children elem ++ [sub]))
  | i :: h' =>
      c ← children elem !! i;
      c' ← append_at c h' sub;
      Some (with_children elem (<[i := c']> (children elem)))
  end.

(** [x.append(sub)] where [x] is what [find] returned: [None] has no
    [append]. *)
Definition append (tree : Element) (x : option handle) (sub : Element)
    : result Element :=
  match x with
  | None => Raise AttributeError
  | Some h =>
      match append_at tree h sub with
      | Some tree' => Ok tree'
      | None => Raise AttributeError
      end
  end.

End ElementTree.

Import ElementTree (Element).

(** ** Template engine *)

Definition ns_uri : string := "http://www.parinetworks.com/api/schemas/1.1".

(** The tag ElementTree gives to the prefixed name [ns:path]. *)
Definition qualified (path : string) : string :=
  "{" +:+ ns_uri +:+ "}" +:+ path.

(** [CspcApi._get_xml_elem] (lines 148-163), for a plain tag name
    [path]: [elem_tree.find('.//ns:path')], which gives [None] when
    nothing matches.  For a [path] that is more than a tag name the
    library reads it as a path expression, which is not modelled. *)
Definition _get_xml_elem (path : string) (elem_tree : Element)
    : result (option ElementTree.handle) :=
  Ok (ElementTree.find_descendant (qualified path) elem_tree).

(** ** Device query facade *)

(** The [value] argument of [get_devices_by]: a [str] or a [set] of [str]. *)
Inductive value :=
| VStr (s : string)
| VSet (items : gset string).

(** [item in string_to_check] *)
Definition py_in (item : string) (string_to_check : option string) : result bool :=
  match string_to_check with
  | Some s => Ok (PyStr.contains item s)
  | None => Raise TypeError
  end.

(** [any(item in string_to_check for item in check)]: the generator is
    consumed until the first true item. *)
Fixpoint any_in (check : list string) (string_to_check : option string)
    : result bool :=
  match check with
  | [] => Ok false
  | item :: rest =>
      b ← py_in item string_to_check;
      if b : bool then Ok true else any_in rest string_to_check
  end.

(** [CspcApi._check_in_str] (lines 279-282) *)
Definition _check_in_str (string_to_check : option string) (check : value)
    : result bool :=
  match check with
  | VStr s => py_in s string_to_check
  | VSet items => any_in (elements items) string_to_check
  end.

(** [x.lower()] where [x] is a [str] or [None] *)
Definition lower_of (x : option string) : result string :=
  match x with
  | Some s => Ok (PyStr.lower s)
  | None => Raise AttributeError
  end.

(** The [dev_dict] literal of [get_unreachable_devices] (lines 269-274). *)
Definition dev_dict (elem : Element) : gmap string string :=
  {[ "Id" := PyStr.str_opt (ElementTree.findtext "Id" elem);
     "HostName" := PyStr.str_opt (ElementTree.findtext "HostName" elem);
     "IPAddress" := PyStr.str_opt (ElementTree.findtext "IPAddress" elem);
     "Status" := PyStr.str_opt (ElementTree.findtext "Status" elem) ]}.

(** The loop of [get_unreachable_devices] (lines 267-275) over the
    remaining [devices], [unreachable_devices] being the list built so
    far. *)
Fixpoint unreachable_loop (devices : list Element)
    (unreachable_devices : list (gmap string string))
    : result (list (gmap string string)) :=
  match devices with
  | [] => Ok unreachable_devices
  | elem :: rest =>
      status ← lower_of (ElementTree.findtext "Status" elem);
      if bool_decide (status ≠ "reachable")
      then unreachable_loop rest (unreachable_devices ++ [dev_dict elem])
      else unreachable_loop rest unreachable_devices
  end.

(** The inner loop of [get_devices_by] (lines 311-313): one assignment
    [device_dict[child.tag] = str(device.findtext(child.tag))] per child. *)
Definition device_dict (device : Element) : gmap string string :=
  foldl (fun d child =>
           <[ElementTree.tag child :=
               PyStr.str_opt (ElementTree.findtext (ElementTree.tag child) device)]> d)
        ∅ (ElementTree.children device).

(** The loop of [get_devices_by] (lines 309-314) over the remaining
    [devices], [matched_devices] being the list built so far. *)
Fixpoint matched_loop (key : string) (v : value) (devices : list Element)
    (matched_devices : list (gmap string string))
    : result (list (gmap string string)) :=
  match devices with
  | [] => Ok matched_devices
  | device :: rest =>
      hit ← _check_in_str (ElementTree.findtext key device) v;
      if hit : bool
      then matched_loop key v rest (matched_devices ++ [device_dict device])
      else matched_loop key v rest matched_devices
  end.

Section Facade.

Variable xml_request_dir : string.

(** [ElementTree.fromstring]: the parser of the Python library. *)
Variable fromstring : string -> result Element.

(** [CspcApi.get_devices] (lines 216-255) with [return_json] left at
    its default, as the two filters below call it. *)
Definition get_devices (self : CspcApi) : M World (list Element) :=
  payload ← _get_xml_payload xml_request_dir "get_details_of_all_devices.xml";
  all_devices ← _xml self payload;
  tree ← lift (fromstring all_devices);
  let devices := ElementTree.findall_descendants "Device" tree in
  mret devices.

(** [CspcApi.get_unreachable_devices] (lines 257-277) *)
Definition get_unreachable_devices (self : CspcApi)
    : M World (list (gmap string string)) :=
  devices ← get_devices self;
  lift (unreachable_loop devices []).

(** [CspcApi.get_devices_by] (lines 284-315), for a plain tag name
    [key] *)
Definition get_devices_by (self : CspcApi) (key : string) (v : value)
    : M World (list (gmap string string)) :=
  devices ← get_devices self;
  lift (matched_loop key v devices []).

End Facade.

(** ** CSV seed file rows *)

(** [CspcApi.get_formatted_csv_device_entry] (lines 508-551) *)
Definition get_formatted_csv_device_entry
    (ipaddress hostname username password enable_password
     snmp_v2_RO snmp_v2_RW : string) : string :=
  let col1_IP_Address_including_domain_or_simply_an_IP := ipaddress in
  let col2_Host_Name := hostname in
  let col3_Domain_Name := EmptyString in
  let col4_Device_Identity := EmptyString in
  let col5_Display_Name := EmptyString in
  let col6_SysObjectID := EmptyString in
  let col7_DCR_Device_Type := EmptyString in
  let col8_MDF_Type := EmptyString in
  let col9_Snmp_RO := snmp_v2_RO in
  let col10_Snmp_RW := snmp_v2_RW in
  let col11_SnmpV3_User_Name := EmptyString in
  let col12_Snmp_V3_Auth_Pass := EmptyString in
  let col13_Snmp_V3_Engine_ID := EmptyString in
  let col14_Snmp_V3_Auth_Algorithm := EmptyString in
  let col15_RX_Boot_Mode_User := EmptyString in
  let col16_RX_Boot_Mode_Pass := EmptyString in
  let col17_Primary_User_Tacacs_User := username in
  let col18_Primary_Pass_Tacacs_Pass := password in
  let col19_Primary_Enable_Pass := enable_password in
  let col20_Http_User := EmptyString in
  let col21_Http_Pass := EmptyString in
  let col22_Http_Mode := EmptyString in
  let col23_Http_Port := EmptyString in
  let col24_Https_Port := EmptyString in
  let col25_Cert_Common_Name := EmptyString in
  let col26_Secondary_User := EmptyString in
  let col27_Secondary_Pass := EmptyString in
  let col28_Secondary_Enable_Pass := EmptyString in
  let col29_Secondary_Http_User := EmptyString in
  let col30_Secondary_Http_Pass := EmptyString in
  let col31_Snmp_V3_Priv_Algorithm := EmptyString in
  let col32_Snmp_V3_Priv_Pass := EmptyString in
  let col33_User_Field_1 := EmptyString in
  let col34_User_Field_2 := EmptyString in
  let col35_User_Field_3 := EmptyString in
  let col36_User_Field_4 := EmptyString in
  col1_IP_Address_including_domain_or_simply_an_IP +:+ "," +:+ col2_Host_Name
    +:+ "," +:+ col3_Domain_Name +:+ "," +:+ col4_Device_Identity
    +:+ "," +:+ col5_Display_Name +:+ "," +:+ col6_SysObjectID
    +:+ "," +:+ col7_DCR_Device_Type +:+ "," +:+ col8_MDF_Type
    +:+ "," +:+ col9_Snmp_RO +:+ "," +:+ col10_Snmp_RW
    +:+ "," +:+ col11_SnmpV3_User_Name +:+ "," +:+ col12_Snmp_V3_Auth_Pass
    +:+ "," +:+ col13_Snmp_V3_Engine_ID
    +:+ "," +:+ col14_Snmp_V3_Auth_Algorithm
    +:+ "," +:+ col15_RX_Boot_Mode_User +:+ "," +:+ col16_RX_Boot_Mode_Pass
    +:+ "," +:+ col17_Primary_User_Tacacs_User
    +:+ "," +:+ col18_Primary_Pass_Tacacs_Pass
    +:+ "," +:+ col19_Primary_Enable_Pass +:+ "," +:+ col20_Http_User
    +:+ "," +:+ col21_Http_Pass +:+ "," +:+ col22_Http_Mode
    +:+ "," +:+ col23_Http_Port +:+ "," +:+ col24_Https_Port
    +:+ "," +:+ col25_Cert_Common_Name +:+ "," +:+ col26_Secondary_User
    +:+ "," +:+ col27_Secondary_Pass +:+ "," +:+ col28_Secondary_Enable_Pass
    +:+ "," +:+ col29_Secondary_Http_User
    +:+ "," +:+ col30_Secondary_Http_Pass
    +:+ "," +:+ col31_Snmp_V3_Priv_Algorithm
    +:+ "," +:+ col32_Snmp_V3_Priv_Pass +:+ "," +:+ col33_User_Field_1
    +:+ "," +:+ col34_User_Field_2 +:+ "," +:+ col35_User_Field_3
    +:+ "," +:+ col36_User_Field_4 +:+ PyStr.newline.

(** ** Vocabulary of the statements *)

(** A capital letter. *)
Definition is_upper (c : ascii) : bool :=
  ((65 <=? nat_of_ascii c) && (nat_of_ascii c <=? 90))%nat.

(** Two characters are the same letter up to case. *)
Definition same_char_ignoring_case (a b : ascii) : bool :=
  bool_decide (a = b)
  || is_upper a && bool_decide (nat_of_ascii b = nat_of_ascii a + 32)
  || is_upper b && bool_decide (nat_of_ascii a = nat_of_ascii b + 32).

(** The code of the lower-case form of the character with code [n]. *)
Definition code_lower (n : nat) : nat :=
  if (65 <=? n) && (n <=? 90) then n + 32 else n.

(** Two strings are equal when case is ignored. *)
Fixpoint same_ignoring_case (s t : string) : bool :=
  match s, t with
  | EmptyString, EmptyString => true
  | String a s', String b t' =>
      same_char_ignoring_case a b && same_ignoring_case s' t'
  | _, _ => false
  end.

(** [s] occurs in [t] as a contiguous run of characters. *)
Definition substring_of (s t : string) : Prop :=
  exists pre post, t = pre +:+ s +:+ post.

(** The device has a child with tag [key]. *)
Definition has_child (key : string) (device : Element) : Prop :=
  is_Some (ElementTree.find key device).

Global Instance has_child_dec key device : Decision (has_child key device).
Proof. unfold has_child. apply _. Defined.

(** The text of the device's first [key] child, [""] when that child has
    no text. *)
Definition field (key : string) (device : Element) : option string :=
  ElementTree.findtext key device.

(** The Status of the device is not "reachable", whatever the case. *)
Definition unreachable (device : Element) : Prop :=
  match field "Status" device with
  | Some status => same_ignoring_case status "reachable" = false
  | None => True
  end.

Global Instance unreachable_dec device : Decision (unreachable device).
Proof. unfold unreachable. destruct (field "Status" device); apply _. Defined.

(** The value searched for occurs in the [key] field of the device. *)
Definition matches (key : string) (v : value) (device : Element) : Prop :=
  match field key device with
  | Some txt =>
      match v with
      | VStr s => PyStr.contains s txt = true
      | VSet items => set_Exists (fun item => PyStr.contains item txt = true) items
      end
  | None => False
  end.

Global Instance matches_dec key v device : Decision (matches key v device).
Proof. unfold matches. destruct (field key device), v; apply _. Defined.

(** A childless element without attributes. *)
Definition leaf (t : string) (txt tl : option string) : Element :=
  {| ElementTree.tag := t; ElementTree.attrib := []; ElementTree.text := txt;
     ElementTree.children := []; ElementTree.tail := tl |}.

(** An element without attributes. *)
Definition node (t : string) (txt : option string) (cs : list Element)
    (tl : option string) : Element :=
  {| ElementTree.tag := t; ElementTree.attrib := []; ElementTree.text := txt;
     ElementTree.children := cs; ElementTree.tail := tl |}.

(** A time of day on a date of a four-digit year. *)
Definition calendar_time (t : struct_time) : Prop :=
  (1000 <= tm_year t < 10000 /\ 1 <= tm_mon t <= 12 /\ 1 <= tm_mday t <= 31
   /\ tm_hour t < 24 /\ tm_min t < 60 /\ tm_sec t < 62)%N.

(** A plain tag name: letters, digits, [_] and [-], at least one.  The
    path language of ElementTree reads such a string as the tag itself. *)
Definition tag_char (c : ascii) : bool :=
  let n := nat_of_ascii c in
  ((65 <=? n) && (n <=? 90) || (97 <=? n) && (n <=? 122)
   || (48 <=? n) && (n <=? 57))%nat
  || bool_decide (c = "_"%char) || bool_decide (c = "-"%char).

Fixpoint tag_chars (s : string) : bool :=
  match s with
  | EmptyString => true
  | String c r => tag_char c && tag_chars r
  end.

Definition plain_tag (s : string) : bool :=
  match s with
  | EmptyString => false
  | String c r => tag_char c && tag_chars r
  end.

(** ** Sample data *)

(** A world whose appliance gives the same answer to every request and
    whose template directory holds the device query. *)
Definition answering (response : Response) : World :=
  {| reply := fun _ _ => inr response;
     files := fun path =>
       if bool_decide (path = "/opt/cspc/xml_requests/get_details_of_all_devices.xml")
       then Some "<Request/>" else None;
     localtime := mkTime 2024 2 29 23 59 7;
     sent := [] |}.

(** An inventory answer with one device per [(Id, HostName, Status)]
    triple; a device gets no Status child when its status is [None]. *)
Definition sample_device (row : string * string * option string) : Element :=
  let '(id, name, status) := row in
  node "Device" None
    ([leaf "Id" (Some id) None; leaf "HostName" (Some name) None]
     ++ match status with
        | Some s => [leaf "Status" (Some s) None]
        | None => []
        end) None.

Definition sample_inventory (rows : list (string * string * option string))
    : Element :=
  node "Response" None [node "DeviceList" None (sample_device <$> rows) None] None.

(** A parser that knows one document. *)
Definition sample_parser (body : string) (tree : Element)
    : string -> result Element :=
  fun s => if bool_decide (s = body) then Ok tree
           else Raise (ParseError "unknown document").

Definition sample_dir : string := "/opt/cspc/xml_requests".
Definition sample_self : CspcApi := __init__ "1.1.1.1" "user" "pw" true.
Definition sample_world : World := answering (mkResponse 200 "<Response/>" []).

Definition three_devices : list (string * string * option string) :=
  [ ("1", "switch1", Some "Reachable");
    ("2", "router2", Some "Unreachable");
    ("3", "switch3", Some "reachable") ].

Definition no_status_devices : list (string * string * option string) :=
  [ ("1", "switch1", Some "Unreachable"); ("2", "router2", None) ].

Definition two_devices : list (string * string * option string) :=
  [ ("1", "switch1", Some "Reachable"); ("2", "router2", Some "Reachable") ].

(** A request skeleton with a device list, one without, and one whose
    only [DeviceList] is the root itself. *)
Definition sample_template : Element :=
  node (qualified "Request") None
    [ node (qualified "Manage") None
        [ node (qualified "Get") None [] None;
          node (qualified "DeviceList") None [] None ] None;
      node (qualified "DeviceList") None [] None ] None.

Definition bare_template : Element :=
  node (qualified "Request") None [node (qualified "Manage") None [] None] None.

Definition list_rooted_template : Element :=
  node (qualified "DeviceList") None [node (qualified "Device") None [] None] None.

(** ** ElementTree.tostring *)

Module Serialize.
Import ElementTree.

(** A Python value is true: here, a [str] that is neither [None] nor
    empty. *)
Definition truthy (x : option string) : bool :=
  match x with
  | Some s => bool_decide (s ≠ EmptyString)
  | None => false
  end.

(** [_escape_cdata] *)
Definition escape_cdata_char (c : ascii) : string :=
  if bool_decide (c = "&"%char) then "&amp;"
  else if bool_decide (c = "<"%char) then "&lt;"
  else if bool_decide (c = ">"%char) then "&gt;"
  else String c EmptyString.

Fixpoint _escape_cdata (s : string) : string :=
  match s with
  | EmptyString => EmptyString
  | String c r => escape_cdata_char c +:+ _escape_cdata r
  end.

(** [_escape_attrib] *)
Definition escape_attrib_char (c : ascii) : string :=
  if bool_decide (c = "&"%char) then "&amp;"
  else if bool_decide (c = "<"%char) then "&lt;"
  else if bool_decide (c = ">"%char) then "&gt;"
  else if bool_decide (c = PyStr.dquote) then "&quot;"
  else if bool_decide (c = "013"%char) then "&#13;"
  else if bool_decide (c = "010"%char) then "&#10;"
  else if bool_decide (c = "009"%char) then "&#09;"
  else String c EmptyString.

Fixpoint _escape_attrib (s : string) : string :=
  match s with
  | EmptyString => EmptyString
  | String c r => escape_attrib_char c +:+ _escape_attrib r
  end.

Definition write_text (x : option string) : string :=
  match x with
  | Some s => _escape_cdata s
  | None => EmptyString
  end.

Fixpoint write_items (items : list (string * string)) : string :=
  match items with
  | [] => EmptyString
  | (k, v) :: r =>
      " " +:+ k +:+ "=" +:+ PyStr.quoted (_escape_attrib v) +:+ write_items r
  end.

(** [for e in elem: _serialize_xml(write, e, ...)] *)
Definition serialize_all (serialize : Element -> string)
    : list Element -> string :=
  fix go (cs : list Element) : string :=
    match cs with
    | [] => EmptyString
    | c :: r => serialize c +:+ go r
    end.

(** [_serialize_xml] with [short_empty_elements=True], for tags and
    attribute names that carry no namespace. *)
Fixpoint _serialize_xml (elem : Element) : string :=
  "<" +:+ tag elem +:+ write_items (attrib elem) +:+
  (if truthy (text elem) || negb (bool_decide (children elem = []))
   then ">" +:+ write_text (text elem) +:+
        serialize_all _serialize_xml (children elem) +:+
        "</" +:+ tag elem +:+ ">"
   else " />") +:+
  (if truthy (tail elem) then write_text (tail elem) else EmptyString).

Definition is_ascii (c : ascii) : bool := (nat_of_ascii c <? 128)%nat.

Fixpoint ascii_only (s : string) : bool :=
  match s with
  | EmptyString => true
  | String c r => is_ascii c && ascii_only r
  end.

Definition plain_name (s : string) : bool :=
  ascii_only s && negb (PyStr.startswith "{" s).

(** The elements whose serialization is modelled: ASCII throughout (no
    character references are needed for the [us-ascii] encoding) and
    without namespace-qualified names (no [xmlns] declarations or
    prefixes are generated). *)
Fixpoint modelled (elem : Element) : bool :=
  plain_name (tag elem)
  && forallb (fun kv => plain_name kv.1 && ascii_only kv.2) (attrib elem)
  && ascii_only (default EmptyString (text elem))
  && ascii_only (default EmptyString (tail elem))
  && forallb modelled (children elem).

(** [ElementTree.tostring(elem)]; [None] outside the modelled elements. *)
Definition tostring (elem : Element) : option string :=
  if modelled elem then Some (_serialize_xml elem) else None.

End Serialize.

(** ** The expat tokenizer, for a fragment of XML

    Elements, attributes with quoted values, character data and the five
    predefined entities, over ASCII.  Declarations, comments, CDATA
    sections, processing instructions, character references, carriage
    returns and a raw [>] in character data are outside the fragment:
    the tokenizer gives [None] for them, as it does for text that is not
    well formed. *)

Module Expat.

Definition code (c : ascii) : nat := nat_of_ascii c.

Definition is_letter (c : ascii) : bool :=
  ((65 <=? code c) && (code c <=? 90) || (97 <=? code c) && (code c <=? 122))%nat.
Definition is_digit (c : ascii) : bool :=
  ((48 <=? code c) && (code c <=? 57))%nat.
Definition name_start (c : ascii) : bool :=
  is_letter c || bool_decide (c = "_"%char) || bool_decide (c = ":"%char).
Definition name_char (c : ascii) : bool :=
  name_start c || is_digit c || bool_decide (c = "-"%char)
  || bool_decide (c = "."%char).
(** white space inside tags *)
Definition is_space (c : ascii) : bool :=
  bool_decide (c = " "%char) || bool_decide (c = "009"%char)
  || bool_decide (c = "010"%char) || bool_decide (c = "013"%char).
(** a character that stands for itself in character data *)
Definition text_char (c : ascii) : bool :=
  (bool_decide (c = "009"%char) || bool_decide (c = "010"%char)
   || (32 <=? code c) && (code c <=? 127))%nat
  && negb (bool_decide (c = "<"%char)) && negb (bool_decide (c = "&"%char))
  && negb (bool_decide (c = ">"%char)).
(** a character that stands for itself in an attribute value *)
Definition value_char (c : ascii) : bool :=
  ((32 <=? code c) && (code c <=? 127))%nat
  && negb (bool_decide (c = "<"%char)) && negb (bool_decide (c = "&"%char)).

Definition entity (name : string) : option ascii :=
  if bool_decide (name = "amp") then Some "&"%char
  else if bool_decide (name = "lt") then Some "<"%char
  else if bool_decide (name = "gt") then Some ">"%char
  else if bool_decide (name = "quot") then Some PyStr.dquote
  else if bool_decide (name = "apos") then Some "'"%char
  else None.

Inductive token :=
| TStart (name : string) (attrs : list (string * string)) (empty : bool)
| TEnd (name : string)
| TText (data : string).

(** [s + c] *)
Fixpoint snoc (s : string) (c : ascii) : string :=
  match s with
  | EmptyString => String c EmptyString
  | String a r => String a (snoc r c)
  end.

Definition flush (acc : string) : list token :=
  if bool_decide (acc = EmptyString) then [] else [TText acc].

Inductive state :=
| SText (acc : string)
| SEntity (acc ent : string)
| SOpen
| SStartName (name : string)
| STagSpace (name : string) (attrs : list (string * string))
| SAttrName (name : string) (attrs : list (string * string)) (aname : string)
| SAttrEq (name : string) (attrs : list (string * string)) (aname : string)
| SAttrQuote (name : string) (attrs : list (string * string)) (aname : string)
| SAttrValue (name : string) (attrs : list (string * string)) (aname : string)
    (q : ascii) (acc : string)
| SAttrDone (name : string) (attrs : list (string * string))
| SSlash (name : string) (attrs : list (string * string))
| SEndOpen
| SEndName (name : string)
| SEndSpace (name : string).

Definition tag_end (name : string) (attrs : list (string * string)) (c : ascii)
    : option (state * list token) :=
  if bool_decide (c = ">"%char) then Some (SText EmptyString, [TStart name attrs false])
  else if bool_decide (c = "/"%char) then Some (SSlash name attrs, [])
  else None.

Definition step (st : state) (c : ascii) : option (state * list token) :=
  match st with
  | SText acc =>
      if bool_decide (c = "<"%char) then Some (SOpen, flush acc)
      else if bool_decide (c = "&"%char) then Some (SEntity acc EmptyString, [])
      else if text_char c then Some (SText (snoc acc c), [])
      else None
  | SEntity acc ent =>
      if bool_decide (c = ";"%char)
      then ch ← entity ent; Some (SText (snoc acc ch), [])
      else if is_letter c then Some (SEntity acc (snoc ent c), [])
      else None
  | SOpen =>
      if bool_decide (c = "/"%char) then Some (SEndOpen, [])
      else if name_start c then Some (SStartName (String c EmptyString), [])
      else None
  | SStartName name =>
      if name_char c then Some (SStartName (snoc name c), [])
      else if is_space c then Some (STagSpace name [], [])
      else tag_end name [] c
  | STagSpace name attrs =>
      if is_space c then Some (STagSpace name attrs, [])
      else if name_start c
      then Some (SAttrName name attrs (String c EmptyString), [])
      else tag_end name attrs c
  | SAttrName name attrs aname =>
      if name_char c then Some (SAttrName name attrs (snoc aname c), [])
      else if is_space c then Some (SAttrEq name attrs aname, [])
      else if bool_decide (c = "="%char) then Some (SAttrQuote name attrs aname, [])
      else None
  | SAttrEq name attrs aname =>
      if is_space c then Some (SAttrEq name attrs aname, [])
      else if bool_decide (c = "="%char) then Some (SAttrQuote name attrs aname, [])
      else None
  | SAttrQuote name attrs aname =>
      if is_space c then Some (SAttrQuote name attrs aname, [])
      else if bool_decide (c = PyStr.dquote) || bool_decide (c = "'"%char)
      then Some (SAttrValue name attrs aname c EmptyString, [])
      else None
  | SAttrValue name attrs aname q acc =>
      if bool_decide (c = q)
      then if bool_decide (aname ∈ attrs.*1) then None
           else Some (SAttrDone name (attrs ++ [(aname, acc)]), [])
      else if value_char c
      then Some (SAttrValue name attrs aname q (snoc acc c), [])
      else None
  | SAttrDone name attrs =>
      if is_space c then Some (STagSpace name attrs, [])
      else tag_end name attrs c
  | SSlash name attrs =>
      if bool_decide (c = ">"%char)
      then Some (SText EmptyString, [TStart name attrs true])
      else None
  | SEndOpen =>
      if name_start c then Some (SEndName (String c EmptyString), []) else None
  | SEndName name =>
      if name_char c then Some (SEndName (snoc name c), [])
      else if is_space c then Some (SEndSpace name, [])
      else if bool_decide (c = ">"%char) then Some (SText EmptyString, [TEnd name])
      else None
  | SEndSpace name =>
      if is_space c then Some (SEndSpace name, [])
      else if bool_decide (c = ">"%char) then Some (SText EmptyString, [TEnd name])
      else None
  end.

(** The tokens [out] come before those of the run [r]. *)
Definition emit (out : list token) (r : option (state * list token))
    : option (state * list token) :=
  '(st, out') ← r; Some (st, out ++ out').
Arguments emit : simpl never.

(** Run the tokenizer over [s]: the state reached and the tokens
    produced on the way. *)
Fixpoint run (st : state) (s : string) : option (state * list token) :=
  match s with
  | EmptyString => Some (st, [])
  | String c r => '(st', out) ← step st c; emit out (run st' r)
  end.

(** The input must end in character data. *)
Definition finish (st : state) : option (list token) :=
  match st with
  | SText acc => Some (flush acc)
  | _ => None
  end.

Definition tokenize (s : string) : option (list token) :=
  '(st, out) ← run (SText EmptyString) s;
  last ← finish st;
  Some (out ++ last).

End Expat.

(** ** xmltodict.parse with its default options *)

Module Xmltodict.

(** The values of the mapping [xmltodict] builds: [None], a [str], an
    ordered mapping, or the list repeated sibling tags collapse into. *)
Inductive xvalue :=
| XNone
| XStr (s : string)
| XDict (d : list (string * xvalue))
| XList (l : list xvalue).

Definition odict : Type := list (string * xvalue).

(** [item[key]] *)
Fixpoint lookup (key : string) (item : odict) : option xvalue :=
  match item with
  | [] => None
  | (k, v) :: r => if bool_decide (k = key) then Some v else lookup key r
  end.

(** [item[key] = v] for a key that is present: its place is kept. *)
Fixpoint update (key : string) (v : xvalue) (item : odict) : odict :=
  match item with
  | [] => []
  | (k, v0) :: r =>
      if bool_decide (k = key) then (k, v) :: r else (k, v0) :: update key v r
  end.

Definition push_data (item : option odict) (key : string) (data : xvalue) : odict :=
  let item := default [] item in
  match lookup key item with
  | Some (XList l) => update key (XList (l ++ [data])) item
  | Some value => update key (XList [value; data]) item
  | None => item ++ [(key, data)]
  end.

(** [str.isspace] on one ASCII character *)
Definition isspace (c : ascii) : bool :=
  let n := nat_of_ascii c in
  ((9 <=? n) && (n <=? 13) || (28 <=? n) && (n <=? 32))%nat.

Fixpoint lstrip (s : string) : string :=
  match s with
  | EmptyString => EmptyString
  | String c r => if isspace c then lstrip r else s
  end.

Fixpoint rstrip (s : string) : string :=
  match s with
  | EmptyString => EmptyString
  | String c r =>
      let r' := rstrip r in
      if bool_decide (r' = EmptyString) && isspace c then EmptyString
      else String c r'
  end.

(** [s.strip()] *)
Definition strip (s : string) : string := lstrip (rstrip s).

(** The fields of [_DictSAXHandler] that change while parsing; the top
    of [path] and of [stack] is the head of the list. *)
Record handler := mkHandler {
  path : list string;
  stack : list (option odict * list string);
  data : list string;
  item : option odict
}.

Definition init : handler :=
  {| path := []; stack := []; data := []; item := None |}.

Definition attr_prefix : string := "@".
Definition cdata_key : string := "#text".
Definition cdata_separator : string := EmptyString.

Definition startElement (self : handler) (name : string)
    (attrs : list (string * string)) : handler :=
  let attr_entries := map (fun kv => (attr_prefix +:+ kv.1, XStr kv.2)) attrs in
  {| path := name :: path self;
     stack := (item self, data self) :: stack self;
     item := if bool_decide (attr_entries = []) then None else Some attr_entries;
     data := [] |}.

Definition characters (self : handler) (chunk : string) : handler :=
  {| path := path self; stack := stack self; item := item self;
     data := data self ++ [chunk] |}.

(** [data.strip() or None] when [data] is a non-empty [str] *)
Definition strip_data (data0 : option string) : option string :=
  match data0 with
  | Some s =>
      if bool_decide (s = EmptyString) then Some s
      else let s' := strip s in
           if bool_decide (s' = EmptyString) then None else Some s'
  | None => None
  end.

Definition of_data (data0 : option string) : xvalue :=
  match data0 with
  | Some s => XStr s
  | None => XNone
  end.

Definition endElement (self : handler) (name : string) : handler :=
  match stack self with
  | (item0, data0) :: stack' =>
      let data1 :=
        if bool_decide (data self = []) then None
        else Some (PyStr.join cdata_separator (data self)) in
      let data2 := strip_data data1 in
      let item' :=
        match item self with
        | Some it =>
            let it' := if Serialize.truthy data2
                       then push_data (Some it) cdata_key (of_data data2)
                       else it in
            push_data item0 name (XDict it')
        | None => push_data item0 name (of_data data2)
        end in
      {| path := List.tl (path self); stack := stack'; data := data0;
         item := Some item' |}
  | [] =>
      {| path := List.tl (path self); stack := []; data := []; item := None |}
  end.

(** [parser.Parse(xml_input, True)]: expat checks that the tokens form
    one element, with nothing but white space around it, and calls the
    handler for what lies inside. *)
Definition feed (self : handler * bool) (t : Expat.token) : option (handler * bool) :=
  let '(h, seen_root) := self in
  match t with
  | Expat.TText chunk =>
      match path h with
      | [] => if bool_decide (lstrip chunk = EmptyString) then Some self else None
      | _ :: _ => Some (characters h chunk, seen_root)
      end
  | Expat.TStart name attrs empty =>
      if bool_decide (path h = []) && seen_root then None
      else let h' := startElement h name attrs in
           Some (if empty then endElement h' name else h', true)
  | Expat.TEnd name =>
      match path h with
      | top :: _ => if bool_decide (top = name) then Some (endElement h name, seen_root)
                    else None
      | [] => None
      end
  end.

Fixpoint feed_all (self : handler * bool) (ts : list Expat.token)
    : option (handler * bool) :=
  match ts with
  | [] => Some self
  | t :: r => self' ← feed self t; feed_all self' r
  end.

(** [xmltodict.parse(xml_input)]; [None] when the parser raises or the
    input is outside the modelled fragment. *)
Definition parse (xml_input : string) : option xvalue :=
  ts ← Expat.tokenize xml_input;
  '(h, seen_root) ← feed_all (init, false) ts;
  if bool_decide (path h = []) && seen_root
  then Some (match item h with Some d => XDict d | None => XNone end)
  else None.

End Xmltodict.

(** ** Response decoder *)

(** [CspcApi.xml_to_json_elem] (lines 134-145); [xml] is an
    [ElementTree.Element] or a [str]. *)
Definition xml_to_json_elem (xml : Element + string) : option Xmltodict.xvalue :=
  xml_string ← match xml with
               | inl elem => Serialize.tostring elem
               | inr s => Some s
               end;
  let json_dict := Xmltodict.parse xml_string in
  json_dict.

(** ** Vocabulary of the decoder statement *)

(** A well-formed name without namespace: what the tokenizer reads as a
    tag. *)
Fixpoint name_chars (s : string) : bool :=
  match s with
  | EmptyString => true
  | String c r => Expat.name_char c && name_chars r
  end.

Definition xml_name (s : string) : bool :=
  match s with
  | EmptyString => false
  | String c r => Expat.name_start c && name_chars r
  end.

(** Tab, newline and the ASCII characters from the space on. *)
Definition plain_char (c : ascii) : bool :=
  bool_decide (c = "009"%char) || bool_decide (c = "010"%char)
  || (32 <=? nat_of_ascii c) && (nat_of_ascii c <=? 127).

Fixpoint plain_text (s : string) : bool :=
  match s with
  | EmptyString => true
  | String c r => plain_char c && plain_text r
  end.

(** Space, tab and newline: the white space of an indented document. *)
Definition blank_char (c : ascii) : bool :=
  bool_decide (c = " "%char) || bool_decide (c = "009"%char)
  || bool_decide (c = "010"%char).

Fixpoint blank (s : string) : bool :=
  match s with
  | EmptyString => true
  | String c r => blank_char c && blank r
  end.

(** The text of an optional [str], [""] for [None]. *)
Definition text_of (x : option string) : string := default EmptyString x.

(** A leaf child of the decoded element: its tag, its text and the text
    that follows it. *)
Definition kid : Type := string * option string * option string.

Definition kid_tag (k : kid) : string := k.1.1.
Definition kid_text (k : kid) : option string := k.1.2.
Definition kid_tail (k : kid) : option string := k.2.

Definition leaf_of (k : kid) : Element := leaf (kid_tag k) (kid_text k) (kid_tail k).

Definition kid_ok (k : kid) : bool :=
  xml_name (kid_tag k) && plain_text (text_of (kid_text k))
  && blank (text_of (kid_tail k)).

(** What [xmltodict] makes of the text of a leaf: the text without the
    white space around it, [None] when nothing is left. *)
Definition decoded_text (x : option string) : Xmltodict.xvalue :=
  let s := Xmltodict.strip (text_of x) in
  if bool_decide (s = EmptyString) then Xmltodict.XNone else Xmltodict.XStr s.

Definition decoded_kid (k : kid) : string * Xmltodict.xvalue :=
  (kid_tag k, decoded_text (kid_text k)).

(** The tokens of a serialized leaf, without the text after it. *)
Definition leaf_tokens (k : kid) : list Expat.token :=
  if Serialize.truthy (kid_text k)
  then [Expat.TStart (kid_tag k) [] false; Expat.TText (text_of (kid_text k));
        Expat.TEnd (kid_tag k)]
  else [Expat.TStart (kid_tag k) [] true].

(** The tokens of a run of serialized leaves that comes after the
    character data [acc], and the character data left pending after the
    last of them. *)
Fixpoint kids_tokens (acc : string) (ks : list kid) : list Expat.token :=
  match ks with
  | [] => []
  | k :: r => Expat.flush acc ++ leaf_tokens k ++ kids_tokens (text_of (kid_tail k)) r
  end.

Fixpoint pending_text (acc : string) (ks : list kid) : string :=
  match ks with
  | [] => acc
  | k :: r => pending_text (text_of (kid_tail k)) r
  end.

(** The chunks of character data the handler holds for the enclosing
    element after the text [acc]. *)
Definition add_chunk (chunks : list string) (acc : string) : list string :=
  if bool_decide (acc = EmptyString) then chunks else chunks ++ [acc].

Fixpoint kids_data (chunks : list string) (acc : string) (ks : list kid)
    : list string :=
  match ks with
  | [] => chunks
  | k :: r => kids_data (add_chunk chunks acc) (text_of (kid_tail k)) r
  end.

(** The mapping the handler holds for the enclosing element after the
    leaves [ks]. *)
Definition kids_item (item : option Xmltodict.odict) (ks : list kid)
    : option Xmltodict.odict :=
  foldl (fun it k =>
           Some (Xmltodict.push_data it (kid_tag k) (decoded_text (kid_text k))))
        item ks.

(** * The rest of the facade *)

(** ** More of ElementTree: attributes and repeated appends *)

(** [attrib[key] = value] on the attribute dictionary: a key that is
    there keeps its place. *)
Fixpoint attrib_set (key value : string) (items : list (string * string))
    : list (string * string) :=
  match items with
  | [] => [(key, value)]
  | (k, v) :: r =>
      if bool_decide (k = key) then (k, value) :: r
      else (k, v) :: attrib_set key value r
  end.

Definition with_attrib (elem : Element) (items : list (string * string)) : Element :=
  {| ElementTree.tag := ElementTree.tag elem; ElementTree.attrib := items;
     ElementTree.text := ElementTree.text elem;
     ElementTree.children := ElementTree.children elem;
     ElementTree.tail := ElementTree.tail elem |}.

(** [x.set(key, value)] where [x] is the element at [h]: the tree after
    the update, [None] for a dangling handle. *)
Fixpoint set_at (elem : Element) (h : ElementTree.handle) (key value : string)
    : option Element :=
  match h with
  | [] => Some (with_attrib elem (attrib_set key value (ElementTree.attrib elem)))
  | i :: h' =>
      c ← ElementTree.children elem !! i;
      c' ← set_at c h' key value;
      Some (ElementTree.with_children elem (<[i := c']> (ElementTree.children elem)))
  end.

(** [x.set(key, value)] where [x] is what [find] returned: [None] has no
    [set]. *)
Definition Element_set (tree : Element) (x : option ElementTree.handle)
    (key value : string) : result Element :=
  match x with
  | None => Raise AttributeError
  | Some h =>
      match set_at tree h key value with
      | Some tree' => Ok tree'
      | None => Raise AttributeError
      end
  end.

(** [for sub in subs: x.append(sub)] *)
Fixpoint append_each (tree : Element) (x : option ElementTree.handle)
    (subs : list Element) : result Element :=
  match subs with
  | [] => Ok tree
  | sub :: rest =>
      tree' ← ElementTree.append tree x sub;
      append_each tree' x rest
  end.

(** [CspcApi._add_elem_with_text] (lines 318-322), the parent being an
    element the caller has just built: the parent with the new leaf as
    its last child. *)
Definition _add_elem_with_text (tag0 text0 : string) (parent : Element) : Element :=
  let d := leaf tag0 (Some text0) None in
  ElementTree.with_children parent (ElementTree.children parent ++ [d]).

(** The [Device] element [add_multiple_devices] builds from the items of
    one device dictionary (lines 457-461). *)
Definition device_elem (device : list (string * string)) : Element :=
  foldl (fun elem item =>
           let d := leaf item.1 (Some item.2) None in
           ElementTree.with_children elem (ElementTree.children elem ++ [d]))
        (ElementTree.new "Device") device.

(** The [IPAddress] element [discover_multiple_devices] builds for one
    address (lines 477-478). *)
Definition ip_elem (ip : string) : Element := leaf "IPAddress" (Some ip) None.

(** The [Device] element [delete_multiple_devices] builds for one
    identifier (lines 497-500). *)
Definition id_elem (id : string) : Element :=
  let elem := ElementTree.new "Device" in
  let d := leaf "Id" (Some id) None in
  ElementTree.with_children elem (ElementTree.children elem ++ [d]).

Section Submit.

Variable xml_request_dir : string.

(** [ElementTree.fromstring] and [ElementTree.tostring(_, encoding='unicode')]:
    the parser and the serializer of the Python library. *)
Variable fromstring : string -> result Element.
Variable tostring : Element -> string.

(** [CspcApi.add_multiple_devices] (lines 438-468) with [return_json]
    left at its default; a device is given by the items of its
    dictionary. *)
Definition add_multiple_devices (self : CspcApi)
    (devices : list (list (string * string))) : M World string :=
  payload ← _get_xml_payload xml_request_dir "add_multiple_devices.xml";
  tree ← lift (fromstring payload);
  device_list ← lift (_get_xml_elem "DeviceList" tree);
  tree' ← lift (append_each tree device_list (device_elem <$> devices));
  request ← _xml self (tostring tree');
  mret request.

(** [CspcApi.discover_multiple_devices] (lines 470-483) with
    [return_json] left at its default; [ts] is the whole number of
    seconds [time.time()] gave. *)
Definition discover_multiple_devices (ts : N) (self : CspcApi)
    (ips : list string) : M World string :=
  payload ← _get_xml_payload xml_request_dir "discover_multiple_devices.xml";
  tree ← lift (fromstring payload);
  device_list ← lift (_get_xml_elem "IPAddressList" tree);
  job ← lift (_get_xml_elem "DiscoveryJob" tree);
  tree1 ← lift (Element_set tree job "identifier" (pretty ts));
  tree2 ← lift (append_each tree1 device_list (ip_elem <$> ips));
  request ← _xml self (tostring tree2);
  mret request.

End Submit.

(** ** Calls that may also raise a [KeyError] *)

Inductive pyexn :=
| Builtin (e : exn)
| KeyError (key : string).   (* [d[key]] on a missing key *)

Inductive outcome (A : Type) :=
| Returns (a : A)
| Raises (e : pyexn).
Arguments Returns {A} a.
Arguments Raises {A} e.

Global Instance outcome_ret : MRet outcome := fun A a => Returns a.
Global Instance outcome_bind : MBind outcome := fun A B k r =>
  match r with
  | Returns a => k a
  | Raises e => Raises e
  end.

Definition of_result {A} (r : result A) : outcome A :=
  match r with
  | Ok a => Returns a
  | Raise e => Raises (Builtin e)
  end.

(** A computation on the world that may raise a [KeyError] as well. *)
Definition P (A : Type) : Type := World -> outcome A * World.

Global Instance P_ret : MRet P := fun A a w => (Returns a, w).
Global Instance P_bind : MBind P := fun A B k m w =>
  match m w with
  | (Returns a, w') => k a w'
  | (Raises e, w') => (Raises e, w')
  end.

Definition of_M {A} (m : M World A) : P A := fun w =>
  let '(r, w') := m w in (of_result r, w').

Definition pure {A} (r : outcome A) : P A := fun w => (r, w).

(** [d[key]] *)
Definition subscript (d : gmap string string) (key : string) : outcome string :=
  match d !! key with
  | Some v => Returns v
  | None => Raises (KeyError key)
  end.

(** The [DeviceCredential] element of one SNMP v2c credential
    (lines 366-372). *)
Definition snmpv2c_elem (cred_name : string) (creds0 : gmap string string)
    : outcome Element :=
  let device_credential :=
    with_attrib (ElementTree.new "DeviceCredential") [("identifier", cred_name)] in
  let device_credential := _add_elem_with_text "Protocol" "snmpv2c" device_credential in
  ro ← subscript creds0 "snmp_read_community";
  let device_credential := _add_elem_with_text "ReadCommunity" ro device_credential in
  rw ← subscript creds0 "snmp_write_community";
  let device_credential := _add_elem_with_text "WriteCommunity" rw device_credential in
  let ip_expr := ElementTree.new "IpExpressionList" in
  ip ← subscript creds0 "ip_expression";
  let ip_expr := _add_elem_with_text "IpExpression" ip ip_expr in
  Returns (ElementTree.with_children device_credential
             (ElementTree.children device_credential ++ [ip_expr])).

(** The [DeviceCredential] element of one SSH credential
    (lines 422-429). *)
Definition sshv2_elem (cred_name : string) (creds0 : gmap string string)
    : outcome Element :=
  let device_credential :=
    with_attrib (ElementTree.new "DeviceCredential") [("identifier", cred_name)] in
  let device_credential := _add_elem_with_text "Protocol" "sshv2" device_credential in
  u ← subscript creds0 "user";
  let device_credential := _add_elem_with_text "UserName" u device_credential in
  p ← subscript creds0 "password";
  let device_credential := _add_elem_with_text "Password" p device_credential in
  e ← subscript creds0 "enable_password";
  let device_credential := _add_elem_with_text "EnablePassword" e device_credential in
  let ip_expr := ElementTree.new "IpExpressionList" in
  ip ← subscript creds0 "ip_expression";
  let ip_expr := _add_elem_with_text "IpExpression" ip ip_expr in
  Returns (ElementTree.with_children device_credential
             (ElementTree.children device_credential ++ [ip_expr])).

(** The loop of the two credential functions: build the element of a
    credential, then append it to the list. *)
Fixpoint credentials_loop
    (build : string -> gmap string string -> outcome Element)
    (tree : Element) (cred_list : option ElementTree.handle)
    (credentials : list (string * gmap string string)) : outcome Element :=
  match credentials with
  | [] => Returns tree
  | (cred_name, creds0) :: rest =>
      device_credential ← build cred_name creds0;
      tree' ← of_result (ElementTree.append tree cred_list device_credential);
      credentials_loop build tree' cred_list rest
  end.

(** The loop of [delete_multiple_devices] (lines 496-501). *)
Fixpoint delete_loop (tree : Element) (device_list : option ElementTree.handle)
    (device_array : list (gmap string string)) : outcome Element :=
  match device_array with
  | [] => Returns tree
  | dev :: rest =>
      id ← subscript dev "Id";
      tree' ← of_result (ElementTree.append tree device_list (id_elem id));
      delete_loop tree' device_list rest
  end.

Section SubmitKeyed.

Variable xml_request_dir : string.
Variable fromstring : string -> result Element.
Variable tostring : Element -> string.

(** [CspcApi.add_multiple_device_credentials_snmpv2c] (lines 324-378)
    with [return_json] left at its default; [credentials] are the items
    of the dictionary. *)
Definition add_multiple_device_credentials_snmpv2c (self : CspcApi)
    (credentials : list (string * gmap string string)) : P string :=
  payload ← of_M (_get_xml_payload xml_request_dir "add_multiple_device_credentials.xml");
  tree ← pure (of_result (fromstring payload));
  cred_list ← pure (of_result (_get_xml_elem "DeviceCredentialList" tree));
  tree' ← pure (credentials_loop snmpv2c_elem tree cred_list credentials);
  request ← of_M (_xml self (tostring tree'));
  mret request.

(** [CspcApi.add_multiple_device_credentials_ssh] (lines 380-435) with
    [return_json] left at its default. *)
Definition add_multiple_device_credentials_ssh (self : CspcApi)
    (credentials : list (string * gmap string string)) : P string :=
  payload ← of_M (_get_xml_payload xml_request_dir "add_multiple_device_credentials.xml");
  tree ← pure (of_result (fromstring payload));
  cred_list ← pure (of_result (_get_xml_elem "DeviceCredentialList" tree));
  tree' ← pure (credentials_loop sshv2_elem tree cred_list credentials);
  request ← of_M (_xml self (tostring tree'));
  mret request.

(** [CspcApi.delete_multiple_devices] (lines 485-506) with [return_json]
    left at its default. *)
Definition delete_multiple_devices (self : CspcApi)
    (device_array : list (gmap string string)) : P string :=
  payload ← of_M (_get_xml_payload xml_request_dir "delete_multiple_devices.xml");
  tree ← pure (of_result (fromstring payload));
  device_list ← pure (of_result (_get_xml_elem "DeviceList" tree));
  tree' ← pure (delete_loop tree device_list device_array);
  request ← of_M (_xml self (tostring tree'));
  mret request.

End SubmitKeyed.

(** ** Vocabulary of the further statements *)

Global Instance value_eq_dec : EqDecision value.
Proof. solve_decision. Defined.

(** The arguments [_xml] hands to [requests.post]. *)
Definition xml_request (self : CspcApi) (payload : string) : Request :=
  {| req_link := "https://" +:+ host self +:+ "/cspc/xml";
     req_data := Some payload; req_files := [];
     req_headers := kw_headers (kwargs self);
     req_verify := verify (kwargs self) |}.

(** The world after the request [r] was issued. *)
Definition issued (r : Request) (w : World) : World :=
  {| reply := reply w; files := files w; localtime := localtime w;
     sent := sent w ++ [r] |}.

(** The outcome of [_xml] for what the transport gives. *)
Definition xml_outcome (answer : string + Response) : result string :=
  match answer with
  | inl reason => Raise (TransportError reason)
  | inr response =>
      if bool_decide (status_code response = 200%Z) then Ok (text response)
      else Raise (RuntimeError response)
  end.

(** The place of the device query among the templates. *)
Definition devices_template (xml_request_dir : string) : string :=
  os_path_join xml_request_dir "get_details_of_all_devices.xml".

(** The arguments the seed file upload hands to [requests.post]. *)
Definition seed_request (self : CspcApi) (csv device_group_name : string)
    (w : World) : Request :=
  let t := localtime w in
  let stamp := pretty (tm_year t) +:+ pad2 (tm_mon t) +:+ pad2 (tm_mday t)
               +:+ "-" +:+ pad2 (tm_hour t) +:+ pad2 (tm_min t)
               +:+ pad2 (tm_sec t) in
  let seed_file_name := device_group_name +:+ "-" +:+ stamp +:+ ".csv" in
  {| req_link := "https://" +:+ host self +:+ "/cspc/seedfile";
     req_data := None;
     req_files := [ ("request",
                     (None, seed_xmlrequest device_group_name seed_file_name));
                    ("file", (Some seed_file_name, csv)) ];
     req_headers := headers self; req_verify := false |}.

(** The arguments of [get_formatted_csv_device_entry], in its order:
    address, host name, user name, password, enable password, SNMP read
    and write community. *)
Record csv_args := mkCsvArgs {
  arg_ipaddress : string; arg_hostname : string; arg_username : string;
  arg_password : string; arg_enable_password : string;
  arg_snmp_v2_RO : string; arg_snmp_v2_RW : string
}.

Definition csv_row (a : csv_args) : string :=
  get_formatted_csv_device_entry (arg_ipaddress a) (arg_hostname a)
    (arg_username a) (arg_password a) (arg_enable_password a)
    (arg_snmp_v2_RO a) (arg_snmp_v2_RW a).

(** A seed file: the rows of the devices one after the other. *)
Fixpoint csv_file (devices : list csv_args) : string :=
  match devices with
  | [] => EmptyString
  | a :: r => csv_row a +:+ csv_file r
  end.

(** No argument holds a comma or a newline. *)
Definition csv_clean (a : csv_args) : Prop :=
  Forall (fun s => PyStr.free_of PyStr.comma s /\ PyStr.free_of PyStr.nl s)
    [arg_ipaddress a; arg_hostname a; arg_username a; arg_password a;
     arg_enable_password a; arg_snmp_v2_RO a; arg_snmp_v2_RW a].

(** Reading a line of a seed file back: the seven columns in use, when
    the line has 36 columns. *)
Definition read_row (line : string) : option csv_args :=
  let columns := PyStr.split PyStr.comma line in
  if bool_decide (length columns = 36)
  then Some {| arg_ipaddress := nth 0 columns EmptyString;
               arg_hostname := nth 1 columns EmptyString;
               arg_snmp_v2_RO := nth 8 columns EmptyString;
               arg_snmp_v2_RW := nth 9 columns EmptyString;
               arg_username := nth 16 columns EmptyString;
               arg_password := nth 17 columns EmptyString;
               arg_enable_password := nth 18 columns EmptyString |}
  else None.

(** Reading a seed file back, line by line. *)
Fixpoint read_lines (lines : list string) : list (option csv_args) :=
  match lines with
  | [] => []
  | [last] => if bool_decide (last = EmptyString) then [] else [read_row last]
  | line :: rest => read_row line :: read_lines rest
  end.

Definition read_csv (file : string) : list (option csv_args) :=
  read_lines (PyStr.split PyStr.nl file).

(** [elem.get(key)] on the attribute dictionary *)
Fixpoint attrib_get (key : string) (items : list (string * string)) : option string :=
  match items with
  | [] => None
  | (k, v) :: r => if bool_decide (k = key) then Some v else attrib_get key r
  end.

(** The two elements differ at most in their children. *)
Definition same_node (e e' : Element) : Prop :=
  ElementTree.tag e' = ElementTree.tag e
  /\ ElementTree.attrib e' = ElementTree.attrib e
  /\ ElementTree.text e' = ElementTree.text e
  /\ ElementTree.tail e' = ElementTree.tail e.

(** Going from [tree] to [tree'] changed nothing but what lies under the
    element at [h]: every element is still where it was, an element that
    encloses [h] differs at most in its children, and every other
    element is as it was. *)
Definition changed_under (h : ElementTree.handle) (tree tree' : Element) : Prop :=
  forall g e, ElementTree.deref tree g = Some e ->
    exists e', ElementTree.deref tree' g = Some e'
               /\ same_node e e'
               /\ (~ g `prefix_of` h -> e' = e).

(** Going from [tree] to [tree'] changed nothing outside the element at
    [h]: a handle that does not lead into that element refers to an
    element in both trees or in neither; an element on the way to [h]
    keeps its tag, attributes, text, tail and number of children; every
    other element is as it was. *)
Definition changed_only_at (h : ElementTree.handle) (tree tree' : Element) : Prop :=
  forall g, ~ h `prefix_of` g ->
    match ElementTree.deref tree g, ElementTree.deref tree' g with
    | Some e, Some e' =>
        same_node e e'
        /\ length (ElementTree.children e') = length (ElementTree.children e)
        /\ (~ g `prefix_of` h -> e' = e)
    | None, None => True
    | _, _ => False
    end.

(** The child that stands for one item of a device dictionary. *)
Definition item_elem (item : string * string) : Element :=
  leaf item.1 (Some item.2) None.

(** The first of the [keys] the dictionary lacks. *)
Definition first_missing (keys : list string) (d : gmap string string)
    : option string :=
  head (filter (fun k => d !! k = None) keys).

(** The keys the two credential functions read, in the order they read
    them. *)
Definition snmpv2c_keys : list string :=
  ["snmp_read_community"; "snmp_write_community"; "ip_expression"].
Definition sshv2_keys : list string :=
  ["user"; "password"; "enable_password"; "ip_expression"].

(** The value under a key that is there. *)
Definition entry (d : gmap string string) (k : string) : string :=
  default EmptyString (d !! k).

(** A [DeviceCredential] element as the appliance expects it: the name
    as [identifier], the protocol, the protocol's fields and one IP
    expression. *)
Definition credential_elem (name protocol : string)
    (fields : list (string * string)) (ip : string) : Element :=
  {| ElementTree.tag := "DeviceCredential";
     ElementTree.attrib := [("identifier", name)];
     ElementTree.text := None;
     ElementTree.children :=
       leaf "Protocol" (Some protocol) None
       :: (item_elem <$> fields)
       ++ [node "IpExpressionList" None [leaf "IpExpression" (Some ip) None] None];
     ElementTree.tail := None |}.

Definition snmpv2c_credential (c : string * gmap string string) : Element :=
  credential_elem c.1 "snmpv2c"
    [ ("ReadCommunity", entry c.2 "snmp_read_community");
      ("WriteCommunity", entry c.2 "snmp_write_community") ]
    (entry c.2 "ip_expression").

Definition sshv2_credential (c : string * gmap string string) : Element :=
  credential_elem c.1 "sshv2"
    [ ("UserName", entry c.2 "user");
      ("Password", entry c.2 "password");
      ("EnablePassword", entry c.2 "enable_password") ]
    (entry c.2 "ip_expression").

(** ** Further sample data *)

(** A world without templates. *)
Definition bare_world : World :=
  {| reply := fun _ _ => inl "unreachable"; files := fun _ => None;
     localtime := mkTime 2024 2 29 23 59 7; sent := [] |}.

(** A world whose appliance is out of order. *)
Definition failing_world : World := answering (mkResponse 500 "<Error/>" []).

Definition two_rows : list csv_args :=
  [ mkCsvArgs "10.0.0.1" "switch1" "admin" "secret" "enable" "public" "private";
    mkCsvArgs "10.0.0.2" EmptyString EmptyString EmptyString EmptyString
      "public" EmptyString ].

(** A world with the templates of the requests that change the
    inventory, each holding the name of its parsed form. *)
Definition template_world (response : Response) : World :=
  {| reply := fun _ _ => inr response;
     files := fun path =>
       if bool_decide (path = "/opt/cspc/xml_requests/add_multiple_devices.xml")
       then Some "add"
       else if bool_decide (path = "/opt/cspc/xml_requests/delete_multiple_devices.xml")
       then Some "delete"
       else if bool_decide (path = "/opt/cspc/xml_requests/discover_multiple_devices.xml")
       then Some "discover"
       else if bool_decide (path = "/opt/cspc/xml_requests/add_multiple_device_credentials.xml")
       then Some "credentials"
       else if bool_decide (path = "/opt/cspc/xml_requests/get_details_of_all_devices.xml")
       then Some "<Request/>"
       else None;
     localtime := mkTime 2024 2 29 23 59 7;
     sent := [] |}.

Definition accepted : Response := mkResponse 200 "<Response/>" [].

(** A serializer that only tells how many devices the list of
    [sample_template] holds. *)
Definition sample_tostring (tree : Element) : string :=
  match ElementTree.deref tree [0; 1] with
  | Some e => pretty (length (ElementTree.children e))
  | None => "?"
  end.

Definition sample_devices : list (list (string * string)) :=
  [ [("HostName", "sw1"); ("IPAddress", "10.0.0.1")];
    [("IPAddress", "10.0.0.2")] ].

Definition discover_template : Element :=
  node (qualified "Request") None
    [ node (qualified "DiscoveryJob") None
        [ node (qualified "IPAddressList") None [] None ] None ] None.

Definition jobless_template : Element :=
  node (qualified "Request") None
    [ node (qualified "IPAddressList") None [] None ] None.

Definition credentials_template : Element :=
  node (qualified "Request") None
    [ node (qualified "DeviceCredentialList") None [] None ] None.

(** A serializer that only tells how many children the first child of
    the root holds. *)
Definition count_tostring (tree : Element) : string :=
  match ElementTree.deref tree [0] with
  | Some e => pretty (length (ElementTree.children e))
  | None => "?"
  end.

Definition sample_records : list (gmap string string) :=
  [ {[ "Id" := "17"; "HostName" := "sw1" ]}; {[ "Id" := "18" ]} ].

Definition records_without_id : list (gmap string string) :=
  [ {[ "Id" := "17" ]}; {[ "HostName" := "sw2" ]} ].

Definition sample_snmp : list (string * gmap string string) :=
  [ ("core", {[ "snmp_read_community" := "public";
                "snmp_write_community" := "private";
                "ip_expression" := "10.*.*.*" ]}) ].

Definition sample_ssh : list (string * gmap string string) :=
  [ ("core", {[ "user" := "admin"; "password" := "secret";
                "enable_password" := "enable";
                "ip_expression" := "10.*.*.*" ]}) ].

(** A credential without its IP expression. *)
Definition edge_snmp : string * gmap string string :=
  ("edge", {[ "snmp_read_community" := "public";
              "snmp_write_community" := "private" ]}).

(** A serializer that only tells the identifier of the job of
    [discover_template] and the tag and text of each entry of its
    address list. *)
Definition discover_tostring (tree : Element) : string :=
  match ElementTree.deref tree [0], ElementTree.deref tree [0; 0] with
  | Some job, Some ip_list =>
      default "?" (attrib_get "identifier" (ElementTree.attrib job))
      +:+ ":" +:+ PyStr.join ";"
                    ((fun e => ElementTree.tag e +:+ "="
                               +:+ default EmptyString (ElementTree.text e))
                       <$> ElementTree.children ip_list)
  | _, _ => "?"
  end.
(** * Properties *)

(** ** Strings *)

Section PyStrFacts.
Import PyStr.

Lemma str_app_cons (c : ascii) (s t : string) :
  String c s +:+ t = String c (s +:+ t).
Proof. done. Qed.

Lemma str_app_nil_l (s : string) : EmptyString +:+ s = s.
Proof. done. Qed.

Lemma str_app_nil_r (s : string) : s +:+ EmptyString = s.
Proof. induction s as [|c s IH]; [done|]. by rewrite str_app_cons, IH. Qed.

Lemma str_app_assoc (s t u : string) : (s +:+ t) +:+ u = s +:+ t +:+ u.
Proof. induction s as [|c s IH]; [done|]. by rewrite !str_app_cons, IH. Qed.

Lemma str_length_app (s t : string) :
  String.length (s +:+ t) = String.length s + String.length t.
Proof. induction s as [|c s IH]; [done|]. rewrite str_app_cons. cbn. by rewrite IH. Qed.

Lemma take_app (s t : string) : take (String.length s) (s +:+ t) = s.
Proof.
  induction s as [|c s IH]; [by destruct t|]. rewrite str_app_cons. cbn. by rewrite IH.
Qed.

(** Slicing off a suffix that was just appended gives the original. *)
Lemma slice_to_neg_app (s t : string) :
  slice_to_neg (String.length t) (s +:+ t) = s.
Proof.
  unfold slice_to_neg. rewrite str_length_app.
  replace (String.length s + String.length t - String.length t)
    with (String.length s) by lia.
  apply take_app.
Qed.

Lemma count_app (c : ascii) (s t : string) :
  count c (s +:+ t) = count c s + count c t.
Proof. induction s as [|a s IH]; [done|]. rewrite str_app_cons. cbn. rewrite IH. lia. Qed.

Lemma startswith_spec (p s : string) :
  startswith p s = true <-> exists post, s = p +:+ post.
Proof.
  revert s. induction p as [|a p IH]; intros s; cbn.
  - split; [eauto|done].
  - destruct s as [|b s]; cbn.
    + split; [done|]. by intros [post ?].
    + rewrite andb_true_iff, bool_decide_eq_true, IH. split.
      * intros [-> [post ->]]. eauto.
      * intros [post [= -> ->]]. eauto.
Qed.

(** [contains] decides whether the needle occurs in the hay. *)
Lemma contains_spec (needle hay : string) :
  contains needle hay = true <-> substring_of needle hay.
Proof.
  unfold substring_of. induction hay as [|c hay IH].
  - cbn. rewrite orb_false_r, startswith_spec. split.
    + intros [post ->]. by exists EmptyString, post.
    + intros [[|??] [post H]]; [eauto | done].
  - cbn [contains]. rewrite orb_true_iff, startswith_spec, IH. split.
    + intros [[post ->]|(pre & post & ->)].
      * by exists EmptyString, post.
      * by exists (String c pre), post.
    + intros ([|a pre] & post & H).
      * left. eauto.
      * right. injection H as -> ->. eauto.
Qed.

End PyStrFacts.

(** ** The credential context *)

(** C7: the display string of a context built from
    [(host, user, password, verify)] is [CspcApi(], then between double
    quotes the host as it was given (the [":8001"] suffix sliced off
    again), the user and the plaintext password, each followed by a
    comma and a space, then [True] or [False] and [)]; for
    [("1.1.1.1", "user", "pw", True)] it is the string the test expects.
    The double quote is the character with code 34. *)
Theorem str_of_constructed_context (host0 user0 pwd : string) (verify0 : bool) :
  let q := String "034"%char EmptyString in
  __str__ (__init__ host0 user0 pwd verify0)
    = "CspcApi(" +:+ q +:+ host0 +:+ q
        +:+ ", " +:+ q +:+ user0 +:+ q
        +:+ ", " +:+ q +:+ pwd +:+ q
        +:+ ", " +:+ (if verify0 then "True" else "False") +:+ ")"
  /\ __str__ (__init__ "1.1.1.1" "user" "pw" true)
    = "CspcApi(" +:+ q +:+ "1.1.1.1" +:+ q +:+ ", " +:+ q +:+ "user" +:+ q
        +:+ ", " +:+ q +:+ "pw" +:+ q +:+ ", True)"
  /\ String.length (__str__ (__init__ "1.1.1.1" "user" "pw" true)) = 38.
Proof.
  intros q. split_and!; [|reflexivity..].
  unfold __str__, __init__. cbn [host user password kwargs verify].
  change 5 with (String.length ":8001").
  rewrite slice_to_neg_app. unfold PyStr.quoted, PyStr.str_bool, type_name, q.
  by rewrite !str_app_assoc.
Qed.

(** ** CSV rows *)

Section CsvFacts.
Import PyStr.

Lemma split_free (c : ascii) (s : string) : free_of c s -> split c s = [s].
Proof.
  unfold free_of. induction s as [|a s IH]; [done|]. cbn.
  case_bool_decide; [done|]. intros Hs. by rewrite IH.
Qed.

Lemma split_app_sep (c : ascii) (s t : string) :
  free_of c s -> split c (s +:+ String c t) = s :: split c t.
Proof.
  unfold free_of. induction s as [|a s IH].
  - intros _. rewrite str_app_nil_l. cbn. by rewrite bool_decide_eq_true_2.
  - rewrite str_app_cons. cbn. case_bool_decide; [done|]. intros Hs.
    by rewrite IH.
Qed.

(** Splitting a joined row gives the fields back when no field holds
    the separator. *)
Lemma split_join (c : ascii) (l : list string) :
  l <> [] -> Forall (free_of c) l ->
  split c (join (String c EmptyString) l) = l.
Proof.
  induction l as [|x l IH]; [done|]. intros _ Hall.
  apply Forall_cons in Hall as [Hx Hl].
  destruct l as [|y l]; [by apply split_free|].
  cbn [join]. rewrite str_app_cons, str_app_nil_l, split_app_sep by done.
  f_equal. by apply IH.
Qed.

Lemma csv_row_is_join (ip h u p e ro rw : string) :
  get_formatted_csv_device_entry ip h u p e ro rw
  = join "," ([ip; h] ++ replicate 6 EmptyString ++ [ro; rw]
              ++ replicate 6 EmptyString ++ [u; p; e]
              ++ replicate 17 EmptyString) +:+ newline.
Proof.
  unfold get_formatted_csv_device_entry. cbn [replicate app join].
  by rewrite !str_app_assoc.
Qed.

End CsvFacts.

(** C5, as the code has it: for arguments that hold no comma and no
    newline, the row is the 36 columns joined by commas and closed by a
    newline; splitting it at the commas gives the 36 columns back, with
    the IP address, host name, SNMP read and write communities, user
    name, password and enable password in columns 1, 2, 9, 10, 17, 18
    and 19 and every other column empty; the line has exactly 35 commas
    and exactly one newline.  In particular the row of ["10.0.0.1"]
    alone has that address first and 35 empty columns after it. *)
Theorem csv_row_has_36_columns (ip h u p e ro rw : string) :
  Forall (fun s => PyStr.free_of PyStr.comma s /\ PyStr.free_of PyStr.nl s)
         [ip; h; u; p; e; ro; rw] ->
  let columns := [ip; h] ++ replicate 6 EmptyString ++ [ro; rw]
                 ++ replicate 6 EmptyString ++ [u; p; e]
                 ++ replicate 17 EmptyString in
  let line := get_formatted_csv_device_entry ip h u p e ro rw in
  length columns = 36
  /\ line = PyStr.join "," columns +:+ PyStr.newline
  /\ PyStr.split PyStr.comma (PyStr.join "," columns) = columns
  /\ PyStr.count PyStr.comma line = 35
  /\ PyStr.count PyStr.nl line = 1
  /\ get_formatted_csv_device_entry "10.0.0.1" EmptyString EmptyString
       EmptyString EmptyString EmptyString EmptyString
     = PyStr.join "," ("10.0.0.1" :: replicate 35 EmptyString) +:+ PyStr.newline.
Proof.
  intros Hfree columns line.
  repeat (apply Forall_cons in Hfree as [[? ?] Hfree]).
  assert (Hline : line = PyStr.join "," columns +:+ PyStr.newline)
    by apply csv_row_is_join.
  split_and!; [done|done| | | |done].
  - apply (split_join PyStr.comma); [done|]. unfold columns. cbn [replicate app].
    repeat (apply Forall_cons; split; [first [assumption|reflexivity]|]).
    constructor.
  - rewrite Hline. unfold columns. cbn [replicate app PyStr.join].
    rewrite !count_app. unfold PyStr.free_of in *.
    repeat match goal with H : PyStr.count _ _ = 0 |- _ => rewrite H; clear H end.
    reflexivity.
  - rewrite Hline. unfold columns. cbn [replicate app PyStr.join].
    rewrite !count_app. unfold PyStr.free_of in *.
    repeat match goal with H : PyStr.count _ _ = 0 |- _ => rewrite H; clear H end.
    reflexivity.
Qed.

Lemma csv_row_has_36_columns_witness :
  Forall (fun s => PyStr.free_of PyStr.comma s /\ PyStr.free_of PyStr.nl s)
         ["10.0.0.1"; "switch1"; "admin"; "secret"; "enable"; "public"; "private"]
  /\ PyStr.count PyStr.comma
       (get_formatted_csv_device_entry "10.0.0.1" "switch1" "admin" "secret"
          "enable" "public" "private") = 35.
Proof.
  assert (Hfree : Forall
    (fun s => PyStr.free_of PyStr.comma s /\ PyStr.free_of PyStr.nl s)
    ["10.0.0.1"; "switch1"; "admin"; "secret"; "enable"; "public"; "private"]).
  { repeat (apply Forall_cons; split; [split; reflexivity|]). constructor. }
  split; [exact Hfree|].
  exact (proj1 (proj2 (proj2 (proj2
    (csv_row_has_36_columns "10.0.0.1" "switch1" "admin" "secret"
       "enable" "public" "private" Hfree))))).
Defined.

(** C5 as stated fails: a comma inside an argument is written out as it
    is, so the row of a host name ["sw,1"] has 36 commas and splits into
    37 columns. *)
Lemma csv_row_with_comma_in_argument :
  PyStr.count PyStr.comma
    (get_formatted_csv_device_entry "10.0.0.1" "sw,1" EmptyString EmptyString
       EmptyString EmptyString EmptyString) <> 35
  /\ length (PyStr.split PyStr.comma
       (get_formatted_csv_device_entry "10.0.0.1" "sw,1" EmptyString EmptyString
          EmptyString EmptyString EmptyString)) <> 36.
Proof. split; vm_compute; lia. Qed.

(** ** Transport *)

(** C3: when the appliance answers the POST to [/cspc/xml], [_xml] raises
    exactly when the status code is not 200; the error it raises is the
    [RuntimeError] that carries the whole response; with status 200 it
    returns the response body as it came. *)
Theorem xml_raises_iff_status_not_200 (self : CspcApi) (payload : string)
    (w : World) (response : Response) :
  let request :=
    {| req_link := "https://" +:+ host self +:+ "/cspc/xml";
       req_data := Some payload; req_files := [];
       req_headers := kw_headers (kwargs self);
       req_verify := verify (kwargs self) |} in
  reply w (sent w) request = inr response ->
  ((exists e, (_xml self payload w).1 = Raise e)
     <-> status_code response <> 200%Z)
  /\ (forall e, (_xml self payload w).1 = Raise e -> e = RuntimeError response)
  /\ (status_code response = 200%Z ->
        (_xml self payload w).1 = Ok (text response))
  /\ sent (_xml self payload w).2 = sent w ++ [request].
Proof.
  intros request Hreply.
  unfold _xml, mbind, M_bind, requests_post, lift, mret, M_ret.
  fold request. rewrite Hreply.
  case_bool_decide as Hstatus; cbn.
  - split_and!; [|congruence|done|done]. split; [done|eauto].
  - split_and!; [|done|done|done]. split; [by intros [? ?]|done].
Qed.

Lemma xml_raises_iff_status_not_200_witness :
  let self := __init__ "1.1.1.1" "user" "pw" true in
  let response := mkResponse 500 "<Error/>" [] in
  (_xml self "<Request/>" (answering response)).1 = Raise (RuntimeError response).
Proof.
  intros self response.
  destruct (xml_raises_iff_status_not_200 self "<Request/>"
              (answering response) response eq_refl) as ([_ Hraise] & Hcarry & _).
  destruct Hraise as [e He]; [done|].
  by rewrite He, (Hcarry e He).
Defined.

(** The decimal form of a number of [k+1] digits has [k+1]
    characters. *)
Lemma pretty_N_go_length (k : nat) (n : N) (s : string) :
  (10 ^ N.of_nat k <= n < 10 ^ N.of_nat (S k))%N ->
  String.length (pretty_N_go n s) = S k + String.length s.
Proof.
  revert n s. induction k as [|k IH]; intros n s [Hlo Hhi].
  - change (1 <= n)%N in Hlo. change (n < 10)%N in Hhi.
    rewrite pretty_N_go_step by lia.
    by rewrite N.div_small, pretty_N_go_0 by done.
  - rewrite Nat2N.inj_succ, N.pow_succ_r' in Hlo.
    rewrite !Nat2N.inj_succ, !N.pow_succ_r' in Hhi.
    assert (0 < 10 ^ N.of_nat k)%N by (apply N.neq_0_lt_0, N.pow_nonzero; lia).
    rewrite pretty_N_go_step by lia.
    rewrite IH; [cbn; lia|].
    rewrite Nat2N.inj_succ, N.pow_succ_r'. split.
    + apply N.div_le_lower_bound; lia.
    + apply N.Div0.div_lt_upper_bound; lia.
Qed.

Lemma pretty_N_length (k : nat) (n : N) :
  (10 ^ N.of_nat k <= n < 10 ^ N.of_nat (S k))%N ->
  String.length (pretty n) = S k.
Proof.
  intros Hn. unfold pretty, pretty_N.
  assert (0 < 10 ^ N.of_nat k)%N by (apply N.neq_0_lt_0, N.pow_nonzero; lia).
  rewrite decide_False by lia.
  rewrite (pretty_N_go_length k) by done. cbn. lia.
Qed.

Lemma pad2_length (n : N) : (n < 100)%N -> String.length (pad2 n) = 2.
Proof.
  intros Hn. unfold pad2. destruct (n <? 10)%N eqn:Hlt.
  - apply N.ltb_lt in Hlt. rewrite str_length_app.
    destruct (decide (n = 0%N)) as [->|]; [done|].
    rewrite (pretty_N_length 0); [done|]. change (1 <= n < 10)%N. lia.
  - apply N.ltb_ge in Hlt.
    apply (pretty_N_length 1). change (10 <= n < 100)%N. lia.
Qed.

Lemma year_length (n : N) :
  (1000 <= n < 10000)%N -> String.length (pretty n) = 4.
Proof. intros Hn. by apply (pretty_N_length 3). Qed.

(** C6: whatever the context, also one built with [verify] true, the
    seed file upload issues one POST to [/cspc/seedfile] on the
    appliance, with certificate verification switched off, whose [file]
    part is named after the group and the local time,
    [{group}-{YYYYmmdd-HHMMSS}.csv], and carries the CSV text; the
    [request] part is the job document that names the same file.  On a
    calendar date the time stamp is eight characters, a dash and six
    characters. *)
Theorem seed_file_upload_is_unverified (self : CspcApi)
    (csv device_group_name : string) (w : World) :
  let t := localtime w in
  let date := pretty (tm_year t) +:+ pad2 (tm_mon t) +:+ pad2 (tm_mday t) in
  let time := pad2 (tm_hour t) +:+ pad2 (tm_min t) +:+ pad2 (tm_sec t) in
  let seed_file_name :=
    device_group_name +:+ "-" +:+ (date +:+ "-" +:+ time) +:+ ".csv" in
  (exists request,
     sent (send_and_import_seed_file_csv self csv device_group_name w).2
       = sent w ++ [request]
     /\ req_verify request = false
     /\ req_link request = "https://" +:+ host self +:+ "/cspc/seedfile"
     /\ req_data request = None
     /\ req_files request
        = [ ("request",
             (None, seed_xmlrequest device_group_name seed_file_name));
            ("file", (Some seed_file_name, csv)) ]
     /\ req_headers request = headers self)
  /\ (calendar_time t -> String.length date = 8 /\ String.length time = 6).
Proof.
  intros t date time seed_file_name. split.
  - assert (strftime_Ymd_HMS w = (Ok (date +:+ "-" +:+ time), w)) as Hstamp.
    { unfold strftime_Ymd_HMS, date, time, t. by rewrite !str_app_assoc. }
    unfold send_and_import_seed_file_csv, mbind, M_bind.
    rewrite Hstamp. fold seed_file_name.
    unfold requests_post, mret, M_ret.
    eexists. cbn [snd].
    destruct (reply w (sent w) _); cbn [sent fst snd req_verify req_link
      req_data req_files req_headers]; split_and!; reflexivity.
  - intros (Hy & Hm & Hd & HH & HM & HS). unfold date, time.
    rewrite !str_length_app, year_length by done.
    rewrite !pad2_length by lia. done.
Qed.

Lemma seed_file_upload_is_unverified_witness :
  exists request,
    sent (send_and_import_seed_file_csv sample_self "10.0.0.1,sw1" "lab"
            sample_world).2 = [request]
    /\ verify (kwargs sample_self) = true
    /\ req_verify request = false
    /\ (req_files request).*2.*1 = [None; Some "lab-20240229-235907.csv"].
Proof.
  destruct (seed_file_upload_is_unverified sample_self "10.0.0.1,sw1" "lab"
              sample_world) as [(request & Hsent & Hverify & _ & _ & Hfiles & _) _].
  exists request. split_and!; [exact Hsent|reflexivity|exact Hverify|].
  by rewrite Hfiles.
Defined.

(** ** Case folding *)

Section CaseFacts.

Lemma nat_of_ascii_inj (a b : ascii) : nat_of_ascii a = nat_of_ascii b -> a = b.
Proof.
  intros H. rewrite <-(ascii_nat_embedding a), <-(ascii_nat_embedding b).
  by rewrite H.
Qed.

Lemma nat_of_lower_ascii (c : ascii) :
  nat_of_ascii (PyStr.lower_ascii c) = code_lower (nat_of_ascii c).
Proof.
  unfold PyStr.lower_ascii, code_lower. cbv zeta.
  destruct (_ && _) eqn:Hup; [|done].
  apply andb_true_iff in Hup as [?%Nat.leb_le ?%Nat.leb_le].
  apply nat_ascii_embedding. lia.
Qed.

Lemma lower_ascii_eq (a b : ascii) :
  PyStr.lower_ascii a = PyStr.lower_ascii b
  <-> same_char_ignoring_case a b = true.
Proof.
  unfold same_char_ignoring_case, is_upper.
  rewrite !orb_true_iff, !andb_true_iff, !bool_decide_eq_true,
    !Nat.leb_le.
  split.
  - intros H%(f_equal nat_of_ascii). rewrite !nat_of_lower_ascii in H.
    unfold code_lower in H.
    destruct (decide (nat_of_ascii a = nat_of_ascii b)) as [?%nat_of_ascii_inj|];
      [by left; left|].
    repeat case_match; repeat match goal with
      | H : _ && _ = true |- _ =>
          apply andb_true_iff in H as [?%Nat.leb_le ?%Nat.leb_le]
      | H : _ && _ = false |- _ =>
          apply andb_false_iff in H as [?%Nat.leb_gt| ?%Nat.leb_gt]
      end; try lia.
    all: first [left; right; lia | right; lia].
  - intros H. apply nat_of_ascii_inj. rewrite !nat_of_lower_ascii.
    unfold code_lower.
    destruct H as [[->|H]|H]; [done|..].
    all: repeat case_match; repeat match goal with
      | H : _ && _ = true |- _ =>
          apply andb_true_iff in H as [?%Nat.leb_le ?%Nat.leb_le]
      | H : _ && _ = false |- _ =>
          apply andb_false_iff in H as [?%Nat.leb_gt| ?%Nat.leb_gt]
      end; lia.
Qed.

(** Comparing the lowered strings is comparing without regard to
    case. *)
Lemma lower_eq (s t : string) :
  PyStr.lower s = PyStr.lower t <-> same_ignoring_case s t = true.
Proof.
  revert t. induction s as [|a s IH]; intros [|b t]; cbn; try done.
  rewrite andb_true_iff, <-IH, <-lower_ascii_eq. split.
  - by intros [= -> ->].
  - by intros [-> ->].
Qed.

Lemma lower_is_reachable (s : string) :
  PyStr.lower s <> "reachable" <-> same_ignoring_case s "reachable" = false.
Proof.
  change "reachable" with (PyStr.lower "reachable") at 1.
  rewrite lower_eq. by destruct (same_ignoring_case _ _).
Qed.

End CaseFacts.

(** ** The device filters *)

Section FacadeFacts.
Import ElementTree.

Lemma findtext_has_child (key : string) (d : Element) :
  has_child key d <-> is_Some (findtext key d).
Proof.
  unfold has_child, findtext. destruct (find key d); split; intros [? ?]; eauto; done.
Qed.

Lemma find_in_tag (key : string) (cs : list Element) (c : Element) :
  find_in key cs = Some c -> tag c = key /\ c ∈ cs.
Proof.
  induction cs as [|x cs IH]; [done|]. cbn. case_bool_decide.
  - intros [= ->]. split; [done|]. left.
  - intros [? ?]%IH. split; [done|]. by right.
Qed.

Lemma find_in_is_Some (key : string) (cs : list Element) :
  is_Some (find_in key cs) <-> key ∈ tag <$> cs.
Proof.
  induction cs as [|x cs IH]; cbn.
  - split; [by intros [? ?]|]. by intros ?%elem_of_nil.
  - case_bool_decide as Hx.
    + split; [|eauto]. intros _. rewrite <-Hx. left.
    + rewrite IH, elem_of_cons. split; [by right|]. by intros [?|?].
Qed.

(** The loop over devices that all have a Status. *)
Lemma unreachable_loop_ok (devices : list Element) acc :
  Forall (has_child "Status") devices ->
  unreachable_loop devices acc
  = Ok (acc ++ (dev_dict <$> filter unreachable devices)).
Proof.
  revert acc. induction devices as [|d devices IH]; intros acc Hall.
  - cbn. by rewrite app_nil_r.
  - apply Forall_cons in Hall as [Hd Hall].
    apply findtext_has_child in Hd as [status Hstatus].
    assert (unreachable d <-> PyStr.lower status <> "reachable") as Hu.
    { unfold unreachable, field. by rewrite Hstatus, lower_is_reachable. }
    rewrite filter_cons. cbn [unreachable_loop]. rewrite Hstatus.
    unfold lower_of, mbind, result_bind.
    case_bool_decide as Hlow.
    + rewrite decide_True by by apply Hu.
      rewrite IH by done. by rewrite fmap_cons, <-app_assoc.
    + rewrite decide_False by (rewrite Hu; tauto).
      by apply IH.
Qed.

(** The loop stops with an [AttributeError] at the first device
    without a Status. *)
Lemma unreachable_loop_raise (devices : list Element) acc :
  Exists (fun d => ~ has_child "Status" d) devices ->
  unreachable_loop devices acc = Raise AttributeError.
Proof.
  revert acc. induction devices as [|d devices IH]; intros acc Hex.
  - by apply Exists_nil in Hex.
  - cbn [unreachable_loop].
    destruct (findtext "Status" d) as [status|] eqn:Hstatus; [|done].
    apply Exists_cons in Hex as [Hd|Hex].
    + destruct Hd. apply findtext_has_child. by rewrite Hstatus.
    + cbn. case_bool_decide; by apply IH.
Qed.

Lemma dev_dict_lookup (d : Element) (k : string) :
  dev_dict d !! k
  = if bool_decide (k ∈ ["Id"; "HostName"; "IPAddress"; "Status"])
    then Some (PyStr.str_opt (field k d)) else None.
Proof.
  unfold dev_dict, field.
  destruct (decide (k = "Id")) as [->|]; [by simplify_map_eq|].
  destruct (decide (k = "HostName")) as [->|]; [by simplify_map_eq|].
  destruct (decide (k = "IPAddress")) as [->|]; [by simplify_map_eq|].
  destruct (decide (k = "Status")) as [->|]; [by simplify_map_eq|].
  rewrite bool_decide_eq_false_2.
  - by simplify_map_eq.
  - rewrite !elem_of_cons, elem_of_nil. tauto.
Qed.

Lemma dev_dict_dom (d : Element) :
  dom (dev_dict d) = {[ "Id"; "HostName"; "IPAddress"; "Status" ]}.
Proof.
  unfold dev_dict. rewrite !dom_insert_L, dom_singleton_L. set_solver.
Qed.

Lemma any_in_Some (check : list string) (txt : string) :
  any_in check (Some txt)
  = Ok (existsb (fun item => PyStr.contains item txt) check).
Proof.
  induction check as [|item check IH]; [done|]. cbn.
  destruct (PyStr.contains item txt); [done|]. by rewrite IH.
Qed.

Lemma any_in_None (check : list string) :
  check <> [] -> any_in check None = Raise TypeError.
Proof. by destruct check. Qed.

(** On a field that is there, the check decides [matches]. *)
Lemma check_in_str_matches (key : string) (v : value) (d : Element) (txt : string) :
  findtext key d = Some txt ->
  _check_in_str (Some txt) v = Ok (bool_decide (matches key v d)).
Proof.
  intros Htxt.
  assert (matches key v d <->
          match v with
          | VStr s => PyStr.contains s txt = true
          | VSet items =>
              set_Exists (fun item => PyStr.contains item txt = true) items
          end) as Hm.
  { unfold matches, field. by rewrite Htxt. }
  destruct v as [s|items]; cbn [_check_in_str py_in].
  - f_equal. apply eq_true_iff_eq. by rewrite bool_decide_eq_true, Hm.
  - rewrite any_in_Some. f_equal. apply eq_true_iff_eq.
    rewrite bool_decide_eq_true, Hm, existsb_exists. unfold set_Exists.
    setoid_rewrite <-list_elem_of_In. by setoid_rewrite elem_of_elements.
Qed.

Lemma matched_loop_ok (key : string) (v : value) (devices : list Element) acc :
  Forall (has_child key) devices ->
  matched_loop key v devices acc
  = Ok (acc ++ (device_dict <$> filter (matches key v) devices)).
Proof.
  revert acc. induction devices as [|d devices IH]; intros acc Hall.
  - cbn. by rewrite app_nil_r.
  - apply Forall_cons in Hall as [Hd Hall].
    apply findtext_has_child in Hd as [txt Htxt].
    rewrite filter_cons. cbn [matched_loop].
    rewrite Htxt, (check_in_str_matches key v d txt Htxt).
    unfold mbind, result_bind.
    case_bool_decide.
    + rewrite decide_True by done.
      rewrite IH by done. by rewrite fmap_cons, <-app_assoc.
    + rewrite decide_False by done. by apply IH.
Qed.

(** With the empty set nothing is looked at: no device is kept and no
    lookup can fail. *)
Lemma matched_loop_empty_set (key : string) (devices : list Element) acc :
  matched_loop key (VSet ∅) devices acc = Ok acc.
Proof.
  revert acc. induction devices as [|d devices IH]; intros acc; [done|].
  cbn [matched_loop _check_in_str]. rewrite elements_empty. cbn. apply IH.
Qed.

Lemma device_dict_fold (d : Element) (cs : list Element)
    (acc : gmap string string) (t : string) :
  foldl (fun m child =>
           <[tag child := PyStr.str_opt (findtext (tag child) d)]> m) acc cs !! t
  = if bool_decide (t ∈ tag <$> cs) then Some (PyStr.str_opt (findtext t d))
    else acc !! t.
Proof.
  revert acc. induction cs as [|c cs IH]; intros acc; [done|].
  cbn [foldl]. rewrite IH, fmap_cons.
  destruct (decide (t ∈ tag <$> cs)) as [Hin|Hin].
  - rewrite !bool_decide_eq_true_2; [done| |done]. by right.
  - rewrite (bool_decide_eq_false_2 _ Hin).
    destruct (decide (tag c = t)) as [<-|Hne].
    + rewrite lookup_insert_eq, bool_decide_eq_true_2; [done|left].
    + rewrite lookup_insert_ne, bool_decide_eq_false_2; [done| |done].
      rewrite elem_of_cons. by intros [?|?].
Qed.

(** The mapping returned for a device holds, under each tag that occurs
    among its children, the text of the first child with that tag, and
    nothing else. *)
Lemma device_dict_lookup (d : Element) (t : string) :
  device_dict d !! t = field t d.
Proof.
  unfold device_dict. rewrite device_dict_fold, lookup_empty.
  unfold field, findtext, find.
  case_bool_decide as Hin.
  - apply find_in_is_Some in Hin as [c Hc]. by rewrite Hc.
  - destruct (find_in t (children d)) eqn:Hc; [|done].
    destruct Hin. apply find_in_is_Some. by rewrite Hc.
Qed.

Lemma matches_spec (key : string) (v : value) (d : Element) (txt : string) :
  field key d = Some txt ->
  matches key v d
  <-> (exists s, v = VStr s /\ substring_of s txt)
      \/ (exists items item,
            v = VSet items /\ item ∈ items /\ substring_of item txt).
Proof.
  intros Htxt. unfold matches. rewrite Htxt. destruct v as [s|items].
  - rewrite contains_spec. split.
    + intros ?. left. eauto.
    + intros [(? & [= <-] & ?)|(? & ? & [=] & _)]. done.
  - unfold set_Exists. setoid_rewrite contains_spec. split.
    + intros (item & ? & ?). right. eauto.
    + intros [(? & [=] & _)|(? & item & [= <-] & ? & ?)]. eauto.
Qed.

End FacadeFacts.

Section FacadeTheorems.

Variable xml_request_dir : string.
Variable fromstring : string -> result Element.
Variable self : CspcApi.

Lemma get_unreachable_devices_run (w w' : World) (devices : list Element) :
  get_devices xml_request_dir fromstring self w = (Ok devices, w') ->
  get_unreachable_devices xml_request_dir fromstring self w
  = (unreachable_loop devices [], w').
Proof. unfold get_unreachable_devices, mbind, M_bind. by intros ->. Qed.

Lemma get_devices_by_run (key : string) (v : value) (w w' : World)
    (devices : list Element) :
  get_devices xml_request_dir fromstring self w = (Ok devices, w') ->
  get_devices_by xml_request_dir fromstring self key v w
  = (matched_loop key v devices [], w').
Proof. unfold get_devices_by, mbind, M_bind. by intros ->. Qed.

End FacadeTheorems.

(** C1, as the code has it: when every device of the appliance's answer
    has a Status child, [get_unreachable_devices] returns, in the order
    of the answer, the devices whose Status differs from ["reachable"]
    when case is ignored.  Each is returned as a mapping with exactly the
    keys Id, HostName, IPAddress and Status, whose values are
    [str(findtext(key))]: the text of the first child with that tag
    ([""] if it has none, ["None"] if there is no such child).  Of three
    devices with Status ["Reachable"], ["Unreachable"] and ["reachable"]
    only the second is kept. *)
Theorem unreachable_devices_are_listed (xml_request_dir : string)
    (fromstring : string -> result Element) (self : CspcApi)
    (w w' : World) (devices : list Element) :
  get_devices xml_request_dir fromstring self w = (Ok devices, w') ->
  Forall (has_child "Status") devices ->
  get_unreachable_devices xml_request_dir fromstring self w
    = (Ok (dev_dict <$> filter unreachable devices), w')
  /\ (forall d, dom (dev_dict d) = {[ "Id"; "HostName"; "IPAddress"; "Status" ]})
  /\ (forall d k, k ∈ ["Id"; "HostName"; "IPAddress"; "Status"] ->
        dev_dict d !! k = Some (PyStr.str_opt (field k d)))
  /\ (forall d1 d2 d3,
        field "Status" d1 = Some "Reachable" ->
        field "Status" d2 = Some "Unreachable" ->
        field "Status" d3 = Some "reachable" ->
        filter unreachable [d1; d2; d3] = [d2]).
Proof.
  intros Hget Hall. split_and!.
  - rewrite (get_unreachable_devices_run _ _ _ _ _ _ Hget).
    by rewrite unreachable_loop_ok.
  - apply dev_dict_dom.
  - intros d k Hk. by rewrite dev_dict_lookup, bool_decide_eq_true_2.
  - intros d1 d2 d3 H1 H2 H3.
    rewrite !filter_cons, filter_nil.
    rewrite decide_False, decide_True, decide_False; [done|..];
      unfold unreachable; rewrite ?H1, ?H2, ?H3; done.
Qed.

Lemma unreachable_devices_are_listed_witness :
  let fromstring := sample_parser "<Response/>" (sample_inventory three_devices) in
  (get_unreachable_devices sample_dir fromstring sample_self sample_world).1
  = Ok [dev_dict (sample_device ("2", "router2", Some "Unreachable"))].
Proof.
  intros fromstring.
  pose proof (unreachable_devices_are_listed sample_dir fromstring sample_self
    sample_world
    (get_devices sample_dir fromstring sample_self sample_world).2
    (sample_device <$> three_devices)) as H.
  destruct H as (Hrun & _).
  - reflexivity.
  - repeat constructor; by eexists.
  - by rewrite Hrun.
Defined.

(** C1 as stated fails: for an answer in which a device has no Status
    child no list is returned, the call ends in an [AttributeError]. *)
Lemma unreachable_devices_without_status :
  let fromstring := sample_parser "<Response/>" (sample_inventory no_status_devices) in
  (get_devices sample_dir fromstring sample_self sample_world).1
    = Ok (sample_device <$> no_status_devices)
  /\ ~ exists unreachable_devices,
        (get_unreachable_devices sample_dir fromstring sample_self sample_world).1
        = Ok unreachable_devices.
Proof.
  intros fromstring. split; [reflexivity|]. by intros [? ?].
Qed.

(** C10: [get_unreachable_devices] returns a list only when every device
    of the answer has a Status child; as soon as one has none, the call
    raises ([None] has no [lower]) and neither skips nor lists that
    device. *)
Theorem unreachable_devices_need_status (xml_request_dir : string)
    (fromstring : string -> result Element) (self : CspcApi)
    (w w' : World) (devices : list Element) :
  get_devices xml_request_dir fromstring self w = (Ok devices, w') ->
  (Exists (fun d => ~ has_child "Status" d) devices ->
     get_unreachable_devices xml_request_dir fromstring self w
     = (Raise AttributeError, w'))
  /\ ((exists out, get_unreachable_devices xml_request_dir fromstring self w
                   = (Ok out, w'))
      <-> Forall (has_child "Status") devices).
Proof.
  intros Hget. rewrite (get_unreachable_devices_run _ _ _ _ _ _ Hget).
  split.
  - intros Hex. by rewrite unreachable_loop_raise.
  - split.
    + intros [out Hout].
      destruct (decide (Forall (has_child "Status") devices)) as [|Hn]; [done|].
      apply not_Forall_Exists in Hn; [|apply _].
      by rewrite unreachable_loop_raise in Hout.
    + intros Hall. rewrite unreachable_loop_ok by done. eauto.
Qed.

Lemma unreachable_devices_need_status_witness :
  let fromstring := sample_parser "<Response/>" (sample_inventory no_status_devices) in
  (get_unreachable_devices sample_dir fromstring sample_self sample_world).1
  = Raise AttributeError.
Proof.
  intros fromstring.
  pose proof (unreachable_devices_need_status sample_dir fromstring sample_self
    sample_world
    (get_devices sample_dir fromstring sample_self sample_world).2
    (sample_device <$> no_status_devices)) as H.
  destruct H as (Hraise & _); [reflexivity|].
  rewrite Hraise; [done|].
  right. left. by intros [? ?].
Defined.




(** C9: with the empty set as value and a plain tag name as key
    [get_devices_by] returns the empty list for every answer of the
    appliance: no member is there to occur in any field, be the field
    empty or absent. *)
Theorem empty_set_finds_no_device (xml_request_dir : string)
    (fromstring : string -> result Element) (self : CspcApi)
    (key : string) (w w' : World) (devices : list Element) :
  plain_tag key = true ->
  get_devices xml_request_dir fromstring self w = (Ok devices, w') ->
  get_devices_by xml_request_dir fromstring self key (VSet ∅) w = (Ok [], w')
  /\ (forall d, ~ matches key (VSet ∅) d)
  /\ (forall d, field key d = Some EmptyString ->
        _check_in_str (field key d) (VSet ∅) = Ok false).
Proof.
  intros _ Hget. split_and!.
  - rewrite (get_devices_by_run _ _ _ _ _ _ _ _ Hget).
    by rewrite matched_loop_empty_set.
  - intros d. unfold matches. destruct (field key d); [|tauto].
    intros (item & Hitem & _). set_solver.
  - intros d ->. cbn. by rewrite elements_empty.
Qed.

Lemma empty_set_finds_no_device_witness :
  let fromstring := sample_parser "<Response/>" (sample_inventory two_devices) in
  (get_devices_by sample_dir fromstring sample_self "HostName" (VSet ∅)
     sample_world).1 = Ok [].
Proof.
  intros fromstring.
  destruct (empty_set_finds_no_device sample_dir fromstring sample_self
    "HostName" sample_world
    (get_devices sample_dir fromstring sample_self sample_world).2
    (list_fmap _ _ sample_device two_devices) eq_refl eq_refl) as (Hrun & _).
  by rewrite Hrun.
Defined.

(** ** Document order and handles *)

Section ElementTreeFacts.
Import ElementTree.

(** Induction on an element with the property at hand for all of its
    children. *)
Lemma Element_nested_ind (P : Element -> Prop) :
  (forall t a x cs tl, Forall P cs -> P (mkElement t a x cs tl)) ->
  forall e, P e.
Proof.
  intros step. fix IH 1. intros [t a x cs tl]. apply step.
  induction cs as [|c cs IHcs]; constructor; [apply IH|apply IHcs].
Qed.

Lemma iter_unfold (elem : Element) :
  iter elem = ([], elem) :: iter_children iter 0 (children elem).
Proof. by destruct elem. Qed.

Lemma iter_children_cons (k : nat) (c : Element) (cs : list Element) :
  iter_children iter k (c :: cs)
  = map (fun pe => (k :: pe.1, pe.2)) (iter c) ++ iter_children iter (S k) cs.
Proof. done. Qed.

Lemma elem_of_iter_children (k : nat) (cs : list Element) (h : handle)
    (e : Element) :
  (h, e) ∈ iter_children iter k cs
  <-> exists i c h', h = (k + i) :: h' /\ cs !! i = Some c /\ (h', e) ∈ iter c.
Proof.
  revert k. induction cs as [|c cs IH]; intros k.
  - split; [by intros ?%elem_of_nil|]. by intros (i & ? & ? & _ & ? & _).
  - rewrite iter_children_cons, elem_of_app, IH. split.
    + intros [Hin|(i & c' & h' & -> & Hi & Hin)].
      * apply list_elem_of_In, in_map_iff in Hin as ([h' e'] & [= <- <-] & Hin).
        exists 0, c, h'. rewrite Nat.add_0_r.
        split_and!; [done|done|by apply list_elem_of_In].
      * exists (S i), c', h'. split_and!; [f_equal; lia|done|done].
    + intros ([|i] & c' & h' & -> & Hi & Hin).
      * injection Hi as <-. left. apply list_elem_of_In, in_map_iff.
        exists (h', e). rewrite Nat.add_0_r. split; [done|].
        by apply list_elem_of_In.
      * right. exists i, c', h'. split_and!; [f_equal; lia|done|done].
Qed.

(** [iter] lists exactly the elements that handles reach. *)
Lemma elem_of_iter (elem : Element) (h : handle) (e : Element) :
  (h, e) ∈ iter elem <-> deref elem h = Some e.
Proof.
  revert h. induction elem as [t a x cs tl IH] using Element_nested_ind.
  intros h. rewrite iter_unfold, elem_of_cons, elem_of_iter_children.
  cbn [children]. destruct h as [|i h]; cbn [deref children].
  - split.
    + intros [[= <-]|(? & ? & ? & [=] & _)]. done.
    + intros [= <-]. by left.
  - split.
    + intros [[=]|(j & c & h' & [= -> ->] & Hj & Hin)].
      cbn in Hj. rewrite Hj. cbn.
      eapply Forall_lookup_1 in IH; [|done]. by apply IH.
    + intros Hd. right.
      destruct (cs !! i) as [c|] eqn:Hi; [|done]. cbn in Hd.
      exists i, c, h. split_and!; [done|done|].
      eapply Forall_lookup_1 in IH; [|done]. by apply IH.
Qed.

Lemma iter_children_not_root (k : nat) (cs : list Element) (h : handle)
    (e : Element) :
  (h, e) ∈ iter_children iter k cs -> h <> [].
Proof. rewrite elem_of_iter_children. by intros (? & ? & ? & -> & _). Qed.

(** Appending through a handle reaches the element the handle refers
    to and changes nothing but its list of children. *)
Lemma deref_append_at (elem : Element) (h : handle) (e sub : Element) :
  deref elem h = Some e ->
  exists elem', append_at elem h sub = Some elem'
    /\ deref elem' h = Some (with_children e (children e ++ [sub])).
Proof.
  revert elem. induction h as [|i h IH]; intros elem; cbn.
  - intros [= ->]. eauto.
  - destruct (children elem !! i) as [c|] eqn:Hi; [|done]. cbn.
    intros (c' & -> & Hc')%IH. cbn. eexists. split; [done|].
    cbn. rewrite list_lookup_insert_eq; [done|]. by eapply lookup_lt_Some.
Qed.

Lemma head_filter_Some {A} (P : A -> Prop) `{!forall x, Decision (P x)}
    (l : list A) (x : A) :
  head (filter P l) = Some x ->
  exists before after,
    l = before ++ x :: after /\ P x /\ Forall (fun y => ~ P y) before.
Proof.
  induction l as [|y l IH]; [done|]. rewrite filter_cons.
  destruct (decide (P y)) as [Hy|Hy].
  - intros [= ->]. exists [], l. by split_and!.
  - intros (before & after & -> & ? & ?)%IH.
    exists (y :: before), after. split_and!; [done|done|by constructor].
Qed.

Lemma head_filter_None {A} (P : A -> Prop) `{!forall x, Decision (P x)}
    (l : list A) :
  head (filter P l) = None <-> Forall (fun y => ~ P y) l.
Proof.
  induction l as [|y l IH]; [done|]. rewrite filter_cons, Forall_cons.
  destruct (decide (P y)); [|by rewrite IH; tauto].
  split; [done|tauto].
Qed.

Lemma head_fmap {A B} (f : A -> B) (l : list A) :
  head (f <$> l) = f <$> head l.
Proof. by destruct l. Qed.

End ElementTreeFacts.

(** ** Template engine *)

Lemma qualified_literal (path : string) :
  qualified path = "{http://www.parinetworks.com/api/schemas/1.1}" +:+ path.
Proof. reflexivity. Qed.

(** C4, as the code has it: for a plain tag name [_get_xml_elem] never
    raises.  It returns [None] exactly when no element below the root
    has the tag [{http://www.parinetworks.com/api/schemas/1.1}path] (the
    root itself is not looked at); otherwise it returns the first such
    element in document order, as a handle through which a child can be
    appended to that very element.  The missing container only shows
    when the caller appends to [None]: that is an [AttributeError]. *)
Theorem get_xml_elem_finds_first_descendant (path : string) (elem_tree : Element) :
  plain_tag path = true ->
  let wanted := "{http://www.parinetworks.com/api/schemas/1.1}" +:+ path in
  (forall e, _get_xml_elem path elem_tree <> Raise e)
  /\ (_get_xml_elem path elem_tree = Ok None
      <-> forall h e, h <> [] -> ElementTree.deref elem_tree h = Some e ->
                      ElementTree.tag e <> wanted)
  /\ (forall h, _get_xml_elem path elem_tree = Ok (Some h) ->
        h <> []
        /\ exists e before after,
             ElementTree.deref elem_tree h = Some e
             /\ ElementTree.tag e = wanted
             /\ List.tl (ElementTree.iter elem_tree) = before ++ (h, e) :: after
             /\ Forall (fun pe => ElementTree.tag pe.2 <> wanted) before
             /\ forall sub, exists tree',
                  ElementTree.append elem_tree (Some h) sub = Ok tree'
                  /\ ElementTree.deref tree' h
                     = Some (ElementTree.with_children e
                               (ElementTree.children e ++ [sub])))
  /\ (forall sub, ElementTree.append elem_tree None sub = Raise AttributeError).
Proof.
  intros _ wanted. subst wanted. rewrite <-qualified_literal.
  unfold _get_xml_elem, ElementTree.find_descendant, ElementTree.descendants.
  rewrite iter_unfold. cbn [List.tl].
  set (below := ElementTree.iter_children ElementTree.iter 0
                  (ElementTree.children elem_tree)).
  assert (forall h e, (h, e) ∈ below <->
            h <> [] /\ ElementTree.deref elem_tree h = Some e) as Hbelow.
  { intros h e. rewrite <-elem_of_iter, iter_unfold, elem_of_cons. split.
    - intros Hin. split; [by eapply iter_children_not_root|by right].
    - intros [Hh [[= -> _]|Hin]]; done. }
  split_and!; [done| | |done].
  - rewrite head_fmap. split.
    + intros [= Hhead] h e Hh Hd Htag.
      apply fmap_None, head_filter_None in Hhead.
      rewrite Forall_forall in Hhead.
      apply (Hhead (h, e)); [by apply Hbelow|done].
    + intros Hnone. f_equal. apply fmap_None, head_filter_None, Forall_forall.
      intros [h e] [Hh Hd]%Hbelow. by apply (Hnone h).
  - intros h [= Hhead]. rewrite head_fmap in Hhead.
    apply fmap_Some in Hhead as ([h' e] & Hhead & ->).
    apply head_filter_Some in Hhead as (before & after & Heq & Htag & Hbefore).
    assert ((h', e) ∈ below) as [Hh Hd]%Hbelow.
    { rewrite Heq, elem_of_app. right. left. }
    split; [done|]. exists e, before, after. split_and!; [done..|].
    intros sub. destruct (deref_append_at _ _ _ sub Hd) as (tree' & Happ & Hd').
    exists tree'. unfold ElementTree.append. cbn [fst]. by rewrite Happ.
Qed.

Lemma get_xml_elem_finds_first_descendant_witness :
  _get_xml_elem "DeviceList" sample_template = Ok (Some [0; 1])
  /\ exists tree',
       ElementTree.append sample_template (Some [0; 1])
         (ElementTree.new "Device") = Ok tree'
       /\ ElementTree.deref tree' [0; 1]
          = Some (node "{http://www.parinetworks.com/api/schemas/1.1}DeviceList"
                    None [ElementTree.new "Device"] None).
Proof.
  split; [reflexivity|].
  destruct (get_xml_elem_finds_first_descendant "DeviceList" sample_template
              eq_refl)
    as (_ & _ & Hfound & _).
  destruct (Hfound [0; 1] eq_refl)
    as (_ & e & before & after & Hd & _ & _ & _ & Happend).
  injection Hd as <-.
  destruct (Happend (ElementTree.new "Device")) as (tree' & Happ & Hd').
  exists tree'. by split.
Defined.

(** C4 as stated fails: on a template without the container the call
    raises nothing, it returns [None]; and a container that is the root
    of the document is not found either. *)
Lemma get_xml_elem_without_container :
  (_get_xml_elem "DeviceList" bare_template = Ok None
   /\ forall e, _get_xml_elem "DeviceList" bare_template <> Raise e)
  /\ ElementTree.tag list_rooted_template
     = "{http://www.parinetworks.com/api/schemas/1.1}DeviceList"
  /\ _get_xml_elem "DeviceList" list_rooted_template = Ok None.
Proof. by split_and!. Qed.

(** ** The tokenizer on serialized elements *)

Section TokenizerFacts.
Import Expat.

Lemma emit_nil (r : option (state * list token)) : emit [] r = r.
Proof. by destruct r as [[? ?]|]. Qed.

Lemma emit_emit (a b : list token) (r : option (state * list token)) :
  emit a (emit b r) = emit (a ++ b) r.
Proof. unfold emit. destruct r as [[? ?]|]; [|done]. cbn. by rewrite app_assoc. Qed.

Lemma run_cons (st : state) (c : ascii) (r : string) :
  run st (String c r) = '(st', out) ← step st c; emit out (run st' r).
Proof. done. Qed.

(** One character of the input, for a state and a character that are
    known well enough for [step] to compute. *)
Ltac run_step :=
  rewrite run_cons;
  match goal with
  | |- context [step ?st ?c] =>
      let r := eval cbv -[flush String.append] in (step st c) in
      change (step st c) with r
  end;
  cbn [mbind option_bind]; rewrite ?emit_nil.

Lemma snoc_app (s t : string) (c : ascii) :
  snoc s c +:+ t = s +:+ String c t.
Proof. induction s as [|a s IH]; [done|]. cbn. by rewrite !str_app_cons, IH. Qed.

Lemma name_start_not_slash (c : ascii) :
  name_start c = true -> bool_decide (c = "/"%char) = false.
Proof. destruct c as [[] [] [] [] [] [] [] []]; by vm_compute. Qed.

Lemma plain_char_text_char (c : ascii) :
  plain_char c = true ->
  c <> "&"%char -> c <> "<"%char -> c <> ">"%char -> text_char c = true.
Proof.
  intros Hc ? ? ?. unfold text_char, plain_char, code in *.
  rewrite Hc. by rewrite !bool_decide_eq_false_2.
Qed.

Lemma blank_char_plain (c : ascii) : blank_char c = true -> plain_char c = true.
Proof. destruct c as [[] [] [] [] [] [] [] []]; by vm_compute. Qed.

Lemma blank_plain (s : string) : blank s = true -> plain_text s = true.
Proof.
  induction s as [|c s IH]; [done|]. cbn.
  intros [?%blank_char_plain ?%IH]%andb_true_iff. by apply andb_true_iff.
Qed.

(** Escaped character data is read back as the text it came from. *)
Lemma run_escaped_char (acc : string) (c : ascii) (rest : string) :
  plain_char c = true ->
  run (SText acc) (Serialize.escape_cdata_char c +:+ rest)
  = run (SText (snoc acc c)) rest.
Proof.
  intros Hc. unfold Serialize.escape_cdata_char.
  repeat case_bool_decide; subst.
  - rewrite !str_app_cons, str_app_nil_l. by do 5 run_step.
  - rewrite !str_app_cons, str_app_nil_l. by do 4 run_step.
  - rewrite !str_app_cons, str_app_nil_l. by do 4 run_step.
  - rewrite str_app_cons, str_app_nil_l, run_cons. unfold step.
    rewrite !bool_decide_eq_false_2 by done.
    rewrite plain_char_text_char by done. cbn. by rewrite emit_nil.
Qed.

Lemma run_escaped (acc x rest : string) :
  plain_text x = true ->
  run (SText acc) (Serialize._escape_cdata x +:+ rest) = run (SText (acc +:+ x)) rest.
Proof.
  revert acc. induction x as [|c x IH]; intros acc.
  - intros _. by rewrite str_app_nil_r.
  - cbn. intros [Hc Hx]%andb_true_iff.
    rewrite str_app_assoc, run_escaped_char, IH, snoc_app by done. done.
Qed.

Lemma run_start_name (n m rest : string) :
  name_chars m = true ->
  run (SStartName n) (m +:+ rest) = run (SStartName (n +:+ m)) rest.
Proof.
  revert n. induction m as [|c m IH]; intros n.
  - intros _. by rewrite str_app_nil_r.
  - cbn. intros [Hc Hm]%andb_true_iff.
    rewrite str_app_cons, run_cons. unfold step. rewrite Hc. cbn.
    by rewrite emit_nil, IH, snoc_app.
Qed.

Lemma run_end_name (n m rest : string) :
  name_chars m = true ->
  run (SEndName n) (m +:+ rest) = run (SEndName (n +:+ m)) rest.
Proof.
  revert n. induction m as [|c m IH]; intros n.
  - intros _. by rewrite str_app_nil_r.
  - cbn. intros [Hc Hm]%andb_true_iff.
    rewrite str_app_cons, run_cons. unfold step. rewrite Hc. cbn.
    by rewrite emit_nil, IH, snoc_app.
Qed.

Lemma run_open (acc t rest : string) :
  xml_name t = true ->
  run (SText acc) ("<" +:+ t +:+ rest) = emit (flush acc) (run (SStartName t) rest).
Proof.
  destruct t as [|c m]; [done|]. cbn. intros [Hc Hm]%andb_true_iff.
  rewrite !str_app_cons, str_app_nil_l. run_step.
  rewrite run_cons. unfold step.
  rewrite (name_start_not_slash c Hc), Hc. cbn.
  by rewrite emit_nil, run_start_name.
Qed.

(** A start tag. *)
Lemma run_start_tag (acc t rest : string) :
  xml_name t = true ->
  run (SText acc) ("<" +:+ t +:+ ">" +:+ rest)
  = emit (flush acc ++ [TStart t [] false]) (run (SText EmptyString) rest).
Proof.
  intros Ht. rewrite run_open by done.
  rewrite str_app_cons, str_app_nil_l. run_step. by rewrite emit_emit.
Qed.

(** The tag of an empty element. *)
Lemma run_empty_tag (acc t rest : string) :
  xml_name t = true ->
  run (SText acc) ("<" +:+ t +:+ " />" +:+ rest)
  = emit (flush acc ++ [TStart t [] true]) (run (SText EmptyString) rest).
Proof.
  intros Ht. rewrite run_open by done.
  rewrite !str_app_cons, str_app_nil_l. do 3 run_step. by rewrite emit_emit.
Qed.

(** An end tag. *)
Lemma run_end_tag (acc t rest : string) :
  xml_name t = true ->
  run (SText acc) ("</" +:+ t +:+ ">" +:+ rest)
  = emit (flush acc ++ [TEnd t]) (run (SText EmptyString) rest).
Proof.
  destruct t as [|c m]; [done|]. cbn. intros [Hc Hm]%andb_true_iff.
  rewrite !str_app_cons, !str_app_nil_l. do 2 run_step.
  rewrite run_cons. unfold step. rewrite Hc. cbn.
  rewrite emit_nil, run_end_name by done.
  run_step. by rewrite emit_emit.
Qed.

End TokenizerFacts.

(** ** Serialized leaves *)

Section SerializeFacts.
Import Expat Serialize.

Lemma write_tail (x : option string) :
  (if truthy x then write_text x else EmptyString) = _escape_cdata (text_of x).
Proof. destruct x as [[|c s]|]; done. Qed.

Lemma write_text_escape (x : option string) :
  write_text x = _escape_cdata (text_of x).
Proof. by destruct x. Qed.

Lemma truthy_text_of (x : option string) :
  truthy x = bool_decide (text_of x <> EmptyString).
Proof. destruct x as [s|]; [done|]. cbn. by rewrite bool_decide_eq_false_2 by tauto. Qed.

Lemma serialize_leaf (k : kid) :
  _serialize_xml (leaf_of k)
  = (if truthy (kid_text k)
     then "<" +:+ kid_tag k +:+ ">" +:+ _escape_cdata (text_of (kid_text k))
          +:+ "</" +:+ kid_tag k +:+ ">" +:+ _escape_cdata (text_of (kid_tail k))
     else "<" +:+ kid_tag k +:+ " />" +:+ _escape_cdata (text_of (kid_tail k))).
Proof.
  destruct k as [[t x] tl]. unfold leaf_of, leaf, kid_tag, kid_text, kid_tail.
  cbn [_serialize_xml ElementTree.tag ElementTree.attrib ElementTree.text
       ElementTree.children ElementTree.tail write_items serialize_all fst snd].
  rewrite write_tail, write_text_escape, orb_false_r.
  destruct (truthy x); by rewrite ?str_app_assoc, ?str_app_nil_l.
Qed.

Lemma serialize_root (t : string) (x tl : option string) (cs : list Element) :
  cs <> [] ->
  _serialize_xml (node t x cs tl)
  = "<" +:+ t +:+ ">" +:+ _escape_cdata (text_of x)
    +:+ serialize_all _serialize_xml cs
    +:+ "</" +:+ t +:+ ">" +:+ _escape_cdata (text_of tl).
Proof.
  intros Hcs. unfold node.
  cbn [_serialize_xml ElementTree.tag ElementTree.attrib ElementTree.text
       ElementTree.children ElementTree.tail write_items].
  rewrite write_tail, write_text_escape.
  rewrite (bool_decide_eq_false_2 (cs = [])), orb_true_r by done.
  by rewrite ?str_app_assoc, ?str_app_nil_l.
Qed.

Lemma flush_nonempty (s : string) : s <> EmptyString -> flush s = [TText s].
Proof. intros ?. unfold flush. by rewrite bool_decide_eq_false_2. Qed.

(** A serialized leaf is read as its tokens; the text after it stays
    pending. *)
Lemma run_leaf (acc : string) (k : kid) (rest : string) :
  kid_ok k = true ->
  run (SText acc) (_serialize_xml (leaf_of k) +:+ rest)
  = emit (flush acc ++ leaf_tokens k) (run (SText (text_of (kid_tail k))) rest).
Proof.
  unfold kid_ok. intros [[Ht Hx]%andb_true_iff Htl%blank_plain]%andb_true_iff.
  rewrite serialize_leaf. unfold leaf_tokens.
  rewrite truthy_text_of. case_bool_decide as Hne.
  - rewrite !str_app_assoc.
    rewrite run_start_tag, run_escaped, str_app_nil_l by done.
    rewrite run_end_tag, run_escaped, str_app_nil_l by done.
    rewrite emit_emit, (flush_nonempty (text_of (kid_text k))) by done.
    by rewrite <-app_assoc.
  - rewrite !str_app_assoc.
    rewrite run_empty_tag, run_escaped, str_app_nil_l by done. done.
Qed.

(** So is a run of serialized leaves. *)
Lemma run_leaves (acc : string) (ks : list kid) (rest : string) :
  Forall (fun k => kid_ok k = true) ks ->
  run (SText acc) (serialize_all _serialize_xml (leaf_of <$> ks) +:+ rest)
  = emit (kids_tokens acc ks) (run (SText (pending_text acc ks)) rest).
Proof.
  revert acc. induction ks as [|k ks IH]; intros acc Hks.
  - cbn. by rewrite str_app_nil_l, emit_nil.
  - apply Forall_cons in Hks as [Hk Hks].
    rewrite fmap_cons. cbn [serialize_all kids_tokens pending_text].
    rewrite str_app_assoc, run_leaf, IH, emit_emit by done.
    by rewrite <-app_assoc.
Qed.

End SerializeFacts.

(** ** The handler on the tokens of leaves *)

Section HandlerFacts.
Import Xmltodict.

Lemma blank_char_isspace (c : ascii) : blank_char c = true -> isspace c = true.
Proof. destruct c as [[] [] [] [] [] [] [] []]; by vm_compute. Qed.

Lemma rstrip_blank (s : string) : blank s = true -> rstrip s = EmptyString.
Proof.
  induction s as [|c s IH]; [done|]. cbn.
  intros [Hc Hs]%andb_true_iff.
  by rewrite (IH Hs), (blank_char_isspace c Hc).
Qed.

Lemma lstrip_blank (s : string) : blank s = true -> lstrip s = EmptyString.
Proof.
  induction s as [|c s IH]; [done|]. cbn.
  intros [Hc Hs]%andb_true_iff. by rewrite (blank_char_isspace c Hc), IH.
Qed.

Lemma strip_blank (s : string) : blank s = true -> strip s = EmptyString.
Proof. intros Hs. unfold strip. by rewrite rstrip_blank. Qed.

Lemma blank_app (s t : string) : blank (s +:+ t) = blank s && blank t.
Proof.
  induction s as [|c s IH]; [done|]. rewrite str_app_cons. cbn.
  by rewrite IH, andb_assoc.
Qed.

Lemma blank_join (chunks : list string) :
  Forall (fun s => blank s = true) chunks ->
  blank (PyStr.join cdata_separator chunks) = true.
Proof.
  induction chunks as [|s chunks IH]; [done|].
  intros [Hs Hall]%Forall_cons. specialize (IH Hall).
  destruct chunks as [|s' chunks]; [done|].
  change (PyStr.join cdata_separator (s :: s' :: chunks))
    with (s +:+ cdata_separator +:+ PyStr.join cdata_separator (s' :: chunks)).
  by rewrite !blank_app, Hs, IH.
Qed.

(** White space alone leaves an element without character data. *)
Lemma blank_data_is_dropped (chunks : list string) :
  Forall (fun s => blank s = true) chunks ->
  Serialize.truthy
    (strip_data (if bool_decide (chunks = []) then None
                 else Some (PyStr.join cdata_separator chunks))) = false.
Proof.
  intros Hall%blank_join. case_bool_decide; [done|].
  unfold strip_data. case_bool_decide as Hjoin.
  - rewrite Hjoin. done.
  - by rewrite strip_blank.
Qed.

Lemma feed_all_app (s : handler * bool) (a b : list Expat.token) :
  feed_all s (a ++ b) = s' ← feed_all s a; feed_all s' b.
Proof.
  revert s. induction a as [|t a IH]; intros s; [done|].
  cbn. destruct (feed s t); [apply IH|done].
Qed.

Lemma feed_flush (p : list string) stack0 data0 item0 (acc : string) (seen : bool) :
  p <> [] ->
  feed_all ({| path := p; stack := stack0; data := data0; item := item0 |}, seen)
    (Expat.flush acc)
  = Some ({| path := p; stack := stack0; data := add_chunk data0 acc;
             item := item0 |}, seen).
Proof.
  intros Hp. unfold Expat.flush, add_chunk. case_bool_decide; [done|].
  destruct p; done.
Qed.

Lemma decoded_text_strip (x : string) :
  x <> EmptyString ->
  of_data (strip_data (Some x)) = decoded_text (Some x).
Proof.
  intros Hx. unfold strip_data, decoded_text, text_of.
  rewrite (bool_decide_eq_false_2 (x = EmptyString)) by done.
  cbv zeta. cbn [from_option]. unfold id.
  by destruct (bool_decide (strip x = EmptyString)).
Qed.

Lemma decoded_text_empty (x : option string) :
  text_of x = EmptyString -> decoded_text x = XNone.
Proof. intros Hx. unfold decoded_text. by rewrite Hx. Qed.

(** A leaf adds its tag and its decoded text to the mapping of the
    enclosing element, whose pending character data it leaves alone. *)
Lemma feed_leaf (p : list string) stack0 data0 item0 (k : kid) :
  p <> [] ->
  feed_all ({| path := p; stack := stack0; data := data0; item := item0 |}, true)
    (leaf_tokens k)
  = Some ({| path := p; stack := stack0; data := data0;
             item := Some (push_data item0 (kid_tag k)
                             (decoded_text (kid_text k))) |}, true).
Proof.
  intros Hp. unfold leaf_tokens. rewrite truthy_text_of.
  destruct p as [|top p]; [done|].
  case_bool_decide as Hx.
  - destruct (kid_text k) as [x|] eqn:Hk; [|done]. cbn in Hx.
    rewrite <-decoded_text_strip by done.
    cbn. rewrite bool_decide_eq_true_2 by done. cbn. done.
  - rewrite (decoded_text_empty _ Hx). by cbn.
Qed.

Lemma feed_kids (p : list string) stack0 data0 item0 (acc : string)
    (ks : list kid) :
  p <> [] ->
  feed_all ({| path := p; stack := stack0; data := data0; item := item0 |}, true)
    (kids_tokens acc ks)
  = Some ({| path := p; stack := stack0; data := kids_data data0 acc ks;
             item := kids_item item0 ks |}, true).
Proof.
  intros Hp. revert data0 item0 acc.
  induction ks as [|k ks IH]; intros data0 item0 acc; [done|].
  cbn [kids_tokens kids_data]. unfold kids_item. cbn [foldl].
  rewrite feed_all_app, feed_flush by done. cbn [mbind option_bind].
  rewrite feed_all_app, feed_leaf by done. cbn [mbind option_bind]. apply IH.
Qed.

End HandlerFacts.

Section DecoderFacts.
Import Xmltodict.

Lemma lookup_fresh (t : string) (d : odict) : t ∉ d.*1 -> lookup t d = None.
Proof.
  induction d as [|[k v] d IH]; [done|]. cbn.
  rewrite not_elem_of_cons. intros [Hne Hd].
  rewrite bool_decide_eq_false_2 by done. by apply IH.
Qed.

Lemma push_data_fresh (d : odict) (t : string) (v : xvalue) :
  t ∉ d.*1 -> push_data (Some d) t v = d ++ [(t, v)].
Proof. intros Ht. unfold push_data. cbn. by rewrite lookup_fresh. Qed.

(** Leaves with tags that are new to the mapping are appended to it in
    document order. *)
Lemma kids_item_Some (d : odict) (ks : list kid) :
  NoDup (d.*1 ++ (kid_tag <$> ks)) ->
  kids_item (Some d) ks = Some (d ++ (decoded_kid <$> ks)).
Proof.
  revert d. induction ks as [|k ks IH]; intros d Hnd.
  - cbn. by rewrite app_nil_r.
  - unfold kids_item. cbn [foldl]. fold (kids_item).
    rewrite push_data_fresh.
    + fold (decoded_kid k). unfold kids_item in IH. rewrite IH.
      * by rewrite <-app_assoc.
      * by rewrite fmap_app, <-app_assoc.
    + apply NoDup_app in Hnd as (_ & Hd & _). intros Hin.
      apply (Hd _ Hin). rewrite fmap_cons. left.
Qed.

Lemma kids_item_None (ks : list kid) :
  ks <> [] -> NoDup (kid_tag <$> ks) ->
  kids_item None ks = Some (decoded_kid <$> ks).
Proof.
  destruct ks as [|k ks]; [done|]. intros _ Hnd.
  change (kids_item None (k :: ks)) with (kids_item (Some [decoded_kid k]) ks).
  by rewrite kids_item_Some.
Qed.

Lemma add_chunk_blank (chunks : list string) (acc : string) :
  Forall (fun s => blank s = true) chunks -> blank acc = true ->
  Forall (fun s => blank s = true) (add_chunk chunks acc).
Proof.
  intros Hall Hacc. unfold add_chunk. case_bool_decide; [done|].
  apply Forall_app. split; [done|]. by constructor.
Qed.

(** Between leaves whose tails are blank the enclosing element gathers
    blank character data only. *)
Lemma kids_data_blank (chunks : list string) (acc : string) (ks : list kid) :
  Forall (fun s => blank s = true) chunks -> blank acc = true ->
  Forall (fun k => kid_ok k = true) ks ->
  Forall (fun s => blank s = true) (kids_data chunks acc ks)
  /\ blank (pending_text acc ks) = true.
Proof.
  revert chunks acc. induction ks as [|k ks IH]; intros chunks acc Hall Hacc Hks.
  - done.
  - apply Forall_cons in Hks as [Hk Hks]. cbn [kids_data pending_text].
    apply IH; [by apply add_chunk_blank| |done].
    unfold kid_ok in Hk. by apply andb_true_iff in Hk as [_ ?].
Qed.

Lemma name_char_ascii (c : ascii) :
  Expat.name_char c = true -> Serialize.is_ascii c = true.
Proof. destruct c as [[] [] [] [] [] [] [] []]; by vm_compute. Qed.

Lemma plain_char_ascii (c : ascii) :
  plain_char c = true -> Serialize.is_ascii c = true.
Proof. destruct c as [[] [] [] [] [] [] [] []]; by vm_compute. Qed.

Lemma name_start_char (c : ascii) :
  Expat.name_start c = true ->
  Expat.name_char c = true /\ bool_decide ("{"%char = c) = false.
Proof. destruct c as [[] [] [] [] [] [] [] []]; by vm_compute. Qed.

Lemma name_chars_ascii (s : string) :
  name_chars s = true -> Serialize.ascii_only s = true.
Proof.
  induction s as [|c s IH]; [done|]. cbn.
  intros [?%name_char_ascii ?%IH]%andb_true_iff. by apply andb_true_iff.
Qed.

Lemma plain_text_ascii (s : string) :
  plain_text s = true -> Serialize.ascii_only s = true.
Proof.
  induction s as [|c s IH]; [done|]. cbn.
  intros [?%plain_char_ascii ?%IH]%andb_true_iff. by apply andb_true_iff.
Qed.

Lemma xml_name_plain (t : string) :
  xml_name t = true -> Serialize.plain_name t = true.
Proof.
  destruct t as [|c s]; [done|]. cbn.
  intros [[Hc Hbrace]%name_start_char Hs%name_chars_ascii]%andb_true_iff.
  unfold Serialize.plain_name. cbn [Serialize.ascii_only PyStr.startswith].
  by rewrite (name_char_ascii c Hc), Hs, Hbrace.
Qed.

Lemma leaf_modelled (k : kid) :
  kid_ok k = true -> Serialize.modelled (leaf_of k) = true.
Proof.
  unfold kid_ok.
  intros [[Ht%xml_name_plain Hx%plain_text_ascii]%andb_true_iff
          Htl%blank_plain%plain_text_ascii]%andb_true_iff.
  unfold leaf_of, leaf, text_of in *. cbn. by rewrite Ht, Hx, Htl.
Qed.

Lemma root_modelled (t : string) (x tl : option string) (ks : list kid) :
  xml_name t = true -> blank (text_of x) = true -> blank (text_of tl) = true ->
  Forall (fun k => kid_ok k = true) ks ->
  Serialize.modelled (node t x (leaf_of <$> ks) tl) = true.
Proof.
  intros Ht%xml_name_plain Hx%blank_plain%plain_text_ascii
         Htl%blank_plain%plain_text_ascii Hks.
  unfold node, text_of in *. cbn. rewrite Ht, Hx, Htl. cbn.
  induction Hks as [|k ks Hk Hks IH]; [done|].
  rewrite fmap_cons. cbn [forallb]. by rewrite leaf_modelled, IH.
Qed.

End DecoderFacts.

(** ** The response decoder *)

Section DecodeTheorem.
Import Xmltodict.

Variable root : string.
Variables root_text root_tail : option string.
Variable ks : list kid.

Hypothesis root_name : xml_name root = true.
Hypothesis root_text_blank : blank (text_of root_text) = true.
Hypothesis root_tail_blank : blank (text_of root_tail) = true.
Hypothesis some_kid : ks <> [].
Hypothesis kids_ok : Forall (fun k => kid_ok k = true) ks.
Hypothesis kids_distinct : NoDup (kid_tag <$> ks).

Let elem : Element := node root root_text (leaf_of <$> ks) root_tail.

(** The tokens of the serialized element. *)
Lemma tokenize_serialized :
  Expat.tokenize (Serialize._serialize_xml elem)
  = Some ([Expat.TStart root [] false]
          ++ kids_tokens (text_of root_text) ks
          ++ Expat.flush (pending_text (text_of root_text) ks)
          ++ [Expat.TEnd root]
          ++ Expat.flush (text_of root_tail)).
Proof.
  unfold Expat.tokenize, elem.
  rewrite serialize_root by (by destruct ks).
  rewrite run_start_tag by done.
  rewrite run_escaped, str_app_nil_l by by apply blank_plain.
  rewrite run_leaves by done.
  rewrite run_end_tag by done.
  rewrite <-(str_app_nil_r (Serialize._escape_cdata (text_of root_tail))).
  rewrite run_escaped, str_app_nil_l by by apply blank_plain.
  cbn [Expat.run]. rewrite !emit_emit. unfold Expat.emit. cbn.
  by rewrite !app_nil_r, <-!app_assoc.
Qed.

(** What the handler makes of these tokens. *)
Lemma parse_serialized :
  parse (Serialize._serialize_xml elem)
  = Some (XDict [(root, XDict (decoded_kid <$> ks))]).
Proof.
  unfold parse. rewrite tokenize_serialized. cbn [mbind option_bind].
  destruct (kids_data_blank [] (text_of root_text) ks) as [Hdata Hpending];
    [done..|].
  change (feed_all (init, false) ([Expat.TStart root [] false] ++ ?ts))
    with (feed_all ({| path := [root]; stack := [(None, [])]; data := [];
                       item := None |}, true) ts).
  rewrite feed_all_app, feed_kids by done. cbn [mbind option_bind].
  rewrite feed_all_app, feed_flush by done. cbn [mbind option_bind].
  rewrite kids_item_None by done.
  cbn [app feed_all feed path mbind option_bind].
  rewrite bool_decide_eq_true_2 by done.
  unfold endElement.
  cbn [stack data item path List.tl].
  rewrite blank_data_is_dropped by by apply add_chunk_blank.
  unfold Expat.flush. case_bool_decide as Htail; [done|].
  cbn. by rewrite lstrip_blank.
Qed.

End DecodeTheorem.





(** * Further properties *)

(** ** One round trip per query *)

Section QueryFacts.

Variable xml_request_dir : string.
Variable fromstring : string -> result Element.
Variable self : CspcApi.

Lemma xml_run (payload : string) (w : World) :
  _xml self payload w
  = (xml_outcome (reply w (sent w) (xml_request self payload)),
     issued (xml_request self payload) w).
Proof.
  unfold _xml, mbind, M_bind, requests_post, lift, mret, M_ret, xml_outcome.
  fold (xml_request self payload). fold (issued (xml_request self payload) w).
  destruct (reply w (sent w) (xml_request self payload)) as [reason|response];
    [done|].
  repeat case_bool_decide; done.
Qed.

Lemma get_xml_payload_run (name : string) (w : World) :
  _get_xml_payload xml_request_dir name w
  = (match files w (os_path_join xml_request_dir name) with
     | Some content => Ok content
     | None => Raise (FileNotFoundError (os_path_join xml_request_dir name))
     end, w).
Proof. done. Qed.

(** What [get_devices] does, step by step. *)
Lemma get_devices_run (w : World) :
  get_devices xml_request_dir fromstring self w
  = match files w (devices_template xml_request_dir) with
    | None => (Raise (FileNotFoundError (devices_template xml_request_dir)), w)
    | Some payload =>
        (all_devices ← xml_outcome (reply w (sent w) (xml_request self payload));
         tree ← fromstring all_devices;
         Ok (ElementTree.findall_descendants "Device" tree),
         issued (xml_request self payload) w)
    end.
Proof.
  unfold get_devices, mbind, M_bind, result_bind, lift, mret, M_ret.
  rewrite get_xml_payload_run. fold (devices_template xml_request_dir).
  destruct (files w (devices_template xml_request_dir)) as [payload|]; [|done].
  rewrite xml_run.
  destruct (xml_outcome _) as [all_devices|e]; [|done].
  by destruct (fromstring all_devices).
Qed.

Lemma get_unreachable_devices_world (w : World) :
  (get_unreachable_devices xml_request_dir fromstring self w).2
  = (get_devices xml_request_dir fromstring self w).2.
Proof.
  unfold get_unreachable_devices, mbind, M_bind, lift.
  by destruct (get_devices _ _ _ w) as [[?|?] ?].
Qed.

Lemma get_devices_by_world (key : string) (v : value) (w : World) :
  (get_devices_by xml_request_dir fromstring self key v w).2
  = (get_devices xml_request_dir fromstring self w).2.
Proof.
  unfold get_devices_by, mbind, M_bind, lift.
  by destruct (get_devices _ _ _ w) as [[?|?] ?].
Qed.

Lemma get_unreachable_devices_raise (w w' : World) (e : exn) :
  get_devices xml_request_dir fromstring self w = (Raise e, w') ->
  get_unreachable_devices xml_request_dir fromstring self w = (Raise e, w').
Proof. unfold get_unreachable_devices, mbind, M_bind. by intros ->. Qed.

Lemma get_devices_by_raise (key : string) (v : value) (w w' : World) (e : exn) :
  get_devices xml_request_dir fromstring self w = (Raise e, w') ->
  get_devices_by xml_request_dir fromstring self key v w = (Raise e, w').
Proof. unfold get_devices_by, mbind, M_bind. by intros ->. Qed.

End QueryFacts.

(** X1: without the template of the device query nothing is sent: the
    three queries raise the [FileNotFoundError] of the missing file and
    leave the world as it was. *)
Theorem queries_need_the_template (xml_request_dir : string)
    (fromstring : string -> result Element) (self : CspcApi)
    (key : string) (v : value) (w : World) :
  files w (devices_template xml_request_dir) = None ->
  let missing := FileNotFoundError (devices_template xml_request_dir) in
  get_devices xml_request_dir fromstring self w = (Raise missing, w)
  /\ get_unreachable_devices xml_request_dir fromstring self w = (Raise missing, w)
  /\ get_devices_by xml_request_dir fromstring self key v w = (Raise missing, w).
Proof.
  intros Hfile missing.
  assert (get_devices xml_request_dir fromstring self w = (Raise missing, w)) as Hget
    by by rewrite get_devices_run, Hfile.
  split_and!; [done| |].
  - by apply get_unreachable_devices_raise.
  - by apply get_devices_by_raise.
Qed.

Lemma queries_need_the_template_witness :
  (get_unreachable_devices sample_dir (fun _ => Raise (ParseError "none"))
     sample_self bare_world).1
  = Raise (FileNotFoundError "/opt/cspc/xml_requests/get_details_of_all_devices.xml")
  /\ sent (get_unreachable_devices sample_dir (fun _ => Raise (ParseError "none"))
            sample_self bare_world).2 = [].
Proof.
  destruct (queries_need_the_template sample_dir
              (fun _ => Raise (ParseError "none")) sample_self "Id" (VStr "1")
              bare_world eq_refl) as (_ & Hun & _).
  by rewrite Hun.
Defined.

(** X2: when the appliance answers the device query with a status other
    than 200, the three queries raise the [RuntimeError] that carries the
    answer, whatever the parser would make of it, and after exactly one
    request. *)
Theorem queries_raise_on_bad_status (xml_request_dir : string)
    (fromstring : string -> result Element) (self : CspcApi)
    (key : string) (v : value) (w : World) (payload : string)
    (response : Response) :
  files w (devices_template xml_request_dir) = Some payload ->
  reply w (sent w) (xml_request self payload) = inr response ->
  status_code response <> 200%Z ->
  let failure := (Raise (RuntimeError response) : result (list Element),
                  issued (xml_request self payload) w) in
  get_devices xml_request_dir fromstring self w = failure
  /\ get_unreachable_devices xml_request_dir fromstring self w
     = (Raise (RuntimeError response), issued (xml_request self payload) w)
  /\ get_devices_by xml_request_dir fromstring self key v w
     = (Raise (RuntimeError response), issued (xml_request self payload) w).
Proof.
  intros Hfile Hreply Hstatus failure.
  assert (get_devices xml_request_dir fromstring self w = failure) as Hget.
  { rewrite get_devices_run, Hfile, Hreply. unfold xml_outcome.
    by rewrite bool_decide_eq_false_2. }
  split_and!; [done| |].
  - by apply get_unreachable_devices_raise.
  - by apply get_devices_by_raise.
Qed.

Lemma queries_raise_on_bad_status_witness :
  (get_devices_by sample_dir (fun _ => Ok (sample_inventory three_devices))
     sample_self "HostName" (VStr "switch") failing_world).1
  = Raise (RuntimeError (mkResponse 500 "<Error/>" [])).
Proof.
  destruct (queries_raise_on_bad_status sample_dir
              (fun _ => Ok (sample_inventory three_devices)) sample_self
              "HostName" (VStr "switch") failing_world "<Request/>"
              (mkResponse 500 "<Error/>" []) eq_refl eq_refl)
    as (_ & _ & Hby); [done|].
  by rewrite Hby.
Defined.

(** X3: a query talks to the appliance at most once.  Whatever they
    return or raise, the two filters leave the world as [get_devices]
    does: either untouched, when the template is missing, or with the one
    POST to [/cspc/xml] that carries the template and the context's
    headers and verification flag. *)
Theorem queries_issue_one_request (xml_request_dir : string)
    (fromstring : string -> result Element) (self : CspcApi)
    (key : string) (v : value) (w : World) :
  let after := (get_devices xml_request_dir fromstring self w).2 in
  (get_unreachable_devices xml_request_dir fromstring self w).2 = after
  /\ (get_devices_by xml_request_dir fromstring self key v w).2 = after
  /\ after
     = match files w (devices_template xml_request_dir) with
       | Some payload => issued (xml_request self payload) w
       | None => w
       end.
Proof.
  intros after. split_and!.
  - apply get_unreachable_devices_world.
  - apply get_devices_by_world.
  - unfold after. rewrite get_devices_run.
    by destruct (files w (devices_template xml_request_dir)).
Qed.

(** ** What the queries return *)

Section ResultFacts.
Import ElementTree.

Lemma elem_of_below (tree : Element) (h : handle) (e : Element) :
  (h, e) ∈ List.tl (iter tree) <-> h <> [] /\ deref tree h = Some e.
Proof.
  rewrite <-elem_of_iter, iter_unfold. cbn [List.tl].
  rewrite elem_of_cons. split.
  - intros Hin. split; [by eapply iter_children_not_root|by right].
  - intros [Hh [[= -> _]|Hin]]; done.
Qed.

(** [findall('.//t')] gives the elements below the root that carry the
    tag, at any depth. *)
Lemma elem_of_findall_descendants (t : string) (tree e : Element) :
  e ∈ findall_descendants t tree
  <-> exists h, h <> [] /\ deref tree h = Some e /\ tag e = t.
Proof.
  unfold findall_descendants, descendants.
  rewrite list_elem_of_fmap. split.
  - intros ([h e'] & -> & [Htag Hin%elem_of_below]%list_elem_of_filter).
    exists h. by destruct Hin.
  - intros (h & Hh & Hd & Htag). exists (h, e). split; [done|].
    apply list_elem_of_filter. split; [done|]. by apply elem_of_below.
Qed.

Lemma find_descendant_deref (t : string) (tree : Element) (h : handle) :
  find_descendant t tree = Some h ->
  h <> [] /\ exists e, deref tree h = Some e /\ tag e = t.
Proof.
  unfold find_descendant, descendants. rewrite head_fmap.
  intros ([h' e] & Hhead & ->)%fmap_Some.
  apply head_filter_Some in Hhead as (before & after & Heq & Htag & _).
  assert ((h', e) ∈ List.tl (iter tree)) as [Hh Hd]%elem_of_below.
  { rewrite Heq, elem_of_app. right. left. }
  eauto.
Qed.

End ResultFacts.

(** X4: when [get_devices] returns, the template was there, the
    appliance answered with status 200, the answer was parsed, and the
    list holds exactly the elements with tag [Device] that lie below the
    root of the answer, at whatever depth; the root itself is never
    listed. *)
Theorem get_devices_lists_device_elements (xml_request_dir : string)
    (fromstring : string -> result Element) (self : CspcApi)
    (w w' : World) (devices : list Element) :
  get_devices xml_request_dir fromstring self w = (Ok devices, w') ->
  exists payload response tree,
    files w (devices_template xml_request_dir) = Some payload
    /\ reply w (sent w) (xml_request self payload) = inr response
    /\ status_code response = 200%Z
    /\ fromstring (text response) = Ok tree
    /\ w' = issued (xml_request self payload) w
    /\ forall e, e ∈ devices
         <-> exists h, h <> [] /\ ElementTree.deref tree h = Some e
                       /\ ElementTree.tag e = "Device".
Proof.
  rewrite get_devices_run.
  destruct (files w (devices_template xml_request_dir)) as [payload|]; [|done].
  destruct (reply w (sent w) (xml_request self payload)) as [|response] eqn:Hreply;
    [done|].
  unfold xml_outcome. case_bool_decide as Hstatus; [|done]. cbn.
  destruct (fromstring (text response)) as [tree|] eqn:Htree; [|done]. cbn.
  intros [= <- <-]. exists payload, response, tree.
  split_and!; [done..|]. intros e. apply elem_of_findall_descendants.
Qed.

Lemma get_devices_lists_device_elements_witness :
  exists payload,
    files sample_world (devices_template sample_dir) = Some payload.
Proof.
  destruct (get_devices_lists_device_elements sample_dir
              (sample_parser "<Response/>" (sample_inventory three_devices))
              sample_self sample_world
              (issued (xml_request sample_self "<Request/>") sample_world)
              (list_fmap _ _ sample_device three_devices) eq_refl)
    as (payload & _ & _ & Hfile & _).
  by exists payload.
Defined.

Section FilterFacts.
Import ElementTree.

Lemma unreachable_loop_Ok_inv (devices : list Element) acc out :
  unreachable_loop devices acc = Ok out ->
  Forall (has_child "Status") devices.
Proof.
  intros Hout.
  destruct (decide (Forall (has_child "Status") devices)) as [|Hn]; [done|].
  apply not_Forall_Exists in Hn; [|apply _].
  by rewrite unreachable_loop_raise in Hout.
Qed.

Lemma check_in_str_absent (v : value) :
  v <> VSet ∅ -> _check_in_str None v = Raise TypeError.
Proof.
  destruct v as [s|items]; [done|]. intros Hne. cbn.
  apply any_in_None. intros Hnil%elements_empty_inv.
  apply Hne. f_equal. by apply leibniz_equiv.
Qed.

(** The loop of [get_devices_by] stops with a [TypeError] at the first
    device without the field, unless the value is the empty set. *)
Lemma matched_loop_raise (key : string) (v : value) (devices : list Element) acc :
  v <> VSet ∅ ->
  Exists (fun d => ~ has_child key d) devices ->
  matched_loop key v devices acc = Raise TypeError.
Proof.
  intros Hv. revert acc. induction devices as [|d devices IH]; intros acc Hex.
  - by apply Exists_nil in Hex.
  - cbn [matched_loop].
    destruct (findtext key d) as [txt|] eqn:Htxt.
    + rewrite (check_in_str_matches key v d txt Htxt).
      apply Exists_cons in Hex as [Hd|Hex].
      * destruct Hd. apply findtext_has_child. by rewrite Htxt.
      * unfold mbind, result_bind. case_bool_decide; by apply IH.
    + by rewrite check_in_str_absent.
Qed.

Lemma check_in_str_singleton (x : option string) (s : string) :
  _check_in_str x (VSet {[ s ]}) = _check_in_str x (VStr s).
Proof.
  cbn. rewrite elements_singleton. cbn.
  destruct x as [txt|]; [|done]. cbn. by destruct (PyStr.contains s txt).
Qed.

Lemma matched_loop_singleton (key s : string) (devices : list Element) acc :
  matched_loop key (VSet {[ s ]}) devices acc
  = matched_loop key (VStr s) devices acc.
Proof.
  revert acc. induction devices as [|d devices IH]; intros acc; [done|].
  cbn [matched_loop]. rewrite check_in_str_singleton.
  destruct (_check_in_str _ _) as [[]|]; cbn; [apply IH..|done].
Qed.

Lemma contains_empty (txt : string) : PyStr.contains EmptyString txt = true.
Proof. by destruct txt. Qed.

Lemma filter_sublist {A} (P Q : A -> Prop) `{!forall x, Decision (P x)}
    `{!forall x, Decision (Q x)} (l : list A) :
  (forall x, P x -> Q x) -> filter P l `sublist_of` filter Q l.
Proof.
  intros HPQ. induction l as [|x l IH]; [done|]. rewrite !filter_cons.
  destruct (decide (P x)) as [HP|HP].
  - rewrite decide_True by by apply HPQ. by constructor.
  - destruct (decide (Q x)); [by constructor|done].
Qed.

Lemma filter_none {A} (P : A -> Prop) `{!forall x, Decision (P x)} (l : list A) :
  Forall (fun x => ~ P x) l -> filter P l = [].
Proof.
  induction 1 as [|x l Hx _ IH]; [done|]. by rewrite filter_cons, decide_False.
Qed.

End FilterFacts.

(** X5: no record that [get_unreachable_devices] returns has the Status
    ["reachable"], in whatever case; the list is never longer than the
    list of devices, and it is empty exactly when every device is
    reachable. *)
Theorem unreachable_records_are_unreachable (xml_request_dir : string)
    (fromstring : string -> result Element) (self : CspcApi)
    (w w' : World) (devices : list Element) (out : list (gmap string string)) :
  get_devices xml_request_dir fromstring self w = (Ok devices, w') ->
  get_unreachable_devices xml_request_dir fromstring self w = (Ok out, w') ->
  (forall d, d ∈ out ->
     exists status, d !! "Status" = Some status
                    /\ same_ignoring_case status "reachable" = false)
  /\ length out <= length devices
  /\ (out = [] <-> Forall (fun device => ~ unreachable device) devices).
Proof.
  intros Hget. rewrite (get_unreachable_devices_run _ _ _ _ _ _ Hget).
  intros [= Hloop]. pose proof (unreachable_loop_Ok_inv _ _ _ Hloop) as Hall.
  rewrite unreachable_loop_ok in Hloop by done. injection Hloop as <-.
  cbn [app]. split_and!.
  - intros d (device & -> & [Hun Hin]%list_elem_of_filter)%list_elem_of_fmap.
    rewrite Forall_forall in Hall.
    destruct (proj1 (findtext_has_child _ _) (Hall _ Hin)) as [status Hstatus].
    exists status. rewrite dev_dict_lookup, bool_decide_eq_true_2.
    + unfold unreachable, field in *. rewrite Hstatus in *. done.
    + set_solver.
  - rewrite length_fmap. apply length_filter.
  - split.
    + intros Hnil%fmap_nil_inv. apply Forall_forall. intros device Hin Hun.
      by apply (filter_nil_not_elem_of _ _ _ Hnil Hun).
    + intros Hnone. by rewrite filter_none.
Qed.

Lemma unreachable_records_are_unreachable_witness :
  let fromstring := sample_parser "<Response/>" (sample_inventory three_devices) in
  exists status,
    dev_dict (sample_device ("2", "router2", Some "Unreachable")) !! "Status"
    = Some status
    /\ same_ignoring_case status "reachable" = false.
Proof.
  intros fromstring.
  apply (proj1 (unreachable_records_are_unreachable sample_dir fromstring
    sample_self sample_world
    (issued (xml_request sample_self "<Request/>") sample_world)
    (list_fmap _ _ sample_device three_devices)
    [dev_dict (sample_device ("2", "router2", Some "Unreachable"))]
    eq_refl eq_refl)).
  left.
Defined.

(** X6: for a key that is a plain tag name and a value that is a string
    or a set of strings, [get_devices_by] returns a list exactly when the
    value is the empty set or every device has a child with the tag
    [key]; in every other case it raises a [TypeError], a device without
    the field being neither skipped nor matched. *)
Theorem devices_by_needs_the_field (xml_request_dir : string)
    (fromstring : string -> result Element) (self : CspcApi)
    (key : string) (v : value) (w w' : World) (devices : list Element) :
  plain_tag key = true ->
  get_devices xml_request_dir fromstring self w = (Ok devices, w') ->
  ((exists out, get_devices_by xml_request_dir fromstring self key v w
                = (Ok out, w'))
   <-> v = VSet ∅ \/ Forall (has_child key) devices)
  /\ (v <> VSet ∅ -> ~ Forall (has_child key) devices ->
      get_devices_by xml_request_dir fromstring self key v w
      = (Raise TypeError, w')).
Proof.
  intros _ Hget. rewrite (get_devices_by_run _ _ _ _ _ _ _ _ Hget).
  assert (v <> VSet ∅ -> ~ Forall (has_child key) devices ->
          matched_loop key v devices [] = Raise TypeError) as Hraise.
  { intros Hv Hn. apply matched_loop_raise; [done|].
    apply not_Forall_Exists in Hn; [done|apply _]. }
  split.
  - split.
    + intros [out [= Hout]].
      destruct (decide (v = VSet ∅)) as [|Hv]; [by left|]. right.
      destruct (decide (Forall (has_child key) devices)) as [|Hn]; [done|].
      by rewrite Hraise in Hout.
    + intros [->|Hall].
      * rewrite matched_loop_empty_set. eauto.
      * rewrite matched_loop_ok by done. eauto.
  - intros Hv Hn. by rewrite Hraise.
Qed.

Lemma devices_by_needs_the_field_witness :
  let fromstring := sample_parser "<Response/>" (sample_inventory no_status_devices) in
  (get_devices_by sample_dir fromstring sample_self "Status"
     (VSet {[ "Unreachable" ]}) sample_world).1 = Raise TypeError.
Proof.
  intros fromstring.
  destruct (devices_by_needs_the_field sample_dir fromstring sample_self
              "Status" (VSet {[ "Unreachable" ]}) sample_world
              (issued (xml_request sample_self "<Request/>") sample_world)
              (list_fmap _ _ sample_device no_status_devices) eq_refl eq_refl)
    as [_ Hraise].
  assert (VSet {[ "Unreachable" ]} <> VSet ∅) as Hv.
  { intros [= Heq]. }
  assert (~ Forall (has_child "Status")
              (list_fmap _ _ sample_device no_status_devices)) as Hn.
  { intros Hall. apply Forall_cons in Hall as [_ Hall].
    apply Forall_cons in Hall as [[? Hd] _]. done. }
  by rewrite (Hraise Hv Hn).
Defined.

(** X7: a one-member set finds what its member finds: for every world
    [get_devices_by] behaves with the set [{s}] as with the string [s]. *)
Theorem singleton_set_is_its_member (xml_request_dir : string)
    (fromstring : string -> result Element) (self : CspcApi)
    (key s : string) (w : World) :
  get_devices_by xml_request_dir fromstring self key (VSet {[ s ]}) w
  = get_devices_by xml_request_dir fromstring self key (VStr s) w.
Proof.
  unfold get_devices_by, mbind, M_bind, lift.
  destruct (get_devices _ _ _ w) as [[devices|e] w']; [|done].
  by rewrite matched_loop_singleton.
Qed.

(** X8: a larger set finds more: when every device has the field, what
    [get_devices_by] returns for a set is a sublist, in the same order,
    of what it returns for any set that includes it.  The empty string
    occurs in every text, so as a value it finds every device. *)
Theorem devices_by_is_monotone (xml_request_dir : string)
    (fromstring : string -> result Element) (self : CspcApi)
    (key : string) (items items' : gset string) (w w' : World)
    (devices : list Element) :
  get_devices xml_request_dir fromstring self w = (Ok devices, w') ->
  Forall (has_child key) devices ->
  items ⊆ items' ->
  (exists out out',
     get_devices_by xml_request_dir fromstring self key (VSet items) w
       = (Ok out, w')
     /\ get_devices_by xml_request_dir fromstring self key (VSet items') w
        = (Ok out', w')
     /\ out `sublist_of` out')
  /\ get_devices_by xml_request_dir fromstring self key (VStr EmptyString) w
     = (Ok (device_dict <$> devices), w').
Proof.
  intros Hget Hall Hsub.
  rewrite !(get_devices_by_run _ _ _ _ _ _ _ _ Hget).
  rewrite !matched_loop_ok by done. cbn [app]. split.
  - eexists _, _. split_and!; [done..|].
    apply fmap_sublist, filter_sublist. intros d. unfold matches.
    destruct (field key d); [|done].
    intros (item & Hin & Hc). exists item. split; [set_solver|done].
  - assert (filter (matches key (VStr EmptyString)) devices = devices) as ->;
      [|done].
    clear Hget. induction Hall as [|d devices Hd _ IH]; [done|].
    rewrite filter_cons, decide_True; [by rewrite IH|].
    apply findtext_has_child in Hd as [txt Htxt].
    unfold matches, field. rewrite Htxt. apply contains_empty.
Qed.

Lemma devices_by_is_monotone_witness :
  let fromstring := sample_parser "<Response/>" (sample_inventory two_devices) in
  (get_devices_by sample_dir fromstring sample_self "HostName"
     (VStr EmptyString) sample_world).1
  = Ok (device_dict <$> (sample_device <$> two_devices)).
Proof.
  intros fromstring.
  assert (Forall (has_child "HostName") (sample_device <$> two_devices)) as Hall
    by (repeat constructor; by eexists).
  destruct (devices_by_is_monotone sample_dir fromstring sample_self "HostName"
              {[ "switch" ]} {[ "switch"; "router" ]} sample_world
              (issued (xml_request sample_self "<Request/>") sample_world)
              (list_fmap _ _ sample_device two_devices) eq_refl Hall)
    as [_ Hall']; [set_solver|].
  by rewrite Hall'.
Defined.

(** X9: when the key is a plain tag name, every record that
    [get_devices_by] returns holds the field [key], and the text under
    it contains the string searched for, or a member of the set searched
    for. *)
Theorem found_records_hold_the_value (xml_request_dir : string)
    (fromstring : string -> result Element) (self : CspcApi)
    (key : string) (v : value) (w w' : World) (out : list (gmap string string)) :
  plain_tag key = true ->
  get_devices_by xml_request_dir fromstring self key v w = (Ok out, w') ->
  forall d, d ∈ out ->
    exists txt, d !! key = Some txt
      /\ ((exists s, v = VStr s /\ substring_of s txt)
          \/ (exists items item,
                v = VSet items /\ item ∈ items /\ substring_of item txt)).
Proof.
  intros _. unfold get_devices_by, mbind, M_bind, lift.
  destruct (get_devices _ _ _ w) as [[devices|e] w1]; [|done].
  intros [= Hloop <-] d Hd.
  destruct (decide (v = VSet ∅)) as [->|Hv].
  { rewrite matched_loop_empty_set in Hloop. injection Hloop as <-.
    by apply elem_of_nil in Hd. }
  destruct (decide (Forall (has_child key) devices)) as [Hall|Hn].
  - rewrite matched_loop_ok in Hloop by done. injection Hloop as <-.
    cbn [app] in Hd.
    apply list_elem_of_fmap in Hd as (device & -> & [Hm Hin]%list_elem_of_filter).
    rewrite Forall_forall in Hall.
    destruct (proj1 (findtext_has_child _ _) (Hall _ Hin)) as [txt Htxt].
    exists txt. rewrite device_dict_lookup. split; [done|].
    by apply (matches_spec key v device txt).
  - apply not_Forall_Exists in Hn; [|apply _].
    by rewrite matched_loop_raise in Hloop.
Qed.

Lemma found_records_hold_the_value_witness :
  let fromstring := sample_parser "<Response/>" (sample_inventory two_devices) in
  exists txt,
    device_dict (sample_device ("1", "switch1", Some "Reachable")) !! "HostName"
    = Some txt.
Proof.
  intros fromstring.
  destruct (found_records_hold_the_value sample_dir fromstring sample_self
              "HostName" (VStr "switch") sample_world
              (issued (xml_request sample_self "<Request/>") sample_world)
              [device_dict (sample_device ("1", "switch1", Some "Reachable"))]
              eq_refl eq_refl
              (device_dict (sample_device ("1", "switch1", Some "Reachable"))))
    as (txt & Htxt & _); [left|].
  by exists txt.
Defined.

(** ** Seed files *)

Section SeedFacts.
Import PyStr.

Lemma count_join_free (c : ascii) (sep : string) (l : list string) :
  free_of c sep -> Forall (free_of c) l -> free_of c (join sep l).
Proof.
  unfold free_of. intros Hsep. induction 1 as [|x l Hx Hl IH]; [done|].
  destruct l as [|y l]; [done|].
  change (join sep (x :: y :: l)) with (x +:+ sep +:+ join sep (y :: l)).
  rewrite !count_app, Hx, Hsep, IH. done.
Qed.

Lemma csv_row_columns (a : csv_args) :
  csv_row a
  = join "," ([arg_ipaddress a; arg_hostname a] ++ replicate 6 EmptyString
              ++ [arg_snmp_v2_RO a; arg_snmp_v2_RW a] ++ replicate 6 EmptyString
              ++ [arg_username a; arg_password a; arg_enable_password a]
              ++ replicate 17 EmptyString) +:+ newline.
Proof. apply csv_row_is_join. Qed.

Lemma read_row_of_row (a : csv_args) :
  csv_clean a ->
  exists line, csv_row a = line +:+ newline /\ free_of nl line
               /\ line <> EmptyString /\ read_row line = Some a.
Proof.
  unfold csv_clean. intros Hclean.
  repeat (apply Forall_cons in Hclean as [[? ?] Hclean]).
  eexists. split; [apply csv_row_columns|].
  cbn [replicate app]. split_and!.
  - apply count_join_free; [done|].
    repeat (apply Forall_cons; split; [first [assumption|reflexivity]|]).
    constructor.
  - cbn [join]. destruct (arg_ipaddress a); done.
  - unfold read_row. rewrite (split_join comma).
    + cbn. by destruct a.
    + done.
    + repeat (apply Forall_cons; split; [first [assumption|reflexivity]|]).
      constructor.
Qed.

End SeedFacts.

(** X10: a seed file can be read back.  When no argument holds a comma or
    a newline, splitting the concatenated rows of some devices at the
    newlines and each line at the commas gives, line by line and in
    order, the arguments the rows were made from. *)
Theorem seed_file_reads_back (devices : list csv_args) :
  Forall csv_clean devices ->
  read_csv (csv_file devices) = Some <$> devices.
Proof.
  unfold read_csv. induction 1 as [|a devices Ha Hall IH]; [done|].
  destruct (read_row_of_row a Ha) as (line & Hrow & Hfree & Hne & Hread).
  cbn [csv_file]. rewrite Hrow, str_app_assoc.
  change (PyStr.newline +:+ csv_file devices)
    with (String PyStr.nl (csv_file devices)).
  rewrite split_app_sep by done.
  destruct (PyStr.split PyStr.nl (csv_file devices)) as [|l ls] eqn:Hsplit.
  - by destruct devices.
  - cbn [read_lines]. rewrite fmap_cons, Hread. f_equal.
    exact IH.
Qed.

Lemma seed_file_reads_back_witness :
  read_csv (csv_file two_rows) = Some <$> two_rows.
Proof.
  apply seed_file_reads_back.
  repeat (apply Forall_cons; split;
          [repeat (apply Forall_cons; split; [split; reflexivity|]); constructor|]).
  constructor.
Defined.

Lemma seed_upload_run (self : CspcApi) (csv device_group_name : string)
    (w : World) :
  send_and_import_seed_file_csv self csv device_group_name w
  = (match reply w (sent w) (seed_request self csv device_group_name w) with
     | inl reason => Raise (TransportError reason)
     | inr response => Ok (text response)
     end, issued (seed_request self csv device_group_name w) w).
Proof.
  unfold send_and_import_seed_file_csv, mbind, M_bind, strftime_Ymd_HMS,
    requests_post, mret, M_ret.
  fold (seed_request self csv device_group_name w).
  fold (issued (seed_request self csv device_group_name w) w).
  by destruct (reply w (sent w) (seed_request self csv device_group_name w)).
Qed.

(** X11: the seed file upload does not look at the status code.  It
    returns the body of whatever answer comes back, also of a 500, and
    never raises the [RuntimeError] that [_xml] raises for the same
    answer; only a failure of the transport itself makes it raise. *)
Theorem seed_upload_ignores_status (self : CspcApi)
    (csv device_group_name : string) (w : World) :
  let request := seed_request self csv device_group_name w in
  (forall response, reply w (sent w) request = inr response ->
     (send_and_import_seed_file_csv self csv device_group_name w).1
     = Ok (text response))
  /\ (forall response,
        (send_and_import_seed_file_csv self csv device_group_name w).1
        <> Raise (RuntimeError response))
  /\ (forall payload response,
        reply w (sent w) (xml_request self payload) = inr response ->
        status_code response <> 200%Z ->
        (_xml self payload w).1 = Raise (RuntimeError response)).
Proof.
  intros request. rewrite seed_upload_run. fold request. cbn [fst]. split_and!.
  - by intros response ->.
  - intros response. by destruct (reply w (sent w) request).
  - intros payload response Hreply Hstatus. rewrite xml_run, Hreply. cbn.
    by rewrite bool_decide_eq_false_2.
Qed.

Lemma seed_upload_ignores_status_witness :
  (send_and_import_seed_file_csv sample_self "10.0.0.1,sw1" "lab" failing_world).1
  = Ok "<Error/>".
Proof.
  exact (proj1 (seed_upload_ignores_status sample_self "10.0.0.1,sw1" "lab"
                  failing_world) (mkResponse 500 "<Error/>" []) eq_refl).
Defined.

(** ** Updating a document in place *)

Section TreeFacts.
Import ElementTree.

Lemma same_node_refl (e : Element) : same_node e e.
Proof. by repeat split. Qed.

Lemma same_node_trans (e1 e2 e3 : Element) :
  same_node e1 e2 -> same_node e2 e3 -> same_node e1 e3.
Proof.
  intros (? & ? & ? & ?) (? & ? & ? & ?). repeat split; congruence.
Qed.

Lemma changed_under_refl (h : handle) (tree : Element) : changed_under h tree tree.
Proof. intros g e Hg. exists e. split_and!; [done|apply same_node_refl|done]. Qed.

Lemma changed_under_trans (h : handle) (t1 t2 t3 : Element) :
  changed_under h t1 t2 -> changed_under h t2 t3 -> changed_under h t1 t3.
Proof.
  intros H12 H23 g e Hg.
  destruct (H12 g e Hg) as (e2 & Hg2 & Hs2 & He2).
  destruct (H23 g e2 Hg2) as (e3 & Hg3 & Hs3 & He3).
  exists e3. split_and!; [done|by eapply same_node_trans|].
  intros Hn. by rewrite He3, He2.
Qed.

(** An append changes nothing but the child list of the element it is
    made on. *)
Lemma append_at_changed_under (tree : Element) (h : handle) (sub tree' : Element) :
  append_at tree h sub = Some tree' -> changed_under h tree tree'.
Proof.
  revert tree tree'. induction h as [|j h IH]; intros tree tree'.
  - intros [= <-] g e Hg. destruct g as [|i g].
    + injection Hg as <-. eexists. split_and!; [done|by repeat split|].
      intros Hn. destruct Hn. apply prefix_nil.
    + cbn in Hg. destruct (children tree !! i) as [c|] eqn:Hi; [|done].
      exists e. split_and!; [|apply same_node_refl|done].
      cbn. by rewrite lookup_app_l_Some with (x := c).
  - cbn. destruct (children tree !! j) as [c|] eqn:Hj; [|done]. cbn.
    destruct (append_at c h sub) as [c'|] eqn:Hc; [|done]. cbn.
    intros [= <-] g e Hg. destruct g as [|i g].
    + injection Hg as <-. eexists. split_and!; [done|by repeat split|].
      intros Hn. destruct Hn. apply prefix_nil.
    + cbn in Hg. destruct (children tree !! i) as [ci|] eqn:Hi; [|done].
      cbn in Hg. destruct (decide (i = j)) as [->|Hne].
      * rewrite Hj in Hi. injection Hi as <-.
        destruct (IH c c' Hc g e Hg) as (e' & Hg' & Hs & He).
        exists e'. split_and!; [|done|].
        -- cbn. rewrite list_lookup_insert_eq by by eapply lookup_lt_Some.
           done.
        -- intros Hn. apply He. intros Hp. apply Hn. by apply prefix_cons.
      * exists e. split_and!; [|apply same_node_refl|done].
        cbn. rewrite list_lookup_insert_ne by done. by rewrite Hi.
Qed.

Lemma changed_only_at_refl (h : handle) (tree : Element) :
  changed_only_at h tree tree.
Proof.
  intros g _. destruct (deref tree g); [|done].
  split_and!; [apply same_node_refl|done..].
Qed.

Lemma changed_only_at_trans (h : handle) (t1 t2 t3 : Element) :
  changed_only_at h t1 t2 -> changed_only_at h t2 t3 -> changed_only_at h t1 t3.
Proof.
  intros H12 H23 g Hn. specialize (H12 g Hn). specialize (H23 g Hn).
  destruct (deref t1 g), (deref t2 g), (deref t3 g); try done.
  destruct H12 as (Hs2 & Hl2 & He2), H23 as (Hs3 & Hl3 & He3).
  split_and!; [by eapply same_node_trans|congruence|].
  intros Hn'. by rewrite He3, He2.
Qed.

(** An append leaves everything outside the element it is made on as it
    was. *)
Lemma append_at_changed_only (tree : Element) (h : handle) (sub tree' : Element) :
  append_at tree h sub = Some tree' -> changed_only_at h tree tree'.
Proof.
  revert tree tree'. induction h as [|j h IH]; intros tree tree'.
  - intros _ g Hn. destruct Hn. apply prefix_nil.
  - cbn. destruct (children tree !! j) as [c|] eqn:Hj; [|done]. cbn.
    destruct (append_at c h sub) as [c'|] eqn:Hc; [|done]. cbn.
    intros [= <-] g Hn. destruct g as [|i g].
    + cbn. split_and!; [by repeat split|by rewrite length_insert|].
      intros Hn'. destruct Hn'. apply prefix_nil.
    + cbn. destruct (decide (i = j)) as [->|Hne].
      * rewrite list_lookup_insert_eq by by eapply lookup_lt_Some.
        rewrite Hj. cbn.
        assert (~ h `prefix_of` g) as Hg.
        { intros Hp. apply Hn. by apply prefix_cons. }
        pose proof (IH c c' Hc g Hg) as Hin.
        destruct (deref c g), (deref c' g); try done.
        destruct Hin as (Hs & Hl & He). split_and!; [done..|].
        intros Hn'. apply He. intros Hp. apply Hn'. by apply prefix_cons.
      * rewrite list_lookup_insert_ne by done.
        destruct (children tree !! i) as [ci|]; cbn; [|done].
        destruct (deref ci g); [|done].
        split_and!; [apply same_node_refl|done..].
Qed.

Lemma append_each_changed_only (tree : Element) (h : handle)
    (subs : list Element) (tree' : Element) :
  append_each tree (Some h) subs = Ok tree' -> changed_only_at h tree tree'.
Proof.
  revert tree. induction subs as [|sub subs IH]; intros tree.
  - intros [= <-]. apply changed_only_at_refl.
  - cbn [append_each]. unfold append.
    destruct (append_at tree h sub) as [tree1|] eqn:Happ; [|done]. cbn.
    intros Heach. eapply changed_only_at_trans.
    + by eapply append_at_changed_only.
    + by apply IH.
Qed.

Lemma with_children_twice (e : Element) (cs cs' : list Element) :
  with_children (with_children e cs) cs' = with_children e cs'.
Proof. done. Qed.

(** Appending elements one after the other through one handle adds them,
    in that order, after the children the element had, and changes
    nothing else in the document. *)
Lemma append_each_spec (tree : Element) (h : handle) (e : Element)
    (subs : list Element) :
  deref tree h = Some e ->
  exists tree',
    append_each tree (Some h) subs = Ok tree'
    /\ deref tree' h = Some (with_children e (children e ++ subs))
    /\ changed_under h tree tree'.
Proof.
  revert tree e. induction subs as [|sub subs IH]; intros tree e Hh.
  - exists tree. split_and!; [done| |apply changed_under_refl].
    rewrite app_nil_r. by destruct e.
  - destruct (deref_append_at tree h e sub Hh) as (tree1 & Happ & Hh1).
    destruct (IH tree1 _ Hh1) as (tree' & Heach & Hh' & Hchanged).
    exists tree'. split_and!.
    + cbn [append_each]. unfold append. rewrite Happ. exact Heach.
    + rewrite Hh'. cbn [children with_children]. by rewrite <-app_assoc.
    + eapply changed_under_trans; [|done].
      by eapply append_at_changed_under.
Qed.

Lemma append_each_None (tree : Element) (subs : list Element) :
  append_each tree None subs
  = if bool_decide (subs = []) then Ok tree else Raise AttributeError.
Proof. by destruct subs. Qed.

End TreeFacts.

(** ** Requests that change the inventory *)

Section SubmitFacts.
Import ElementTree.

Variable xml_request_dir : string.
Variable fromstring : string -> result Element.
Variable tostring : Element -> string.
Variable self : CspcApi.

Lemma device_elem_fold (device : list (string * string)) (elem : Element) :
  foldl (fun elem item =>
           let d := leaf item.1 (Some item.2) None in
           with_children elem (children elem ++ [d])) elem device
  = with_children elem (children elem ++ (item_elem <$> device)).
Proof.
  revert elem. induction device as [|item device IH]; intros elem.
  - cbn. rewrite app_nil_r. by destruct elem.
  - cbn [foldl]. rewrite IH. cbn [children with_children fmap list_fmap].
    rewrite with_children_twice, <-app_assoc. done.
Qed.

Lemma device_elem_children (device : list (string * string)) :
  device_elem device
  = with_children (new "Device") (item_elem <$> device).
Proof. unfold device_elem. by rewrite device_elem_fold. Qed.

(** What [add_multiple_devices] does once the template is parsed. *)
Lemma add_multiple_devices_run (devices : list (list (string * string)))
    (w : World) (payload : string) (tree : Element) :
  files w (os_path_join xml_request_dir "add_multiple_devices.xml") = Some payload ->
  fromstring payload = Ok tree ->
  add_multiple_devices xml_request_dir fromstring tostring self devices w
  = match append_each tree (find_descendant (qualified "DeviceList") tree)
            (device_elem <$> devices) with
    | Ok tree' => _xml self (tostring tree') w
    | Raise e => (Raise e, w)
    end.
Proof.
  intros Hfile Htree.
  unfold add_multiple_devices, mbind, M_bind, lift, mret, M_ret.
  rewrite get_xml_payload_run, Hfile, Htree. unfold _get_xml_elem.
  destruct (append_each _ _ _) as [tree'|e]; [|done].
  by destruct (_xml self (tostring tree') w) as [[?|?] ?].
Qed.

End SubmitFacts.

(** X12: [add_multiple_devices] sends the template with one [Device]
    element per dictionary appended to the first [DeviceList] below the
    root, after the children the list had and in the order given; each
    [Device] holds one child per item, tag and text as given, in the
    order of the dictionary.  Nothing else in the document changes, and
    the outcome is that of [_xml] on the serialized document. *)
Theorem add_devices_appends_in_order (xml_request_dir : string)
    (fromstring : string -> result Element) (tostring : Element -> string)
    (self : CspcApi) (devices : list (list (string * string)))
    (w : World) (payload : string) (tree : Element) (h : ElementTree.handle) :
  files w (os_path_join xml_request_dir "add_multiple_devices.xml") = Some payload ->
  fromstring payload = Ok tree ->
  _get_xml_elem "DeviceList" tree = Ok (Some h) ->
  exists device_list tree',
    ElementTree.deref tree h = Some device_list
    /\ ElementTree.deref tree' h
       = Some (ElementTree.with_children device_list
                 (ElementTree.children device_list
                  ++ ((fun device =>
                         node "Device" None
                           ((fun item => leaf item.1 (Some item.2) None)
                              <$> device) None)
                        <$> devices)))
    /\ changed_only_at h tree tree'
    /\ add_multiple_devices xml_request_dir fromstring tostring self devices w
       = _xml self (tostring tree') w.
Proof.
  intros Hfile Htree [= Hfind].
  destruct (find_descendant_deref _ _ _ Hfind) as (_ & e & He & _).
  destruct (append_each_spec tree h e (device_elem <$> devices) He)
    as (tree' & Heach & Hh' & _).
  exists e, tree'. split_and!; [done| | |].
  - rewrite Hh'. do 3 f_equal. apply list_fmap_ext. intros _ device _.
    apply device_elem_children.
  - by eapply append_each_changed_only.
  - rewrite (add_multiple_devices_run _ _ _ _ _ _ _ _ Hfile Htree).
    by rewrite Hfind, Heach.
Qed.

Lemma add_devices_appends_in_order_witness :
  (add_multiple_devices sample_dir (sample_parser "add" sample_template)
     sample_tostring sample_self sample_devices (template_world accepted)).1
  = Ok "<Response/>"
  /\ (req_data <$> sent (add_multiple_devices sample_dir
                           (sample_parser "add" sample_template) sample_tostring
                           sample_self sample_devices (template_world accepted)).2)
     = [Some "2"].
Proof.
  destruct (add_devices_appends_in_order sample_dir
              (sample_parser "add" sample_template) sample_tostring sample_self
              sample_devices (template_world accepted) "add" sample_template
              [0; 1] eq_refl eq_refl eq_refl)
    as (device_list & tree' & Hd & Hd' & _ & Hrun).
  injection Hd as <-. rewrite Hrun, xml_run.
  unfold sample_tostring. rewrite Hd'. by split.
Defined.

(** X13: the device list is only used when there is a device to
    add.  Without devices the template is sent as it is, found or not;
    with a device and no [DeviceList] below the root the call raises an
    [AttributeError] before anything is sent. *)
Theorem add_devices_without_container (xml_request_dir : string)
    (fromstring : string -> result Element) (tostring : Element -> string)
    (self : CspcApi) (devices : list (list (string * string)))
    (w : World) (payload : string) (tree : Element) :
  files w (os_path_join xml_request_dir "add_multiple_devices.xml") = Some payload ->
  fromstring payload = Ok tree ->
  add_multiple_devices xml_request_dir fromstring tostring self [] w
    = _xml self (tostring tree) w
  /\ (_get_xml_elem "DeviceList" tree = Ok None -> devices <> [] ->
      add_multiple_devices xml_request_dir fromstring tostring self devices w
      = (Raise AttributeError, w)).
Proof.
  intros Hfile Htree.
  rewrite (add_multiple_devices_run xml_request_dir fromstring tostring self []
             w payload tree Hfile Htree).
  rewrite (add_multiple_devices_run xml_request_dir fromstring tostring self
             devices w payload tree Hfile Htree).
  split.
  - done.
  - intros [= ->] Hne. rewrite append_each_None.
    rewrite bool_decide_eq_false_2; [done|]. by intros ?%fmap_nil_inv.
Qed.

Lemma add_devices_without_container_witness :
  (add_multiple_devices sample_dir (sample_parser "add" bare_template)
     sample_tostring sample_self sample_devices (template_world accepted))
  = (Raise AttributeError, template_world accepted).
Proof.
  destruct (add_devices_without_container sample_dir
              (sample_parser "add" bare_template) sample_tostring sample_self
              sample_devices (template_world accepted) "add" bare_template
              eq_refl eq_refl) as [_ Hraise].
  by apply Hraise.
Defined.

Section SetFacts.
Import ElementTree.

Lemma attrib_get_set (key value : string) (items : list (string * string)) :
  attrib_get key (attrib_set key value items) = Some value.
Proof.
  induction items as [|[k v] items IH]; cbn.
  - by rewrite bool_decide_eq_true_2.
  - case_bool_decide as Hk; cbn; rewrite ?bool_decide_eq_true_2 by done; [done|].
    by rewrite bool_decide_eq_false_2.
Qed.

(** Setting an attribute changes the attributes of the element it is
    made on and nothing else. *)
Lemma set_at_spec (tree : Element) (h : handle) (e : Element) (key value : string) :
  deref tree h = Some e ->
  exists tree1,
    set_at tree h key value = Some tree1
    /\ deref tree1 h = Some (with_attrib e (attrib_set key value (attrib e)))
    /\ forall g e0, deref tree g = Some e0 ->
         exists e0', deref tree1 g = Some e0'
                     /\ tag e0' = tag e0
                     /\ (~ g `prefix_of` h -> e0' = e0).
Proof.
  revert tree. induction h as [|j h IH]; intros tree; cbn.
  - intros [= ->]. eexists. split_and!; [done..|].
    intros [|i g] e0 Hg.
    + injection Hg as <-. eexists. split_and!; [done..|].
      intros Hn. destruct Hn. apply prefix_nil.
    + exists e0. by split_and!.
  - destruct (children tree !! j) as [c|] eqn:Hj; [|done]. cbn.
    intros (c' & -> & Hc' & Hframe)%IH. cbn. eexists. split_and!; [done| |].
    + cbn. rewrite list_lookup_insert_eq by by eapply lookup_lt_Some. done.
    + intros [|i g] e0 Hg.
      * injection Hg as <-. eexists. split_and!; [done..|].
        intros Hn. destruct Hn. apply prefix_nil.
      * cbn in Hg. destruct (children tree !! i) as [ci|] eqn:Hi; [|done].
        cbn in Hg. destruct (decide (i = j)) as [->|Hne].
        -- rewrite Hj in Hi. injection Hi as <-.
           destruct (Hframe g e0 Hg) as (e0' & Hg' & Htag & He).
           exists e0'. split_and!; [|done|].
           ++ cbn. rewrite list_lookup_insert_eq by by eapply lookup_lt_Some.
              done.
           ++ intros Hn. apply He. intros Hp. apply Hn. by apply prefix_cons.
        -- exists e0. split_and!; [|done..].
           cbn. rewrite list_lookup_insert_ne by done. by rewrite Hi.
Qed.

End SetFacts.

Section DiscoverFacts.
Import ElementTree.

Variable xml_request_dir : string.
Variable fromstring : string -> result Element.
Variable tostring : Element -> string.
Variable self : CspcApi.

(** What [discover_multiple_devices] does once the template is parsed. *)
Lemma discover_multiple_devices_run (ts : N) (ips : list string)
    (w : World) (payload : string) (tree : Element) :
  files w (os_path_join xml_request_dir "discover_multiple_devices.xml")
    = Some payload ->
  fromstring payload = Ok tree ->
  discover_multiple_devices xml_request_dir fromstring tostring ts self ips w
  = match (tree1 ← Element_set tree
                      (find_descendant (qualified "DiscoveryJob") tree)
                      "identifier" (pretty ts);
           append_each tree1 (find_descendant (qualified "IPAddressList") tree)
             (ip_elem <$> ips)) with
    | Ok tree' => _xml self (tostring tree') w
    | Raise e => (Raise e, w)
    end.
Proof.
  intros Hfile Htree.
  unfold discover_multiple_devices, mbind, M_bind, result_bind, lift, mret, M_ret.
  rewrite get_xml_payload_run, Hfile, Htree. unfold _get_xml_elem.
  destruct (Element_set _ _ _ _) as [tree1|e]; [|done].
  destruct (append_each _ _ _) as [tree'|e]; [|done].
  by destruct (_xml self (tostring tree') w) as [[?|?] ?].
Qed.

End DiscoverFacts.

(** X14: [discover_multiple_devices] sends the template with the
    [identifier] of the first [DiscoveryJob] set to the time in whole
    seconds, written in decimal, and with one element per address, with
    the tag [IPAddress] and the address as its text, appended in the
    order given to the first [IPAddressList]; the outcome is that of
    [_xml] on the serialized document. *)
Theorem discover_stamps_job_and_appends_addresses (xml_request_dir : string)
    (fromstring : string -> result Element) (tostring : Element -> string)
    (ts : N) (self : CspcApi) (ips : list string)
    (w : World) (payload : string) (tree : Element)
    (h hj : ElementTree.handle) :
  files w (os_path_join xml_request_dir "discover_multiple_devices.xml")
    = Some payload ->
  fromstring payload = Ok tree ->
  _get_xml_elem "IPAddressList" tree = Ok (Some h) ->
  _get_xml_elem "DiscoveryJob" tree = Ok (Some hj) ->
  exists tree' ip_list job,
    discover_multiple_devices xml_request_dir fromstring tostring ts self ips w
      = _xml self (tostring tree') w
    /\ ElementTree.deref tree' hj = Some job
    /\ ElementTree.tag job = qualified "DiscoveryJob"
    /\ attrib_get "identifier" (ElementTree.attrib job) = Some (pretty ts)
    /\ ElementTree.tag ip_list = qualified "IPAddressList"
    /\ (~ h `prefix_of` hj -> ElementTree.deref tree h = Some ip_list)
    /\ ElementTree.deref tree' h
       = Some (ElementTree.with_children ip_list
                 (ElementTree.children ip_list
                  ++ ((fun ip => leaf "IPAddress" (Some ip) None) <$> ips))).
Proof.
  intros Hfile Htree [= Hlist] [= Hjob].
  destruct (find_descendant_deref _ _ _ Hlist) as (_ & e & He & Htag).
  destruct (find_descendant_deref _ _ _ Hjob) as (_ & ej & Hej & Htagj).
  destruct (set_at_spec tree hj ej "identifier" (pretty ts) Hej)
    as (tree1 & Hset & Hj1 & Hframe).
  destruct (Hframe h e He) as (e1 & He1 & Htag1 & Hsame).
  destruct (append_each_spec tree1 h e1 (ip_elem <$> ips) He1)
    as (tree' & Heach & Hh' & Hchanged).
  destruct (Hchanged hj _ Hj1) as (job & Hjob' & (Hjt & Hja & _) & _).
  exists tree', e1, job. split_and!.
  - rewrite (discover_multiple_devices_run xml_request_dir fromstring tostring
               self ts ips w payload tree Hfile Htree).
    rewrite Hjob, Hlist. unfold Element_set. rewrite Hset. cbn.
    by rewrite Heach.
  - done.
  - by rewrite Hjt.
  - rewrite Hja. cbn. apply attrib_get_set.
  - congruence.
  - intros Hn. by rewrite (Hsame Hn).
  - done.
Qed.

(** X15: the discovery job is stamped before any address is looked at:
    without a [DiscoveryJob] below the root the call raises an
    [AttributeError] and sends nothing, also when no address is given. *)
Theorem discover_needs_the_job (xml_request_dir : string)
    (fromstring : string -> result Element) (tostring : Element -> string)
    (ts : N) (self : CspcApi) (ips : list string)
    (w : World) (payload : string) (tree : Element) :
  files w (os_path_join xml_request_dir "discover_multiple_devices.xml")
    = Some payload ->
  fromstring payload = Ok tree ->
  _get_xml_elem "DiscoveryJob" tree = Ok None ->
  discover_multiple_devices xml_request_dir fromstring tostring ts self ips w
  = (Raise AttributeError, w).
Proof.
  intros Hfile Htree [= Hjob].
  rewrite (discover_multiple_devices_run xml_request_dir fromstring tostring
             self ts ips w payload tree Hfile Htree).
  by rewrite Hjob.
Qed.

Lemma discover_stamps_job_and_appends_addresses_witness :
  (discover_multiple_devices sample_dir
     (sample_parser "discover" discover_template) discover_tostring
     1700000000 sample_self ["10.0.0.1"; "10.0.0.2"] (template_world accepted)).1
  = Ok "<Response/>"
  /\ (req_data <$> sent (discover_multiple_devices sample_dir
                           (sample_parser "discover" discover_template)
                           discover_tostring 1700000000 sample_self
                           ["10.0.0.1"; "10.0.0.2"] (template_world accepted)).2)
     = [Some "1700000000:IPAddress=10.0.0.1;IPAddress=10.0.0.2"].
Proof.
  destruct (discover_stamps_job_and_appends_addresses sample_dir
              (sample_parser "discover" discover_template) discover_tostring
              1700000000 sample_self ["10.0.0.1"; "10.0.0.2"]
              (template_world accepted) "discover" discover_template
              [0; 0] [0] eq_refl eq_refl eq_refl eq_refl)
    as (tree' & ip_list & job & Hrun & Hjob & _ & Hid & _ & Horig & Hlist).
  assert (ElementTree.deref discover_template [0; 0] = Some ip_list) as Hip.
  { apply Horig. by intros [k Hk]. }
  injection Hip as <-. rewrite Hrun, xml_run.
  unfold discover_tostring. rewrite Hjob, Hlist, Hid. by split.
Defined.

Lemma discover_needs_the_job_witness :
  discover_multiple_devices sample_dir
    (sample_parser "discover" jobless_template) discover_tostring
    1700000000 sample_self [] (template_world accepted)
  = (Raise AttributeError, template_world accepted).
Proof.
  exact (discover_needs_the_job sample_dir
           (sample_parser "discover" jobless_template) discover_tostring
           1700000000 sample_self [] (template_world accepted) "discover"
           jobless_template eq_refl eq_refl eq_refl).
Defined.

(** ** Requests that read dictionaries by key *)

Section KeyedFacts.
Import ElementTree.

Lemma delete_loop_ids (tree : Element) (x : option handle)
    (devs : list (gmap string string)) (ids : list string) :
  Forall2 (fun d id => d !! "Id" = Some id) devs ids ->
  delete_loop tree x devs = of_result (append_each tree x (id_elem <$> ids)).
Proof.
  intros Hids. revert tree.
  induction Hids as [|d id devs ids Hd _ IH]; intros tree; [done|].
  cbn [delete_loop fmap list_fmap append_each]. unfold subscript. rewrite Hd.
  cbn. destruct (append tree x (id_elem id)) as [tree'|e]; [apply IH|done].
Qed.

Lemma delete_loop_keyerror (tree : Element) (h : handle) (e : Element)
    (devs : list (gmap string string)) :
  deref tree h = Some e ->
  Exists (fun d => d !! "Id" = None) devs ->
  delete_loop tree (Some h) devs = Raises (KeyError "Id").
Proof.
  intros He Hex. revert tree e He.
  induction devs as [|d devs IH]; intros tree e He.
  - by apply Exists_nil in Hex.
  - cbn [delete_loop]. unfold subscript.
    destruct (d !! "Id") as [id|] eqn:Hd; [|done]. cbn.
    destruct (deref_append_at tree h e (id_elem id) He) as (tree1 & Happ & Hh1).
    unfold append. rewrite Happ. cbn.
    apply Exists_cons in Hex as [Hex|Hex]; [congruence|].
    by apply (IH Hex tree1 _ Hh1).
Qed.

Lemma credentials_loop_built
    (build : string -> gmap string string -> outcome Element)
    (shape : string * gmap string string -> Element)
    (tree : Element) (x : option handle)
    (credentials : list (string * gmap string string)) :
  Forall (fun c => build c.1 c.2 = Returns (shape c)) credentials ->
  credentials_loop build tree x credentials
  = of_result (append_each tree x (shape <$> credentials)).
Proof.
  intros Hall. revert tree.
  induction Hall as [|[name c] credentials Hc _ IH]; intros tree; [done|].
  cbn [credentials_loop fmap list_fmap append_each]. cbn in Hc. rewrite Hc.
  cbn. destruct (append tree x (shape (name, c))) as [tree'|e]; [apply IH|done].
Qed.

Lemma credentials_loop_raises
    (build : string -> gmap string string -> outcome Element)
    (tree : Element) (h : handle) (e : Element)
    (good rest : list (string * gmap string string))
    (c : string * gmap string string) (err : pyexn) :
  deref tree h = Some e ->
  Forall (fun c => exists elem, build c.1 c.2 = Returns elem) good ->
  build c.1 c.2 = Raises err ->
  credentials_loop build tree (Some h) (good ++ c :: rest) = Raises err.
Proof.
  intros He Hgood Hc. revert tree e He.
  induction Hgood as [|[name g] good [elem Hg] _ IH]; intros tree e He.
  - destruct c as [name c]. cbn in *. by rewrite Hc.
  - cbn [app credentials_loop]. cbn in Hg. rewrite Hg. cbn.
    destruct (deref_append_at tree h e elem He) as (tree1 & Happ & Hh1).
    unfold append. rewrite Happ. cbn. by apply (IH tree1 _ Hh1).
Qed.

Lemma snmpv2c_elem_spec (name : string) (c : gmap string string) :
  snmpv2c_elem name c
  = match first_missing snmpv2c_keys c with
    | Some k => Raises (KeyError k)
    | None => Returns (snmpv2c_credential (name, c))
    end.
Proof.
  unfold snmpv2c_elem, first_missing, snmpv2c_keys, snmpv2c_credential,
    subscript, entry.
  cbn [fst snd]. rewrite !filter_cons, filter_nil.
  destruct (c !! "snmp_read_community") as [ro|];
    [rewrite decide_False by done|by rewrite decide_True].
  destruct (c !! "snmp_write_community") as [rw|];
    [rewrite decide_False by done|by rewrite decide_True].
  destruct (c !! "ip_expression") as [ip|];
    [rewrite decide_False by done; reflexivity|by rewrite decide_True].
Qed.

Lemma sshv2_elem_spec (name : string) (c : gmap string string) :
  sshv2_elem name c
  = match first_missing sshv2_keys c with
    | Some k => Raises (KeyError k)
    | None => Returns (sshv2_credential (name, c))
    end.
Proof.
  unfold sshv2_elem, first_missing, sshv2_keys, sshv2_credential,
    subscript, entry.
  cbn [fst snd]. rewrite !filter_cons, filter_nil.
  destruct (c !! "user") as [u|];
    [rewrite decide_False by done|by rewrite decide_True].
  destruct (c !! "password") as [p|];
    [rewrite decide_False by done|by rewrite decide_True].
  destruct (c !! "enable_password") as [en|];
    [rewrite decide_False by done|by rewrite decide_True].
  destruct (c !! "ip_expression") as [ip|];
    [rewrite decide_False by done; reflexivity|by rewrite decide_True].
Qed.

Variable xml_request_dir : string.
Variable fromstring : string -> result Element.
Variable tostring : Element -> string.
Variable self : CspcApi.

Lemma delete_multiple_devices_run (devs : list (gmap string string))
    (w : World) (payload : string) (tree : Element) :
  files w (os_path_join xml_request_dir "delete_multiple_devices.xml")
    = Some payload ->
  fromstring payload = Ok tree ->
  delete_multiple_devices xml_request_dir fromstring tostring self devs w
  = match delete_loop tree (find_descendant (qualified "DeviceList") tree) devs with
    | Returns tree' => of_M (_xml self (tostring tree')) w
    | Raises e => (Raises e, w)
    end.
Proof.
  intros Hfile Htree.
  unfold delete_multiple_devices, mbind, P_bind, of_M, pure, mret, P_ret.
  rewrite get_xml_payload_run, Hfile. cbn [of_result]. rewrite Htree. cbn.
  destruct (delete_loop _ _ _) as [tree'|e]; [|done].
  by destruct (_xml self (tostring tree') w) as [[?|?] ?].
Qed.

Lemma add_credentials_snmpv2c_run
    (credentials : list (string * gmap string string))
    (w : World) (payload : string) (tree : Element) :
  files w (os_path_join xml_request_dir "add_multiple_device_credentials.xml")
    = Some payload ->
  fromstring payload = Ok tree ->
  add_multiple_device_credentials_snmpv2c xml_request_dir fromstring tostring
    self credentials w
  = match credentials_loop snmpv2c_elem tree
            (find_descendant (qualified "DeviceCredentialList") tree)
            credentials with
    | Returns tree' => of_M (_xml self (tostring tree')) w
    | Raises e => (Raises e, w)
    end.
Proof.
  intros Hfile Htree.
  unfold add_multiple_device_credentials_snmpv2c, mbind, P_bind, of_M, pure,
    mret, P_ret.
  rewrite get_xml_payload_run, Hfile. cbn [of_result]. rewrite Htree. cbn.
  destruct (credentials_loop _ _ _ _) as [tree'|e]; [|done].
  by destruct (_xml self (tostring tree') w) as [[?|?] ?].
Qed.

Lemma add_credentials_ssh_run
    (credentials : list (string * gmap string string))
    (w : World) (payload : string) (tree : Element) :
  files w (os_path_join xml_request_dir "add_multiple_device_credentials.xml")
    = Some payload ->
  fromstring payload = Ok tree ->
  add_multiple_device_credentials_ssh xml_request_dir fromstring tostring
    self credentials w
  = match credentials_loop sshv2_elem tree
            (find_descendant (qualified "DeviceCredentialList") tree)
            credentials with
    | Returns tree' => of_M (_xml self (tostring tree')) w
    | Raises e => (Raises e, w)
    end.
Proof.
  intros Hfile Htree.
  unfold add_multiple_device_credentials_ssh, mbind, P_bind, of_M, pure,
    mret, P_ret.
  rewrite get_xml_payload_run, Hfile. cbn [of_result]. rewrite Htree. cbn.
  destruct (credentials_loop _ _ _ _) as [tree'|e]; [|done].
  by destruct (_xml self (tostring tree') w) as [[?|?] ?].
Qed.

End KeyedFacts.

(** X16: when every dictionary of the array has an [Id],
    [delete_multiple_devices] sends the template with one [Device]
    element per dictionary, holding nothing but that [Id], appended in
    the order of the array to the first [DeviceList]; the other entries
    of the dictionaries are not sent, the rest of the template is as it
    was, and the outcome is that of [_xml] on the serialized document. *)
Theorem delete_sends_the_ids_in_order (xml_request_dir : string)
    (fromstring : string -> result Element) (tostring : Element -> string)
    (self : CspcApi) (device_array : list (gmap string string))
    (ids : list string)
    (w : World) (payload : string) (tree : Element) (h : ElementTree.handle) :
  files w (os_path_join xml_request_dir "delete_multiple_devices.xml")
    = Some payload ->
  fromstring payload = Ok tree ->
  _get_xml_elem "DeviceList" tree = Ok (Some h) ->
  Forall2 (fun dev id => dev !! "Id" = Some id) device_array ids ->
  exists device_list tree',
    ElementTree.deref tree h = Some device_list
    /\ ElementTree.deref tree' h
       = Some (ElementTree.with_children device_list
                 (ElementTree.children device_list
                  ++ ((fun id => node "Device" None [leaf "Id" (Some id) None] None)
                        <$> ids)))
    /\ changed_only_at h tree tree'
    /\ delete_multiple_devices xml_request_dir fromstring tostring self
         device_array w
       = of_M (_xml self (tostring tree')) w.
Proof.
  intros Hfile Htree [= Hfind] Hids.
  destruct (find_descendant_deref _ _ _ Hfind) as (_ & e & He & _).
  destruct (append_each_spec tree h e (id_elem <$> ids) He)
    as (tree' & Heach & Hh' & _).
  exists e, tree'. split_and!; [done..|by eapply append_each_changed_only|].
  rewrite (delete_multiple_devices_run xml_request_dir fromstring tostring self
             device_array w payload tree Hfile Htree).
  by rewrite Hfind, (delete_loop_ids _ _ _ ids Hids), Heach.
Qed.

Lemma delete_sends_the_ids_in_order_witness :
  (delete_multiple_devices sample_dir (sample_parser "delete" sample_template)
     sample_tostring sample_self sample_records (template_world accepted)).1
  = Returns "<Response/>"
  /\ (req_data <$> sent (delete_multiple_devices sample_dir
                           (sample_parser "delete" sample_template)
                           sample_tostring sample_self sample_records
                           (template_world accepted)).2)
     = [Some "2"].
Proof.
  assert (Forall2 (fun dev id => dev !! "Id" = Some id) sample_records
            ["17"; "18"]) as Hids.
  { by repeat constructor. }
  destruct (delete_sends_the_ids_in_order sample_dir
              (sample_parser "delete" sample_template) sample_tostring
              sample_self sample_records ["17"; "18"] (template_world accepted)
              "delete" sample_template [0; 1] eq_refl eq_refl eq_refl Hids)
    as (device_list & tree' & Hd & Hd' & _ & Hrun).
  injection Hd as <-. rewrite Hrun. unfold of_M. rewrite xml_run.
  unfold sample_tostring. rewrite Hd'. by split.
Defined.

(** X17: one dictionary without an [Id] anywhere in the array makes
    [delete_multiple_devices] raise [KeyError('Id')] before anything is
    sent, also when the dictionaries before it were complete. *)
Theorem delete_needs_every_id (xml_request_dir : string)
    (fromstring : string -> result Element) (tostring : Element -> string)
    (self : CspcApi) (device_array : list (gmap string string))
    (w : World) (payload : string) (tree : Element) (h : ElementTree.handle) :
  files w (os_path_join xml_request_dir "delete_multiple_devices.xml")
    = Some payload ->
  fromstring payload = Ok tree ->
  _get_xml_elem "DeviceList" tree = Ok (Some h) ->
  Exists (fun dev => dev !! "Id" = None) device_array ->
  delete_multiple_devices xml_request_dir fromstring tostring self
    device_array w
  = (Raises (KeyError "Id"), w).
Proof.
  intros Hfile Htree [= Hfind] Hex.
  destruct (find_descendant_deref _ _ _ Hfind) as (_ & e & He & _).
  rewrite (delete_multiple_devices_run xml_request_dir fromstring tostring self
             device_array w payload tree Hfile Htree).
  by rewrite Hfind, (delete_loop_keyerror tree h e device_array He Hex).
Qed.

Lemma delete_needs_every_id_witness :
  delete_multiple_devices sample_dir (sample_parser "delete" sample_template)
    sample_tostring sample_self records_without_id (template_world accepted)
  = (Raises (KeyError "Id"), template_world accepted).
Proof.
  apply (delete_needs_every_id sample_dir
           (sample_parser "delete" sample_template) sample_tostring sample_self
           records_without_id (template_world accepted) "delete"
           sample_template [0; 1] eq_refl eq_refl eq_refl).
  apply Exists_cons_tl, Exists_cons_hd. reflexivity.
Defined.

(** X18: what [get_unreachable_devices] returns can be handed to
    [delete_multiple_devices] as it is: every record has an [Id], so no
    [KeyError] is raised, and the identifiers sent are
    [str(findtext('Id'))] of the unreachable devices in their order, the
    word [None] for a device without an [Id] child. *)
Theorem unreachable_devices_can_be_deleted (query_dir : string)
    (query_parser : string -> result Element) (query_self : CspcApi)
    (w0 w1 : World) (devices : list Element) (out : list (gmap string string))
    (xml_request_dir : string)
    (fromstring : string -> result Element) (tostring : Element -> string)
    (self : CspcApi)
    (w : World) (payload : string) (tree : Element) (h : ElementTree.handle) :
  get_devices query_dir query_parser query_self w0 = (Ok devices, w1) ->
  get_unreachable_devices query_dir query_parser query_self w0 = (Ok out, w1) ->
  files w (os_path_join xml_request_dir "delete_multiple_devices.xml")
    = Some payload ->
  fromstring payload = Ok tree ->
  _get_xml_elem "DeviceList" tree = Ok (Some h) ->
  exists device_list tree',
    ElementTree.deref tree h = Some device_list
    /\ ElementTree.deref tree' h
       = Some (ElementTree.with_children device_list
                 (ElementTree.children device_list
                  ++ ((fun device =>
                         node "Device" None
                           [leaf "Id" (Some (PyStr.str_opt (field "Id" device)))
                              None] None)
                        <$> filter unreachable devices)))
    /\ delete_multiple_devices xml_request_dir fromstring tostring self out w
       = of_M (_xml self (tostring tree')) w.
Proof.
  intros Hget. rewrite (get_unreachable_devices_run _ _ _ _ _ _ Hget).
  intros [= Hloop] Hfile Htree [= Hfind].
  pose proof (unreachable_loop_Ok_inv _ _ _ Hloop) as Hall.
  rewrite unreachable_loop_ok in Hloop by done. injection Hloop as <-.
  cbn [app].
  set (ids := (fun device => PyStr.str_opt (field "Id" device))
                <$> filter unreachable devices).
  assert (Forall2 (fun dev id => dev !! "Id" = Some id)
            (dev_dict <$> filter unreachable devices) ids) as Hids.
  { unfold ids. apply Forall2_fmap, Forall_Forall2_diag, Forall_forall.
    intros device _. by rewrite dev_dict_lookup, bool_decide_eq_true_2 by set_solver. }
  destruct (find_descendant_deref _ _ _ Hfind) as (_ & e & He & _).
  destruct (append_each_spec tree h e (id_elem <$> ids) He)
    as (tree' & Heach & Hh' & _).
  exists e, tree'. split_and!; [done| |].
  - rewrite Hh'. unfold ids. by rewrite <-list_fmap_compose.
  - rewrite (delete_multiple_devices_run xml_request_dir fromstring tostring
               self _ w payload tree Hfile Htree).
    by rewrite Hfind, (delete_loop_ids _ _ _ ids Hids), Heach.
Qed.

Lemma unreachable_devices_can_be_deleted_witness :
  let out := [dev_dict (sample_device ("2", "router2", Some "Unreachable"))] in
  (delete_multiple_devices sample_dir (sample_parser "delete" sample_template)
     sample_tostring sample_self out (template_world accepted)).1
  = Returns "<Response/>"
  /\ (req_data <$> sent (delete_multiple_devices sample_dir
                           (sample_parser "delete" sample_template)
                           sample_tostring sample_self out
                           (template_world accepted)).2)
     = [Some "1"].
Proof.
  intros out.
  destruct (unreachable_devices_can_be_deleted sample_dir
              (sample_parser "<Response/>" (sample_inventory three_devices))
              sample_self sample_world
              (issued (xml_request sample_self "<Request/>") sample_world)
              (list_fmap _ _ sample_device three_devices) out
              sample_dir (sample_parser "delete" sample_template)
              sample_tostring sample_self (template_world accepted) "delete"
              sample_template [0; 1] eq_refl eq_refl eq_refl eq_refl eq_refl)
    as (device_list & tree' & Hd & Hd' & Hrun).
  injection Hd as <-. rewrite Hrun. unfold of_M. rewrite xml_run.
  unfold sample_tostring. rewrite Hd'. by split.
Defined.

(** X19: when every credential has its three keys,
    [add_multiple_device_credentials_snmpv2c] sends the template with
    one [DeviceCredential] per credential appended, in the order of the
    dictionary, to the first [DeviceCredentialList]: the name as
    [identifier], then [Protocol] snmpv2c, [ReadCommunity],
    [WriteCommunity] and an [IpExpressionList] with the one
    [IpExpression]. *)
Theorem snmpv2c_credentials_are_appended (xml_request_dir : string)
    (fromstring : string -> result Element) (tostring : Element -> string)
    (self : CspcApi) (credentials : list (string * gmap string string))
    (w : World) (payload : string) (tree : Element) (h : ElementTree.handle) :
  files w (os_path_join xml_request_dir "add_multiple_device_credentials.xml")
    = Some payload ->
  fromstring payload = Ok tree ->
  _get_xml_elem "DeviceCredentialList" tree = Ok (Some h) ->
  Forall (fun c => first_missing snmpv2c_keys c.2 = None) credentials ->
  exists cred_list tree',
    ElementTree.deref tree h = Some cred_list
    /\ ElementTree.deref tree' h
       = Some (ElementTree.with_children cred_list
                 (ElementTree.children cred_list
                  ++ (snmpv2c_credential <$> credentials)))
    /\ changed_under h tree tree'
    /\ add_multiple_device_credentials_snmpv2c xml_request_dir fromstring
         tostring self credentials w
       = of_M (_xml self (tostring tree')) w.
Proof.
  intros Hfile Htree [= Hfind] Hall.
  destruct (find_descendant_deref _ _ _ Hfind) as (_ & e & He & _).
  destruct (append_each_spec tree h e (snmpv2c_credential <$> credentials) He)
    as (tree' & Heach & Hh' & Hchanged).
  exists e, tree'. split_and!; [done..|].
  rewrite (add_credentials_snmpv2c_run xml_request_dir fromstring tostring self
             credentials w payload tree Hfile Htree).
  rewrite Hfind, (credentials_loop_built _ snmpv2c_credential), Heach; [done|].
  eapply Forall_impl; [exact Hall|]. intros [name c] Hc. cbn in *.
  by rewrite snmpv2c_elem_spec, Hc.
Qed.

Lemma snmpv2c_credentials_are_appended_witness :
  (add_multiple_device_credentials_snmpv2c sample_dir
     (sample_parser "credentials" credentials_template) count_tostring
     sample_self sample_snmp (template_world accepted)).1
  = Returns "<Response/>"
  /\ (req_data <$> sent (add_multiple_device_credentials_snmpv2c sample_dir
                           (sample_parser "credentials" credentials_template)
                           count_tostring sample_self sample_snmp
                           (template_world accepted)).2)
     = [Some "1"].
Proof.
  assert (Forall (fun c => first_missing snmpv2c_keys c.2 = None) sample_snmp)
    as Hall.
  { apply Forall_cons_2; [vm_compute; reflexivity|apply Forall_nil_2]. }
  destruct (snmpv2c_credentials_are_appended sample_dir
              (sample_parser "credentials" credentials_template) count_tostring
              sample_self sample_snmp (template_world accepted) "credentials"
              credentials_template [0] eq_refl eq_refl eq_refl Hall)
    as (cred_list & tree' & Hd & Hd' & _ & Hrun).
  injection Hd as <-. rewrite Hrun. unfold of_M. rewrite xml_run.
  unfold count_tostring. rewrite Hd'. by split.
Defined.

(** X20: when every credential has its four keys,
    [add_multiple_device_credentials_ssh] sends the template with one
    [DeviceCredential] per credential appended, in the order of the
    dictionary, to the first [DeviceCredentialList]: the name as
    [identifier], then [Protocol] sshv2, [UserName], [Password],
    [EnablePassword] and an [IpExpressionList] with the one
    [IpExpression]. *)
Theorem ssh_credentials_are_appended (xml_request_dir : string)
    (fromstring : string -> result Element) (tostring : Element -> string)
    (self : CspcApi) (credentials : list (string * gmap string string))
    (w : World) (payload : string) (tree : Element) (h : ElementTree.handle) :
  files w (os_path_join xml_request_dir "add_multiple_device_credentials.xml")
    = Some payload ->
  fromstring payload = Ok tree ->
  _get_xml_elem "DeviceCredentialList" tree = Ok (Some h) ->
  Forall (fun c => first_missing sshv2_keys c.2 = None) credentials ->
  exists cred_list tree',
    ElementTree.deref tree h = Some cred_list
    /\ ElementTree.deref tree' h
       = Some (ElementTree.with_children cred_list
                 (ElementTree.children cred_list
                  ++ (sshv2_credential <$> credentials)))
    /\ changed_under h tree tree'
    /\ add_multiple_device_credentials_ssh xml_request_dir fromstring
         tostring self credentials w
       = of_M (_xml self (tostring tree')) w.
Proof.
  intros Hfile Htree [= Hfind] Hall.
  destruct (find_descendant_deref _ _ _ Hfind) as (_ & e & He & _).
  destruct (append_each_spec tree h e (sshv2_credential <$> credentials) He)
    as (tree' & Heach & Hh' & Hchanged).
  exists e, tree'. split_and!; [done..|].
  rewrite (add_credentials_ssh_run xml_request_dir fromstring tostring self
             credentials w payload tree Hfile Htree).
  rewrite Hfind, (credentials_loop_built _ sshv2_credential), Heach; [done|].
  eapply Forall_impl; [exact Hall|]. intros [name c] Hc. cbn in *.
  by rewrite sshv2_elem_spec, Hc.
Qed.

Lemma ssh_credentials_are_appended_witness :
  (add_multiple_device_credentials_ssh sample_dir
     (sample_parser "credentials" credentials_template) count_tostring
     sample_self sample_ssh (template_world accepted)).1
  = Returns "<Response/>"
  /\ (req_data <$> sent (add_multiple_device_credentials_ssh sample_dir
                           (sample_parser "credentials" credentials_template)
                           count_tostring sample_self sample_ssh
                           (template_world accepted)).2)
     = [Some "1"].
Proof.
  assert (Forall (fun c => first_missing sshv2_keys c.2 = None) sample_ssh)
    as Hall.
  { apply Forall_cons_2; [vm_compute; reflexivity|apply Forall_nil_2]. }
  destruct (ssh_credentials_are_appended sample_dir
              (sample_parser "credentials" credentials_template) count_tostring
              sample_self sample_ssh (template_world accepted) "credentials"
              credentials_template [0] eq_refl eq_refl eq_refl Hall)
    as (cred_list & tree' & Hd & Hd' & _ & Hrun).
  injection Hd as <-. rewrite Hrun. unfold of_M. rewrite xml_run.
  unfold count_tostring. rewrite Hd'. by split.
Defined.

(** X21: a credential that lacks one of the keys the function reads
    makes both credential functions raise a [KeyError] for the first key
    it lacks, in the order [snmp_read_community], [snmp_write_community],
    [ip_expression], respectively [user], [password], [enable_password],
    [ip_expression]; nothing is sent, also when the credentials before it
    were complete. *)
Theorem credentials_need_every_key (xml_request_dir : string)
    (fromstring : string -> result Element) (tostring : Element -> string)
    (self : CspcApi) (good rest : list (string * gmap string string))
    (c : string * gmap string string) (k : string)
    (w : World) (payload : string) (tree : Element) (h : ElementTree.handle) :
  files w (os_path_join xml_request_dir "add_multiple_device_credentials.xml")
    = Some payload ->
  fromstring payload = Ok tree ->
  _get_xml_elem "DeviceCredentialList" tree = Ok (Some h) ->
  (Forall (fun c => first_missing snmpv2c_keys c.2 = None) good ->
   first_missing snmpv2c_keys c.2 = Some k ->
   add_multiple_device_credentials_snmpv2c xml_request_dir fromstring tostring
     self (good ++ c :: rest) w
   = (Raises (KeyError k), w))
  /\ (Forall (fun c => first_missing sshv2_keys c.2 = None) good ->
      first_missing sshv2_keys c.2 = Some k ->
      add_multiple_device_credentials_ssh xml_request_dir fromstring tostring
        self (good ++ c :: rest) w
      = (Raises (KeyError k), w)).
Proof.
  intros Hfile Htree [= Hfind].
  destruct (find_descendant_deref _ _ _ Hfind) as (_ & e & He & _).
  split; intros Hgood Hc.
  - rewrite (add_credentials_snmpv2c_run xml_request_dir fromstring tostring
               self _ w payload tree Hfile Htree).
    rewrite Hfind, (credentials_loop_raises _ tree h e good rest c (KeyError k));
      [done..| |].
    + eapply Forall_impl; [exact Hgood|]. intros [name g] Hg. cbn in *.
      rewrite snmpv2c_elem_spec, Hg. eauto.
    + by rewrite snmpv2c_elem_spec, Hc.
  - rewrite (add_credentials_ssh_run xml_request_dir fromstring tostring
               self _ w payload tree Hfile Htree).
    rewrite Hfind, (credentials_loop_raises _ tree h e good rest c (KeyError k));
      [done..| |].
    + eapply Forall_impl; [exact Hgood|]. intros [name g] Hg. cbn in *.
      rewrite sshv2_elem_spec, Hg. eauto.
    + by rewrite sshv2_elem_spec, Hc.
Qed.

Lemma credentials_need_every_key_witness :
  add_multiple_device_credentials_snmpv2c sample_dir
    (sample_parser "credentials" credentials_template) count_tostring
    sample_self (sample_snmp ++ edge_snmp :: []) (template_world accepted)
  = (Raises (KeyError "ip_expression"), template_world accepted).
Proof.
  destruct (credentials_need_every_key sample_dir
              (sample_parser "credentials" credentials_template) count_tostring
              sample_self sample_snmp [] edge_snmp "ip_expression"
              (template_world accepted) "credentials" credentials_template [0]
              eq_refl eq_refl eq_refl) as [Hsnmp _].
  apply Hsnmp.
  - apply Forall_cons_2; [vm_compute; reflexivity|apply Forall_nil_2].
  - vm_compute. reflexivity.
Defined.

(** ** Comparing contexts *)

Lemma str_app_inj_r (s s' t : string) : s +:+ t = s' +:+ t -> s = s'.
Proof.
  revert s'. induction s as [|c s IH]; intros [|c' s'] Heq.
  - done.
  - apply (f_equal String.length) in Heq.
    rewrite str_app_nil_l, str_app_cons in Heq. cbn in Heq.
    rewrite str_length_app in Heq. lia.
  - apply (f_equal String.length) in Heq.
    rewrite str_app_nil_l, str_app_cons in Heq. cbn in Heq.
    rewrite str_length_app in Heq. lia.
  - rewrite !str_app_cons in Heq. injection Heq as -> Heq.
    by rewrite (IH _ Heq).
Qed.

(** X22: two contexts made by the constructor compare equal exactly when
    they were made from the same host, user, password and verification
    flag; the port the constructor adds to the host does not blur two
    hosts, and equal contexts agree on every field, the credentials and
    the headers included. *)
Theorem constructed_contexts_are_equal_iff (host0 user0 pwd : string)
    (verify0 : bool) (host1 user1 pwd1 : string) (verify1 : bool) :
  (__eq__ (__init__ host0 user0 pwd verify0) (__init__ host1 user1 pwd1 verify1)
   = true
   <-> host0 = host1 /\ user0 = user1 /\ pwd = pwd1 /\ verify0 = verify1)
  /\ (__eq__ (__init__ host0 user0 pwd verify0)
        (__init__ host1 user1 pwd1 verify1) = true ->
      __init__ host0 user0 pwd verify0 = __init__ host1 user1 pwd1 verify1).
Proof.
  assert (__eq__ (__init__ host0 user0 pwd verify0)
            (__init__ host1 user1 pwd1 verify1) = true
          <-> host0 = host1 /\ user0 = user1 /\ pwd = pwd1 /\ verify0 = verify1)
    as Hiff.
  { unfold __eq__. rewrite bool_decide_eq_true. cbn [__init__ host user password
      kwargs verify]. split.
    - intros [= Hh -> -> ->]. by rewrite (str_app_inj_r _ _ _ Hh).
    - by intros (-> & -> & -> & ->). }
  split; [done|]. by intros (-> & -> & -> & ->)%Hiff.
Qed.

Lemma constructed_contexts_are_equal_iff_witness :
  __eq__ (__init__ "1.1.1.1" "user" "pw" true)
    (__init__ "1.1.1.1" "user" "pw" true) = true
  /\ __eq__ (__init__ "1.1.1.1" "user" "pw" true)
       (__init__ "1.1.1.18" "user" "pw" true) <> true.
Proof.
  split.
  - apply (proj2 (proj1 (constructed_contexts_are_equal_iff
                           "1.1.1.1" "user" "pw" true
                           "1.1.1.1" "user" "pw" true))).
    by split_and!.
  - intros Heq.
    apply (proj1 (proj1 (constructed_contexts_are_equal_iff
                           "1.1.1.1" "user" "pw" true
                           "1.1.1.18" "user" "pw" true))) in Heq.
    by destruct Heq as [[=] _].
Defined.
